(** * Sprint Pilot: the sync pipeline, embedded and verified

    A shallow embedding of the TypeScript sources of the sync pipeline
    (fetch, per-ticket analysis, priority sort and rendering, signed and
    retried webhook delivery) together with the properties its
    specification states about them.

    Conventions of the embedding.
    - A JavaScript string is a [string]; [toLowerCase] maps the ASCII
      capitals, which is all that the property names of this program
      can be reached by.
    - A quality score is a [Z] (the data model makes it an integer 1..5).
    - [Array.prototype.sort] is a stable insertion sort. The language
      fixes the result of a sort only for a consistent comparator, and
      the model stands for the engine there: on tickets whose
      priorities read as numbers, where every stable sort returns the
      same list ([sortTickets_unique]), and on elements that the
      comparator does not tell apart, which every stable sort leaves
      in place ([sort_indistinct]). Where the comparator is not
      consistent the order is the engine's own, and nothing is stated
      of it but that it is an order of the same tickets.
    - [createHmac] is HMAC-SHA-256 as RFC 2104 and FIPS 180-4 define it,
      checked against published digests at the end of the file.
    - A call that can throw returns a [Completion]: [Return v] or
      [Throw e], [e] a JavaScript error with its [name] and [message].
    - Whatever the program asks of the outside world (the generative
      model, the clock, the HTTP peer) is an explicit argument. *)

From Stdlib Require Import ZArith List String Ascii Bool Lia Arith.
From Stdlib Require Import Permutation Sorted DecimalString.
From Equations Require Import Equations.
Import ListNotations.
Local Open Scope list_scope.
Local Open Scope string_scope.

(* ===================================================================== *)
(** ** JavaScript values used by the program *)
(* ===================================================================== *)

Module JS.

(** [String.prototype.toLowerCase] on the ASCII range. *)
Definition lower_ascii (c : ascii) : ascii :=
  let n := nat_of_ascii c in
  if (65 <=? n)%nat && (n <=? 90)%nat then ascii_of_nat (n + 32) else c.

Fixpoint toLowerCase (s : string) : string :=
  match s with
  | EmptyString => EmptyString
  | String c r => String (lower_ascii c) (toLowerCase r)
  end.

Definition upper_ascii (c : ascii) : ascii :=
  let n := nat_of_ascii c in
  if (97 <=? n)%nat && (n <=? 122)%nat then ascii_of_nat (n - 32) else c.

Fixpoint toUpperCase (s : string) : string :=
  match s with
  | EmptyString => EmptyString
  | String c r => String (upper_ascii c) (toUpperCase r)
  end.

(** A thrown JavaScript error: the constructor's [name] and the [message]. *)
Record Error := mkError { name : string; message : string }.

Definition new_Error (msg : string) : Error := mkError "Error" msg.
Definition new_TypeError (msg : string) : Error := mkError "TypeError" msg.

(** The outcome of evaluating a call: a value, or a thrown error. *)
Inductive Completion (A : Type) : Type :=
| Return (v : A)
| Throw (e : Error).
Arguments Return {A} v.
Arguments Throw {A} e.

Definition bind {A B} (c : Completion A) (k : A -> Completion B) : Completion B :=
  match c with
  | Return v => k v
  | Throw e => Throw e
  end.

(** A JavaScript number as the comparator of [Array.prototype.sort]
    can return it: an integer here, or NaN. *)
Inductive Number := Num (z : Z) | NaN.

(** Decimal rendering of an integer, as a template literal prints it. *)
Definition string_of_nat (n : nat) : string :=
  NilEmpty.string_of_uint (Nat.to_uint n).

Definition string_of_Z (z : Z) : string :=
  match z with
  | Z0 => "0"
  | Zpos p => string_of_nat (Pos.to_nat p)
  | Zneg p => "-" ++ string_of_nat (Pos.to_nat p)
  end.

(** [Array.prototype.join]. *)
Fixpoint join (sep : string) (l : list string) : string :=
  match l with
  | [] => ""
  | [x] => x
  | x :: r => x ++ sep ++ join sep r
  end.

(** [s.startsWith(p)] *)
Fixpoint startsWith (p s : string) : bool :=
  match p with
  | EmptyString => true
  | String a p' =>
      match s with
      | EmptyString => false
      | String b s' => Ascii.eqb a b && startsWith p' s'
      end
  end.

(** [s.split('T')[0]]: what precedes the first ['T']. *)
Fixpoint before_T (s : string) : string :=
  match s with
  | EmptyString => EmptyString
  | String c r => if Ascii.eqb c "T"%char then EmptyString else String c (before_T r)
  end.

End JS.

(* ===================================================================== *)
(** ** src/types/index.ts *)
(* ===================================================================== *)

Module Types.

Record TaskStatus := mkStatus {
  status_status : string;
  status_color : option string }.

Record Assignee := mkAssignee {
  assignee_id : Z;
  username : string;
  email : option string }.

Record TaskPriority := mkPriority {
  priority_id : string;
  priority_priority : string;
  priority_color : string }.

Record TaskTag := mkTag {
  tag_name : string;
  tag_fg : option string;
  tag_bg : option string }.

(** [ClickUpTaskSchema]; an absent or null optional field is [None]. *)
Record ClickUpTask := mkTask {
  id : string;
  name : string;
  description : option string;
  status : TaskStatus;
  assignees : option (list Assignee);
  priority : option TaskPriority;
  tags : option (list TaskTag);
  due_date : option string;
  url : option string }.

Record RouteInfo := mkRoute {
  route_path : string;
  route_files : list string;
  route_exports : option (list string) }.

Record CodebaseMap := mkCodebaseMap {
  routes : list RouteInfo;
  components : list string;
  actions : list string;
  scannedAt : option string }.

(** [z.enum(['fix', 'feature'])] *)
Inductive ComplexityTag := fix_ | feature.

Definition ComplexityTag_eqb (a b : ComplexityTag) : bool :=
  match a, b with
  | fix_, fix_ | feature, feature => true
  | _, _ => false
  end.

Definition ComplexityTag_to_string (c : ComplexityTag) : string :=
  match c with fix_ => "fix" | feature => "feature" end.

(** [TicketAnalysisSchema] *)
Record TicketAnalysis := mkAnalysis {
  qualityScore : Z;
  qualityGaps : list string;
  affectedFiles : list string;
  complexityTag : ComplexityTag;
  suggestedApproach : string }.

(** [AnalyzedTicketSchema] *)
Record AnalyzedTicket := mkAnalyzed {
  ticket : ClickUpTask;
  analysis : TicketAnalysis }.

(** [SprintMetadataSchema] *)
Record SprintMetadata := mkMetadata {
  syncTimestamp : string;
  ticketCount : nat;
  listId : string;
  listName : option string }.

End Types.

(* ===================================================================== *)
(** ** src/tools/sprint-formatter.ts *)
(* ===================================================================== *)

Module Formatter.
Import JS Types.

(** What a property read on [PRIORITY_ORDER] can produce. The table is
    an object literal, so a key it does not own is looked up on
    [Object.prototype]: the read then yields a built-in object, not
    [undefined]. *)
Inductive Builtin :=
| Object_constructor
| Object_prototype
| Object_method (m : string).

Inductive PropValue :=
| PNum (n : Z)
| PRef (r : Builtin).

Definition Builtin_eqb (a b : Builtin) : bool :=
  match a, b with
  | Object_constructor, Object_constructor => true
  | Object_prototype, Object_prototype => true
  | Object_method m, Object_method m' => String.eqb m m'
  | _, _ => false
  end.

(** [===] on these values: numbers by value, objects by identity. *)
Definition strict_eq (a b : PropValue) : bool :=
  match a, b with
  | PNum x, PNum y => Z.eqb x y
  | PRef r, PRef r' => Builtin_eqb r r'
  | _, _ => false
  end.

Fixpoint assoc {A} (k : string) (l : list (string * A)) : option A :=
  match l with
  | [] => None
  | (k', v) :: r => if String.eqb k k' then Some v else assoc k r
  end.

(** The own properties of the table. *)
Definition PRIORITY_ORDER : list (string * Z) :=
  [ ("urgent", 1%Z); ("high", 2%Z); ("normal", 3%Z); ("low", 4%Z) ].

(** The properties every object literal inherits. *)
Definition Object_prototype_properties : list (string * Builtin) :=
  [ ("constructor", Object_constructor);
    ("__proto__", Object_prototype);
    ("__defineGetter__", Object_method "__defineGetter__");
    ("__defineSetter__", Object_method "__defineSetter__");
    ("__lookupGetter__", Object_method "__lookupGetter__");
    ("__lookupSetter__", Object_method "__lookupSetter__");
    ("hasOwnProperty", Object_method "hasOwnProperty");
    ("isPrototypeOf", Object_method "isPrototypeOf");
    ("propertyIsEnumerable", Object_method "propertyIsEnumerable");
    ("toLocaleString", Object_method "toLocaleString");
    ("toString", Object_method "toString");
    ("valueOf", Object_method "valueOf") ].

(** [PRIORITY_ORDER[k]]; [None] is [undefined]. *)
Definition PRIORITY_ORDER_get (k : string) : option PropValue :=
  match assoc k PRIORITY_ORDER with
  | Some n => Some (PNum n)
  | None =>
      match assoc k Object_prototype_properties with
      | Some r => Some (PRef r)
      | None => None
      end
  end.

Definition truthy (v : PropValue) : bool :=
  match v with
  | PNum n => negb (Z.eqb n 0)
  | PRef _ => true
  end.

(** [getPriorityOrder]: [!priority] holds of [undefined] and of the
    empty string. *)
Definition getPriorityOrder (priority : option string) : PropValue :=
  match priority with
  | None => PNum 5
  | Some p =>
      if String.eqb p "" then PNum 5
      else
        let normalized := toLowerCase p in
        match PRIORITY_ORDER_get normalized with
        | Some v => if truthy v then v else PNum 5
        | None => PNum 5
        end
  end.

(** [a - b]: an object operand converts to NaN. *)
Definition minus (a b : PropValue) : Number :=
  match a, b with
  | PNum x, PNum y => Num (x - y)
  | _, _ => NaN
  end.

(** [a.ticket.priority?.priority] *)
Definition priority_label (a : AnalyzedTicket) : option string :=
  option_map priority_priority (priority (ticket a)).

(** The comparator passed to [sort] in [sortTickets]. *)
Definition compareTickets (a b : AnalyzedTicket) : Number :=
  let priorityA := getPriorityOrder (priority_label a) in
  let priorityB := getPriorityOrder (priority_label b) in
  if negb (strict_eq priorityA priorityB) then minus priorityA priorityB
  else if negb (Z.eqb (qualityScore (analysis a)) (qualityScore (analysis b)))
  then Num (qualityScore (analysis b) - qualityScore (analysis a))
  else if negb (ComplexityTag_eqb (complexityTag (analysis a)) (complexityTag (analysis b)))
  then (match complexityTag (analysis a) with fix_ => Num (-1) | feature => Num 1 end)
  else Num 0.

(** [Array.prototype.sort]: the value of a comparator call, NaN read
    as [+0]. *)
Definition SortCompare {A} (comparefn : A -> A -> Number) (x y : A) : Z :=
  match comparefn x y with
  | Num v => v
  | NaN => 0%Z
  end.

(** [Array.prototype.sort] is a stable sort when [comparefn] is a
    consistent comparator for the elements, and its order is left to
    the engine when it is not. It is modelled by stable insertion: an
    element goes in front of the elements that came after it in the
    input unless the comparator puts it behind them. With a consistent
    comparator this is the list that every engine returns; the
    comparator of [sortTickets] is one on tickets whose priorities
    read as numbers ([sortTickets_unique]), and on a list where it
    answers NaN or 0 for each pair ([sort_indistinct]). On other lists
    the order computed here is one that the language allows and an
    engine need not return. *)
Fixpoint insert {A} (comparefn : A -> A -> Number) (x : A) (l : list A) : list A :=
  match l with
  | [] => [x]
  | y :: r =>
      if (0 <? SortCompare comparefn x y)%Z
      then y :: insert comparefn x r
      else x :: y :: r
  end.

Fixpoint sort {A} (comparefn : A -> A -> Number) (l : list A) : list A :=
  match l with
  | [] => []
  | x :: r => insert comparefn x (sort comparefn r)
  end.

(** [sortTickets]: [[...tickets].sort(...)] sorts a copy. *)
Definition sortTickets (tickets : list AnalyzedTicket) : list AnalyzedTicket :=
  sort compareTickets tickets.

(** [formatQualityScore] *)
Definition formatQualityScore (score : Z) (gaps : list string) : string :=
  match gaps with
  | [] => string_of_Z score ++ "/5"
  | _ => string_of_Z score ++ "/5 (missing: " ++ join ", " gaps ++ ")"
  end.

Definition nl : string := String (ascii_of_nat 10) EmptyString.
Definition dquote : string := String (ascii_of_nat 34) EmptyString.
Definition backtick : string := String (ascii_of_nat 96) EmptyString.

(** [x || dflt] on an optional string: absent and empty are falsy. *)
Definition or_default (x : option string) (dflt : string) : string :=
  match x with
  | Some s => if String.eqb s "" then dflt else s
  | None => dflt
  end.

Definition is_whitespace (c : ascii) : bool :=
  let n := nat_of_ascii c in
  ((n =? 32) || ((9 <=? n) && (n <=? 13)))%nat.

Fixpoint trimStart (s : string) : string :=
  match s with
  | EmptyString => EmptyString
  | String c r => if is_whitespace c then trimStart r else s
  end.

Fixpoint trimEnd (s : string) : string :=
  match s with
  | EmptyString => EmptyString
  | String c r =>
      match trimEnd r with
      | EmptyString => if is_whitespace c then EmptyString else String c EmptyString
      | r' => String c r'
      end
  end.

(** [String.prototype.trim], on the ASCII white space. *)
Definition trim (s : string) : string := trimEnd (trimStart s).

Section Rendering.
(** [new Date(s).toISOString()], which throws a [RangeError] when
    [s] is not a date. *)
Variable toISOString : string -> Completion string.
(** [(sum / n).toFixed(1)], a rendering of a floating-point quotient. *)
Variable toFixed1 : Z -> nat -> string.

(** [formatTicketMarkdown]; the lines it pushes, before the join. *)
Definition formatTicketLines (item : AnalyzedTicket) (index : nat) : Completion (list string) :=
  let t := ticket item in
  let a := analysis item in
  let tag := toUpperCase (ComplexityTag_to_string (complexityTag a)) in
  let head :=
    [ "### " ++ string_of_nat (index + 1) ++ ". [" ++ tag ++ "] " ++ name t;
      "- **ClickUp ID**: " ++ id t;
      "- **Status**: " ++ status_status (status t);
      "- **Quality**: " ++ formatQualityScore (qualityScore a) (qualityGaps a);
      "- **Complexity**: " ++ ComplexityTag_to_string (complexityTag a) ] in
  let prio :=
    match priority t with
    | Some p => [ "- **Priority**: " ++ priority_priority p ]
    | None => []
    end in
  let who :=
    match assignees t with
    | Some (x :: r) => [ "- **Assignees**: " ++ join ", " (map username (x :: r)) ]
    | _ => []
    end in
  let tgs :=
    match tags t with
    | Some (x :: r) => [ "- **Tags**: " ++ join ", " (map tag_name (x :: r)) ]
    | _ => []
    end in
  let due : Completion (list string) :=
    match due_date t with
    | Some d =>
        if String.eqb d "" then Return []
        else bind (toISOString d) (fun iso => Return [ "- **Due Date**: " ++ before_T iso ])
    | None => Return []
    end in
  let files :=
    match affectedFiles a with
    | [] => [ "- **Affected files**: (none identified)" ]
    | fs => "- **Affected files**:"
            :: map (fun file => "  - " ++ backtick ++ file ++ backtick) fs
    end in
  let tail_ :=
    [ "- **Suggested approach**: " ++ suggestedApproach a;
      "- **Agent**: " ++ (match complexityTag a with fix_ => "/fix" | feature => "/agent" end) ] in
  let desc :=
    match description t with
    | Some d => if String.eqb (trim d) "" then [] else [ ""; "**Description:**"; trim d ]
    | None => []
    end in
  let link :=
    match url t with
    | Some u => if String.eqb u "" then [] else [ ""; "[View in ClickUp](" ++ u ++ ")" ]
    | None => []
    end in
  bind due (fun due_lines =>
  Return (head ++ prio ++ who ++ tgs ++ due_lines ++ files ++ tail_ ++ desc ++ link)%list).

Definition formatTicketMarkdown (item : AnalyzedTicket) (index : nat) : Completion string :=
  bind (formatTicketLines item index) (fun lines => Return (join nl lines)).

(** [sortedTickets.forEach((ticket, index) => ...)] *)
Fixpoint ticket_sections (items : list AnalyzedTicket) (index : nat) : Completion (list string) :=
  match items with
  | [] => Return []
  | item :: rest =>
      bind (formatTicketMarkdown item index) (fun block =>
      bind (ticket_sections rest (index + 1)) (fun more =>
      Return (block :: "" :: "---" :: "" :: more)))
  end.

Definition count_tag (c : ComplexityTag) (tickets : list AnalyzedTicket) : nat :=
  List.length (filter (fun t => ComplexityTag_eqb (complexityTag (analysis t)) c) tickets).

Definition sum_quality (tickets : list AnalyzedTicket) : Z :=
  fold_left (fun sum t => (sum + qualityScore (analysis t))%Z) tickets 0%Z.

(** [sprintFormatterTool.execute]: the lines pushed, before the join. *)
Definition sprintFormatterLines (tickets : list AnalyzedTicket) (metadata : SprintMetadata)
    : Completion (list string) :=
  let sortedTickets := sortTickets tickets in
  bind (toISOString (syncTimestamp metadata)) (fun iso =>
  let sprintDate := before_T iso in
  bind (toISOString (syncTimestamp metadata)) (fun syncTime =>
  let listName_ := or_default (listName metadata) ("List " ++ listId metadata) in
  let avgQuality :=
    match tickets with
    | [] => "0"
    | _ => toFixed1 (sum_quality tickets) (List.length tickets)
    end in
  let front :=
    [ "# Sprint: " ++ sprintDate;
      "";
      "Synced from ClickUp List " ++ dquote ++ listName_ ++ dquote ++ " at " ++ syncTime;
      "Total tickets: " ++ string_of_nat (ticketCount metadata);
      "";
      "**Summary:**";
      "- Fixes: " ++ string_of_nat (count_tag fix_ tickets);
      "- Features: " ++ string_of_nat (count_tag feature tickets);
      "- Average Quality Score: " ++ avgQuality ++ "/5";
      "";
      "## Tickets (ordered by priority)";
      "" ] in
  match sortedTickets with
  | [] => Return (front ++ [ "No tickets found." ])%list
  | _ => bind (ticket_sections sortedTickets 0) (fun sections =>
         Return (front ++ sections)%list)
  end)).

Definition sprintFormatterTool (tickets : list AnalyzedTicket) (metadata : SprintMetadata)
    : Completion string :=
  bind (sprintFormatterLines tickets metadata) (fun lines => Return (join nl lines)).

End Rendering.

End Formatter.

(* ===================================================================== *)
(** ** The ticket analyzer: src/workflows/sprint-sync.ts (analyzeTicket)
       and src/tools/analyze-ticket.ts (analyzeTicketTool) *)
(* ===================================================================== *)

Module Analyzer.
Import JS Types.

Definition nl : string := String (ascii_of_nat 10) EmptyString.

(** One call of [generateObject]: the system instruction and the prompt. *)
Record ModelCall := mkCall { call_system : string; call_prompt : string }.

(** The generative model service. Its answer to the [n]-th call of a
    run is either an object that passed [TicketAnalysisSchema], or an
    exception (network error, malformed output, timeout). *)
Definition Model := nat -> ModelCall -> Completion TicketAnalysis.

(** [x || dflt] on an optional string: absent and empty are falsy. *)
Definition or_default (x : option string) (dflt : string) : string :=
  match x with
  | Some s => if String.eqb s "" then dflt else s
  | None => dflt
  end.

Definition ANALYSIS_SYSTEM_PROMPT : string :=
  "You are a senior software developer reviewing sprint tickets for quality and implementation planning."
  ++ nl ++
  "Assess quality 1-5, identify gaps, map to affected files, classify as fix/feature, provide implementation approach.".

Definition route_line (r : RouteInfo) : string :=
  route_path r ++ ": [" ++ join ", " (route_files r) ++ "]".

Definition userPrompt (ticket : ClickUpTask) (codebaseMap : CodebaseMap) : string :=
  "Analyze this ticket:" ++ nl ++
  "Title: " ++ name ticket ++ nl ++
  "Description: " ++ or_default (description ticket) "No description" ++ nl ++
  "Status: " ++ status_status (status ticket) ++ nl ++
  "Priority: " ++ or_default (option_map priority_priority (priority ticket)) "Not set" ++ nl ++
  nl ++
  "CODEBASE:" ++ nl ++
  "Routes: " ++ join nl (map route_line (routes codebaseMap)) ++ nl ++
  "Components: " ++ join ", " (firstn 50 (components codebaseMap)) ++ nl ++
  "Actions: " ++ join ", " (actions codebaseMap) ++ nl ++
  nl ++
  "Return JSON: { qualityScore, qualityGaps, affectedFiles, complexityTag, suggestedApproach }".

(** The object returned by the [catch] branch of [analyzeTicket]. *)
Definition fallbackAnalysis : TicketAnalysis :=
  {| qualityScore := 3;
     qualityGaps := ["Analysis failed - manual review needed"];
     affectedFiles := [];
     complexityTag := feature;
     suggestedApproach := "Review ticket manually" |}.

(** [analyzeTicket], as the [n]-th model call of the run. *)
Definition analyzeTicket (generateObject : Model) (n : nat)
    (ticket : ClickUpTask) (codebaseMap : CodebaseMap) : Completion TicketAnalysis :=
  match generateObject n (mkCall ANALYSIS_SYSTEM_PROMPT (userPrompt ticket codebaseMap)) with
  | Return object => Return object
  | Throw _ => Return fallbackAnalysis
  end.

(** *** The tool *)

Definition SYSTEM_PROMPT : string :=
  join nl
    [ "You are a senior software developer reviewing sprint tickets for quality and implementation planning.";
      "";
      "Your tasks:";
      "1. Assess the ticket's quality on a scale of 1-5 based on:";
      "   - Clarity of requirements";
      "   - Presence of acceptance criteria";
      "   - Sufficient technical details";
      "   - Error handling considerations";
      "   - Edge cases mentioned";
      "";
      "2. Identify quality gaps with specific, actionable feedback";
      "";
      "3. Map the ticket to affected files in the codebase by:";
      "   - Matching ticket description keywords to file paths";
      "   - Considering the feature area (auth, profile, ui, etc.)";
      "   - Identifying related components, pages, and server actions";
      "   - Being specific with file paths (use the exact paths from codebaseMap)";
      "";
      "4. Classify as 'fix' or 'feature':";
      "   - 'fix': Bug fixes, styling updates, small corrections";
      "   - 'feature': New functionality, major changes, new pages";
      "";
      "5. Provide a 1-2 sentence implementation approach that is specific and actionable";
      "";
      "Be thorough but concise. Focus on practical guidance that helps developers implement the ticket efficiently." ].

Definition tag_names (ticket : ClickUpTask) : option string :=
  option_map (fun ts => join ", " (map tag_name ts)) (tags ticket).

Definition toolPrompt (ticket : ClickUpTask) (codebaseMap : CodebaseMap) : string :=
  "Analyze this ticket and map it to the codebase:" ++ nl ++
  nl ++
  "TICKET:" ++ nl ++
  "Title: " ++ name ticket ++ nl ++
  "Description: " ++ or_default (description ticket) "No description provided" ++ nl ++
  "Status: " ++ status_status (status ticket) ++ nl ++
  "Priority: " ++ or_default (option_map priority_priority (priority ticket)) "Not set" ++ nl ++
  "Tags: " ++ or_default (tag_names ticket) "None" ++ nl ++
  "URL: " ++ or_default (url ticket) "N/A" ++ nl ++
  nl ++
  "CODEBASE STRUCTURE:" ++ nl ++
  "Routes:" ++ nl ++
  join nl (map (fun r => "  " ++ route_line r) (routes codebaseMap)) ++ nl ++
  nl ++
  "Components:" ++ nl ++
  join (nl ++ "  ") (firstn 50 (components codebaseMap)) ++
  (if (50 <? List.length (components codebaseMap))%nat then nl ++ "  ... and more" else "") ++ nl ++
  nl ++
  "Server Actions:" ++ nl ++
  join (nl ++ "  ") (actions codebaseMap) ++ nl ++
  nl ++
  "Provide your analysis as a JSON object with: qualityScore, qualityGaps, affectedFiles, complexityTag, suggestedApproach.".

(** The object returned by the [catch] branch of the tool. *)
Definition toolFallbackAnalysis : TicketAnalysis :=
  {| qualityScore := 3;
     qualityGaps := ["Unable to perform detailed analysis due to technical error"];
     affectedFiles := [];
     complexityTag := feature;
     suggestedApproach := "Review ticket requirements and identify relevant files manually" |}.

(** [analyzeTicketTool.execute] *)
Definition analyzeTicketTool (generateObject : Model) (n : nat)
    (ticket : ClickUpTask) (codebaseMap : CodebaseMap) : Completion TicketAnalysis :=
  match generateObject n (mkCall SYSTEM_PROMPT (toolPrompt ticket codebaseMap)) with
  | Return analysis => Return analysis
  | Throw _ => Return toolFallbackAnalysis
  end.

(** *** The batch step *)

(** [tasks.slice(i, j)] *)
Definition slice {A} (i j : nat) (l : list A) : list A :=
  firstn (j - i) (skipn i l).

(** [Promise.all(batch.map(async ticket => ...))]: every callback runs
    up to its model call in the order of the batch, so the calls are
    issued, and logged, in that order; the results are assembled in the
    order of the batch; a rejected callback rejects the whole. [calls]
    is the log of model calls made so far in the run. *)
Fixpoint Promise_all_map (generateObject : Model) (codebaseMap : CodebaseMap)
    (batch : list ClickUpTask) (calls : list ModelCall)
    : Completion (list AnalyzedTicket) * list ModelCall :=
  match batch with
  | [] => (Return [], calls)
  | ticket :: rest =>
      let this := analyzeTicket generateObject (List.length calls) ticket codebaseMap in
      let calls1 := (calls ++ [mkCall ANALYSIS_SYSTEM_PROMPT (userPrompt ticket codebaseMap)])%list in
      let '(others, calls2) := Promise_all_map generateObject codebaseMap rest calls1 in
      (bind this (fun analysis =>
         bind others (fun rs => Return (mkAnalyzed ticket analysis :: rs))),
       calls2)
  end.

Definition batchSize : nat := 5.

(** The [for (let i = 0; i < tasks.length; i += batchSize)] loop of
    [analyzeTicketsStep], entered at index [i] with the [results]
    pushed so far. *)
Equations? analyze_loop (generateObject : Model) (codebaseMap : CodebaseMap)
    (tasks : list ClickUpTask) (i : nat)
    (results : list AnalyzedTicket) (calls : list ModelCall)
    : Completion (list AnalyzedTicket) * list ModelCall
    by wf (List.length tasks - i) lt :=
  analyze_loop generateObject codebaseMap tasks i results calls
    with lt_dec i (List.length tasks) => {
    | right _ => (Return results, calls)
    | left _ with Promise_all_map generateObject codebaseMap
                    (slice i (i + batchSize) tasks) calls => {
        | (Return batchResults, calls') =>
            analyze_loop generateObject codebaseMap tasks (i + batchSize)
              (results ++ batchResults)%list calls'
        | (Throw e, calls') => (Throw e, calls') } }.
Proof. unfold batchSize. lia. Qed.

(** [analyzeTicketsStep.execute], on the [tasks] and [codebaseMap] of
    its input; the empty list returns before the loop. *)
Definition analyzeTicketsStep (generateObject : Model) (codebaseMap : CodebaseMap)
    (tasks : list ClickUpTask) : Completion (list AnalyzedTicket) * list ModelCall :=
  match tasks with
  | [] => (Return [], [])
  | _ => analyze_loop generateObject codebaseMap tasks 0 [] []
  end.

End Analyzer.

(* ===================================================================== *)
(** ** node:crypto, as far as the program uses it:
       [createHmac('sha256', key).update(data).digest('hex')] *)
(* ===================================================================== *)

Module Crypto.
Local Open Scope Z_scope.

(** Bytes are integers in [0, 256); a string is hashed as its bytes. *)
Fixpoint bytes_of_string (s : string) : list Z :=
  match s with
  | EmptyString => []
  | String c r => Z.of_nat (nat_of_ascii c) :: bytes_of_string r
  end.

(** *** SHA-256 (FIPS 180-4) on 32-bit words *)

Definition w32 (x : Z) : Z := Z.land x 0xFFFFFFFF.
Definition add32 (x y : Z) : Z := w32 (x + y).
Definition ROTR (n x : Z) : Z := Z.lor (Z.shiftr x n) (w32 (Z.shiftl x (32 - n))).
Definition SHR (n x : Z) : Z := Z.shiftr x n.
Definition Ch (x y z : Z) : Z := Z.lxor (Z.land x y) (Z.land (Z.lxor x 0xFFFFFFFF) z).
Definition Maj (x y z : Z) : Z := Z.lxor (Z.lxor (Z.land x y) (Z.land x z)) (Z.land y z).
Definition Sigma0 (x : Z) : Z := Z.lxor (Z.lxor (ROTR 2 x) (ROTR 13 x)) (ROTR 22 x).
Definition Sigma1 (x : Z) : Z := Z.lxor (Z.lxor (ROTR 6 x) (ROTR 11 x)) (ROTR 25 x).
Definition sigma0 (x : Z) : Z := Z.lxor (Z.lxor (ROTR 7 x) (ROTR 18 x)) (SHR 3 x).
Definition sigma1 (x : Z) : Z := Z.lxor (Z.lxor (ROTR 17 x) (ROTR 19 x)) (SHR 10 x).

(** The value of a hexadecimal digit. *)
Definition digit_value (c : ascii) : Z :=
  let n := Z.of_nat (nat_of_ascii c) in
  if n <? 58 then n - 48 else n - 87.

(** The 32-bit words written in a string, 8 digits each. *)
Fixpoint words_of_hex (s : string) : list Z :=
  match s with
  | String d7 (String d6 (String d5 (String d4
      (String d3 (String d2 (String d1 (String d0 r))))))) =>
      fold_left (fun acc d => 16 * acc + digit_value d) [d7; d6; d5; d4; d3; d2; d1; d0] 0
      :: words_of_hex r
  | _ => []
  end.

(** The round constants: the fractional parts of the cube roots of the
    first 64 primes. *)
Definition K256 : list Z :=
  words_of_hex
    ("428a2f9871374491b5c0fbcfe9b5dba53956c25b59f111f1923f82a4ab1c5ed5" ++
     "d807aa9812835b01243185be550c7dc372be5d7480deb1fe9bdc06a7c19bf174" ++
     "e49b69c1efbe47860fc19dc6240ca1cc2de92c6f4a7484aa5cb0a9dc76f988da" ++
     "983e5152a831c66db00327c8bf597fc7c6e00bf3d5a7914706ca635114292967" ++
     "27b70a852e1b21384d2c6dfc53380d13650a7354766a0abb81c2c92e92722c85" ++
     "a2bfe8a1a81a664bc24b8b70c76c51a3d192e819d6990624f40e3585106aa070" ++
     "19a4c1161e376c082748774c34b0bcb5391c0cb34ed8aa4a5b9cca4f682e6ff3" ++
     "748f82ee78a5636f84c878148cc7020890befffaa4506cebbef9a3f7c67178f2")%string.

(** The initial hash value: the fractional parts of the square roots
    of the first 8 primes. *)
Definition H_init : list Z :=
  words_of_hex "6a09e667bb67ae853c6ef372a54ff53a510e527f9b05688c1f83d9ab5be0cd19".

(** Big-endian bytes of an integer, [n] of them. *)
Fixpoint be_bytes (n : nat) (x : Z) : list Z :=
  match n with
  | O => []
  | S n' => (Z.shiftr x (8 * Z.of_nat n') mod 256) :: be_bytes n' x
  end.

(** Padding: the bit 1, zeros up to 56 modulo 64, the bit length on 8 bytes. *)
Definition pad (msg : list Z) : list Z :=
  let len := Z.of_nat (List.length msg) in
  let zeros := Z.to_nat ((55 - len) mod 64) in
  msg ++ [0x80] ++ repeat 0 zeros ++ be_bytes 8 (8 * len).

(** Big-endian 32-bit words of a byte list. *)
Fixpoint words_of_bytes (l : list Z) : list Z :=
  match l with
  | b0 :: b1 :: b2 :: b3 :: r =>
      (b0 * 16777216 + b1 * 65536 + b2 * 256 + b3) :: words_of_bytes r
  | _ => []
  end.

(** The list split into chunks of [n + 1] elements. *)
Fixpoint chunks_aux {A} (n : nat) (k : nat) (cur : list A) (l : list A) : list (list A) :=
  match l with
  | [] => match cur with [] => [] | _ => [rev cur] end
  | x :: r =>
      match k with
      | O => rev (x :: cur) :: chunks_aux n n [] r
      | S k' => chunks_aux n k' (x :: cur) r
      end
  end.

Definition chunks {A} (size : nat) (l : list A) : list (list A) :=
  chunks_aux (pred size) (pred size) [] l.

(** The message schedule, most recent word first: [t] more words
    are added to [ws]. *)
Fixpoint schedule (t : nat) (ws : list Z) : list Z :=
  match t with
  | O => ws
  | S t' =>
      let wt := add32 (add32 (sigma1 (nth 1 ws 0)) (nth 6 ws 0))
                      (add32 (sigma0 (nth 14 ws 0)) (nth 15 ws 0)) in
      schedule t' (wt :: ws)
  end.

Record Regs := mkRegs { ra : Z; rb : Z; rc : Z; rd : Z; re : Z; rf : Z; rg : Z; rh : Z }.

Definition round (s : Regs) (kw : Z * Z) : Regs :=
  let '(k, w) := kw in
  let T1 := add32 (add32 (add32 (add32 (rh s) (Sigma1 (re s))) (Ch (re s) (rf s) (rg s))) k) w in
  let T2 := add32 (Sigma0 (ra s)) (Maj (ra s) (rb s) (rc s)) in
  mkRegs (add32 T1 T2) (ra s) (rb s) (rc s) (add32 (rd s) T1) (re s) (rf s) (rg s).

Definition regs_of (h : list Z) : Regs :=
  mkRegs (nth 0 h 0) (nth 1 h 0) (nth 2 h 0) (nth 3 h 0)
         (nth 4 h 0) (nth 5 h 0) (nth 6 h 0) (nth 7 h 0).

Definition compress (h : list Z) (block : list Z) : list Z :=
  let W := rev (schedule 48 (rev (words_of_bytes block))) in
  let s0 := regs_of h in
  let s := fold_left round (combine K256 W) s0 in
  [ add32 (ra s0) (ra s); add32 (rb s0) (rb s); add32 (rc s0) (rc s); add32 (rd s0) (rd s);
    add32 (re s0) (re s); add32 (rf s0) (rf s); add32 (rg s0) (rg s); add32 (rh s0) (rh s) ].

(** The digest, 32 bytes. *)
Definition sha256 (msg : list Z) : list Z :=
  flat_map (be_bytes 4) (fold_left compress (chunks 64 (pad msg)) H_init).

(** *** HMAC (RFC 2104) with SHA-256: block size 64 *)

Definition block_size : nat := 64.

(** The key as the block it is used as: hashed when longer than a
    block, then filled with zero bytes. *)
Definition key_block (key : list Z) : list Z :=
  let k := if (block_size <? List.length key)%nat then sha256 key else key in
  k ++ repeat 0 (block_size - List.length k).

Definition xor_with (c : Z) (l : list Z) : list Z := map (Z.lxor c) l.

Definition hmac_sha256 (key msg : list Z) : list Z :=
  let kb := key_block key in
  sha256 (xor_with 0x5c kb ++ sha256 (xor_with 0x36 kb ++ msg)).

(** *** [digest('hex')] *)

Definition hex_digit (n : Z) : ascii :=
  if n <? 10 then ascii_of_nat (Z.to_nat (48 + n)) else ascii_of_nat (Z.to_nat (87 + n)).

Fixpoint hex (l : list Z) : string :=
  match l with
  | [] => EmptyString
  | b :: r => String (hex_digit (b / 16)) (String (hex_digit (b mod 16)) (hex r))
  end.

(** [createHmac('sha256', secret).update(data).digest('hex')] *)
Definition createHmac_sha256_hex (secret data : string) : string :=
  hex (hmac_sha256 (bytes_of_string secret) (bytes_of_string data)).

End Crypto.

(* ===================================================================== *)
(** ** HTTP, as the program sees it through [fetch] *)
(* ===================================================================== *)

Module Http.
Import JS.

Record Request := mkRequest {
  req_method : string;
  req_url : string;
  req_headers : list (string * string);
  req_body : option string }.

(** What [await fetch(...)] does: it resolves with a response, or it
    rejects (a network failure, or the abort of the request). *)
Record Response := mkResponse {
  resp_status : Z;
  resp_statusText : string;
  resp_body : string }.

Inductive FetchOutcome :=
| Resolves (r : Response)
| Rejects (e : Error).

(** [response.ok] *)
Definition ok (r : Response) : bool :=
  ((200 <=? resp_status r) && (resp_status r <=? 299))%Z.

(** A header of an incoming request; node lower-cases the names. *)
Fixpoint header (k : string) (hs : list (string * string)) : option string :=
  match hs with
  | [] => None
  | (k', v) :: r => if String.eqb (toLowerCase k') k then Some v else header k r
  end.

End Http.

(* ===================================================================== *)
(** ** src/workflows/sprint-sync.ts: deliverWebhook *)
(* ===================================================================== *)

Module Delivery.
Import JS Http.

(** What the delivery does to the outside, in order. *)
Inductive Event :=
| Post (attempt : nat) (r : Request)
| Sleep (ms : Z).

(** The destination: its answer to the request of a given attempt. *)
Definition Destination := nat -> Request -> FetchOutcome.

Section deliverWebhook.
Context {Payload : Type}.
(** [JSON.stringify] on the payload. *)
Variable JSON_stringify : Payload -> string.
Variable destination : Destination.
Variable webhookUrl : string.
Variable payload : Payload.
Variable secret : option string.
Variable retries : nat.

(** The signature computed at the head of the [try] block;
    [if (secret)] is false of the empty string. *)
Definition signature : option string :=
  match secret with
  | Some s =>
      if String.eqb s "" then None
      else Some ("sha256=" ++ Crypto.createHmac_sha256_hex s (JSON_stringify payload))
  | None => None
  end.

Definition headers : list (string * string) :=
  ([ ("Content-Type", "application/json");
     ("User-Agent", "Sprint-Pilot/1.0") ]
   ++ match signature with
      | Some sig => [ ("X-Sprint-Pilot-Signature", sig) ]
      | None => []
      end)%list.

Definition request : Request :=
  {| req_method := "POST";
     req_url := webhookUrl;
     req_headers := headers;
     req_body := Some (JSON_stringify payload) |}.

(** The body of the [try] block for one attempt. *)
Definition attempt_once (attempt : nat) : Completion unit :=
  match destination attempt request with
  | Resolves response =>
      if ok response then Return tt
      else Throw (new_Error ("Webhook delivery failed: "
                               ++ string_of_Z (resp_status response) ++ " "
                               ++ resp_statusText response))
  | Rejects e => Throw e
  end.

(** [Math.pow(2, attempt) * 1000] *)
Definition delay (attempt : nat) : Z := (2 ^ Z.of_nat attempt * 1000)%Z.

(** The [for (let attempt = 0; attempt < retries; attempt++)] loop,
    entered at [attempt] with the current [lastError]; [trace] is
    what has been done so far. *)
Equations? deliver_loop (attempt : nat) (lastError : option Error) (trace : list Event)
    : Completion unit * list Event by wf (retries - attempt) lt :=
  deliver_loop attempt lastError trace with lt_dec attempt retries => {
    | right _ =>
        (Throw (match lastError with
                | Some e => e
                | None => new_Error "Webhook delivery failed after retries"
                end), trace)
    | left _ with attempt_once attempt => {
        | Return _ => (Return tt, (trace ++ [Post attempt request])%list)
        | Throw error =>
            deliver_loop (attempt + 1) (Some error)
              (trace ++ [Post attempt request]
                     ++ (if (attempt <? retries - 1)%nat then [Sleep (delay attempt)] else []))%list } }.
Proof. lia. Qed.

Definition deliverWebhook : Completion unit * list Event :=
  deliver_loop 0 None [].

End deliverWebhook.

(** The default of the [retries] parameter. *)
Definition default_retries : nat := 3.

(** The number of requests sent, and the time slept, in a trace. *)
Definition attempts (trace : list Event) : nat :=
  List.length (filter (fun e => match e with Post _ _ => true | Sleep _ => false end) trace).

Definition total_delay (trace : list Event) : Z :=
  fold_right (fun e acc => match e with Sleep ms => (ms + acc)%Z | Post _ _ => acc end) 0%Z trace.

End Delivery.

(* ===================================================================== *)
(** ** client/webhook-receiver.ts: the signature check *)
(* ===================================================================== *)

Module Receiver.
Import JS Http.

(** [verifySignature] *)
Definition verifySignature (payload signature secret : string) : bool :=
  let expectedSignature := "sha256=" ++ Crypto.createHmac_sha256_hex secret payload in
  String.eqb signature expectedSignature.

Inductive Verdict :=
| Reply (status : Z) (error : string)
| Authenticated.

(** The head of the [req.on('end')] handler of [createServer]: the
    check made on the raw [body] before it is parsed. [secret] is the
    value of [--secret], if any. *)
Definition authenticate (secret : option string) (hs : list (string * string))
    (body : string) : Verdict :=
  match secret with
  | Some s =>
      if String.eqb s "" then Authenticated
      else
        match header "x-sprint-pilot-signature" hs with
        | None => Reply 401 "Missing signature header"
        | Some sig =>
            if String.eqb sig "" then Reply 401 "Missing signature header"
            else if verifySignature body sig s then Authenticated
            else Reply 401 "Invalid signature"
        end
  | None => Authenticated
  end.

End Receiver.

(* ===================================================================== *)
(** ** The task source: src/workflows/sprint-sync.ts (fetchClickUpTasks)
       and src/tools/clickup-sync.ts (clickupSyncTool) *)
(* ===================================================================== *)

Module Source.
Import JS Http.

(** A value obtained from [response.json()] or built from such values
    by the program. *)
#[local] Set Warnings "-register-all".
Inductive Value :=
| VUndefined
| VNull
| VBool (b : bool)
| VNumber (n : Z)
| VString (s : string)
| VArray (elems : list Value)
| VObject (props : list (string * Value)).

Fixpoint lookup (k : string) (props : list (string * Value)) : option Value :=
  match props with
  | [] => None
  | (k', v) :: r => if String.eqb k k' then Some v else lookup k r
  end.

(** [v.k], for the data keys the program reads ([id], [name],
    [status], ...): none of them is defined on a prototype, so the
    read is [undefined] unless [v] is an object that owns the key.
    Reading a property of [null] or [undefined] throws. *)
Definition get (v : Value) (k : string) : Completion Value :=
  match v with
  | VUndefined =>
      Throw (new_TypeError ("Cannot read properties of undefined (reading '" ++ k ++ "')"))
  | VNull =>
      Throw (new_TypeError ("Cannot read properties of null (reading '" ++ k ++ "')"))
  | VObject props =>
      Return (match lookup k props with Some x => x | None => VUndefined end)
  | _ => Return VUndefined
  end.

(** [v?.k] *)
Definition get_opt (v : Value) (k : string) : Completion Value :=
  match v with
  | VUndefined | VNull => Return VUndefined
  | _ => get v k
  end.

Definition truthy (v : Value) : bool :=
  match v with
  | VUndefined | VNull => false
  | VBool b => b
  | VNumber n => negb (Z.eqb n 0)
  | VString s => negb (String.eqb s "")
  | VArray _ | VObject _ => true
  end.

(** [a || b] *)
Definition or (a b : Value) : Value := if truthy a then a else b.

(** [String(v)]. An array prints its elements separated by commas,
    [null] and [undefined] elements as nothing. An object prints as
    [[object Object]] through the inherited [toString]; if it owns a
    [toString] property, which in parsed JSON is never callable, the
    conversion finds no method that yields a primitive and throws. *)
Fixpoint String_ (v : Value) : Completion string :=
  match v with
  | VUndefined => Return "undefined"
  | VNull => Return "null"
  | VBool true => Return "true"
  | VBool false => Return "false"
  | VNumber n => Return (string_of_Z n)
  | VString s => Return s
  | VArray elems =>
      (fix elements (l : list Value) : Completion string :=
         match l with
         | [] => Return ""
         | x :: r =>
             bind (match x with
                   | VUndefined | VNull => Return ""
                   | _ => String_ x
                   end) (fun sx =>
             match r with
             | [] => Return sx
             | _ => bind (elements r) (fun sr => Return (sx ++ "," ++ sr))
             end)
         end) elems
  | VObject props =>
      match lookup "toString" props with
      | Some _ => Throw (new_TypeError "Cannot convert object to primitive value")
      | None => Return "[object Object]"
      end
  end.

(** *** zod *)

Inductive Schema :=
| z_string
| z_number
| z_any
| z_object (shape : list (string * Schema))
| z_array (element : Schema)
| z_optional (inner : Schema)
| z_nullable (inner : Schema).

(** [schema.parse(v)]: the parsed value, or [None] when it throws a
    [ZodError]. An object schema strips the keys it does not know and
    keeps a key that the input owns or that parsed to a defined value. *)
Fixpoint parse (schema : Schema) (v : Value) {struct schema} : option Value :=
  match schema with
  | z_string => match v with VString _ => Some v | _ => None end
  | z_number => match v with VNumber _ => Some v | _ => None end
  | z_any => Some v
  | z_object shape =>
      match v with
      | VObject props =>
          option_map VObject
            ((fix fields (sh : list (string * Schema)) : option (list (string * Value)) :=
                match sh with
                | [] => Some []
                | (k, s) :: rest =>
                    let input := match lookup k props with Some x => x | None => VUndefined end in
                    match parse s input, fields rest with
                    | Some x, Some out =>
                        match lookup k props, x with
                        | None, VUndefined => Some out
                        | _, _ => Some ((k, x) :: out)
                        end
                    | _, _ => None
                    end
                end) shape)
      | _ => None
      end
  | z_array element =>
      match v with
      | VArray elems =>
          option_map VArray
            (fold_right (fun x acc =>
                           match parse element x, acc with
                           | Some y, Some ys => Some (y :: ys)
                           | _, _ => None
                           end) (Some []) elems)
      | _ => None
      end
  | z_optional inner =>
      match v with VUndefined => Some VUndefined | _ => parse inner v end
  | z_nullable inner =>
      match v with VNull => Some VNull | _ => parse inner v end
  end.

(** [ClickUpTaskSchema] of src/types/index.ts *)
Definition ClickUpTaskSchema : Schema :=
  z_object
    [ ("id", z_string);
      ("name", z_string);
      ("description", z_optional (z_nullable z_string));
      ("status", z_object [ ("status", z_string); ("color", z_optional z_string) ]);
      ("assignees", z_optional (z_array (z_object
          [ ("id", z_number); ("username", z_string); ("email", z_optional z_string) ])));
      ("priority", z_optional (z_nullable (z_object
          [ ("id", z_string); ("priority", z_string); ("color", z_string) ])));
      ("tags", z_optional (z_array (z_object
          [ ("name", z_string); ("tag_fg", z_optional z_string); ("tag_bg", z_optional z_string) ])));
      ("due_date", z_optional (z_nullable z_string));
      ("custom_fields", z_optional (z_array z_any));
      ("url", z_optional z_string) ].

(** *** The requests *)

Definition CLICKUP_API_BASE : string := "https://api.clickup.com/api/v2".

(** The network: how long the request takes to settle, in
    milliseconds, and how it settles. *)
Definition Upstream := Request -> Z * FetchOutcome.

Definition timeout_ms : Z := 30000.

(** [fetch] with the [signal] of an [AbortController] that a timer
    aborts after [timeout_ms]; the timer is cleared once [fetch] has
    settled. *)
Definition fetch_with_timeout (upstream : Upstream) (r : Request) : FetchOutcome :=
  let '(elapsed, outcome) := upstream r in
  if (timeout_ms <=? elapsed)%Z
  then Rejects (mkError "AbortError" "This operation was aborted")
  else outcome.

Definition string_of_bool (b : bool) : string := if b then "true" else "false".

Section Clients.
(** [getEnvVar] of src/utils/env.ts, which throws when the variable
    is not set. *)
Variable getEnvVar : string -> Completion string.
(** [JSON.parse], as [response.json()] applies it to the body. *)
Variable JSON_parse : string -> Completion Value.
(** The form encoding [URLSearchParams] applies to a value. *)
Variable form_encode : string -> string.
Variable upstream : Upstream.

(** [listId || getEnvVar('CLICKUP_LIST_ID')] *)
Definition resolve_listId (listId : option string) : Completion string :=
  match listId with
  | Some l => if String.eqb l "" then getEnvVar "CLICKUP_LIST_ID" else Return l
  | None => getEnvVar "CLICKUP_LIST_ID"
  end.

Definition get_request (url apiToken : string) : Request :=
  {| req_method := "GET";
     req_url := url;
     req_headers := [ ("Authorization", apiToken); ("Content-Type", "application/json") ];
     req_body := None |}.

(** [data.tasks], which must be an array for [.map] to be callable. *)
Definition tasks_of (data : Value) : Completion (list Value) :=
  bind (get data "tasks") (fun ts =>
  match ts with
  | VArray l => Return l
  | VUndefined => Throw (new_TypeError "Cannot read properties of undefined (reading 'map')")
  | VNull => Throw (new_TypeError "Cannot read properties of null (reading 'map')")
  | _ => Throw (new_TypeError "data.tasks.map is not a function")
  end).

(** [array.map(f)] for a callback that can throw. *)
Fixpoint map_throwing {A B} (f : A -> Completion B) (l : list A) : Completion (list B) :=
  match l with
  | [] => Return []
  | x :: r => bind (f x) (fun y => bind (map_throwing f r) (fun ys => Return (y :: ys)))
  end.

(** **** The workflow's client *)

(** The [catch] branch of the callback in [fetchClickUpTasks]. *)
Definition coerce (task : Value) : Completion Value :=
  let t := task in
  bind (get t "id") (fun t_id =>
  bind (String_ t_id) (fun id =>
  bind (get t "name") (fun t_name =>
  bind (String_ (or t_name (VString "Untitled Task"))) (fun name =>
  bind (get t "description") (fun t_description =>
  bind (get t "status") (fun t_status =>
  bind (get_opt t_status "status") (fun status_status =>
  bind (get t "assignees") (fun t_assignees =>
  bind (get t "priority") (fun t_priority =>
  bind (get t "tags") (fun t_tags =>
  bind (get t "due_date") (fun t_due_date =>
  bind (get t "custom_fields") (fun t_custom_fields =>
  bind (get t "url") (fun t_url =>
  Return (VObject
    [ ("id", VString id);
      ("name", VString name);
      ("description", or t_description VNull);
      ("status", VObject [ ("status", or status_status (VString "unknown")) ]);
      ("assignees", or t_assignees (VArray []));
      ("priority", or t_priority VNull);
      ("tags", or t_tags (VArray []));
      ("due_date", or t_due_date VNull);
      ("custom_fields", or t_custom_fields (VArray []));
      ("url", or t_url (VString "")) ])))))))))))))).

(** The callback of [data.tasks.map] in [fetchClickUpTasks]. *)
Definition parse_or_coerce (task : Value) : Completion Value :=
  match parse ClickUpTaskSchema task with
  | Some parsed => Return parsed
  | None => coerce task
  end.

(** [fetchClickUpTasks]: the outcome, and the requests sent. *)
Definition fetchClickUpTasks (listId : option string) (includeSubtasks : bool)
    : Completion (list Value * string) * list Request :=
  match resolve_listId listId with
  | Throw e => (Throw e, [])
  | Return resolvedListId =>
  match getEnvVar "CLICKUP_API_TOKEN" with
  | Throw e => (Throw e, [])
  | Return apiToken =>
      let params := "include_subtasks=" ++ string_of_bool includeSubtasks in
      let url := CLICKUP_API_BASE ++ "/list/" ++ resolvedListId ++ "/task?" ++ params in
      let r := get_request url apiToken in
      (match fetch_with_timeout upstream r with
       | Rejects e => Throw e
       | Resolves response =>
           if negb (ok response)
           then Throw (new_Error ("ClickUp API error: "
                                    ++ string_of_Z (resp_status response) ++ " "
                                    ++ resp_statusText response))
           else
             bind (JSON_parse (resp_body response)) (fun data =>
             bind (tasks_of data) (fun raw =>
             bind (map_throwing parse_or_coerce raw) (fun tasks =>
             Return (tasks, resolvedListId))))
       end, [r])
  end end.

(** **** The tool *)

(** The [catch] branch of the callback in [clickupSyncTool]: the
    warning prints [task.id], then the object is built. *)
Definition tool_coerce (task : Value) : Completion Value :=
  bind (get task "id") (fun warn_id =>
  bind (String_ warn_id) (fun _ =>
  bind (get task "id") (fun task_id =>
  bind (get task "name") (fun task_name =>
  bind (get task "description") (fun task_description =>
  bind (get task "status") (fun task_status =>
  bind (get_opt task_status "status") (fun status_status =>
  bind (get task "assignees") (fun task_assignees =>
  bind (get task "priority") (fun task_priority =>
  bind (get task "tags") (fun task_tags =>
  bind (get task "due_date") (fun task_due_date =>
  bind (get task "custom_fields") (fun task_custom_fields =>
  bind (get task "url") (fun task_url =>
  Return (VObject
    [ ("id", task_id);
      ("name", or task_name (VString "Untitled Task"));
      ("description", or task_description VNull);
      ("status", VObject [ ("status", or status_status (VString "unknown")) ]);
      ("assignees", or task_assignees (VArray []));
      ("priority", or task_priority VNull);
      ("tags", or task_tags (VArray []));
      ("due_date", or task_due_date VNull);
      ("custom_fields", or task_custom_fields (VArray []));
      ("url", or task_url (VString "")) ])))))))))))))).

Definition tool_parse_or_coerce (task : Value) : Completion Value :=
  match parse ClickUpTaskSchema task with
  | Some parsed => Return parsed
  | None => tool_coerce task
  end.

(** The query string: [include_subtasks], then one [statuses[]]
    entry per status. *)
Definition tool_params (includeSubtasks : bool) (statuses : option (list string)) : string :=
  join "&" (("include_subtasks=" ++ string_of_bool includeSubtasks)
            :: map (fun s => "statuses%5B%5D=" ++ form_encode s)
                   (match statuses with Some l => l | None => [] end)).

(** The outer [catch] of the tool: an abort becomes the time-out
    error, every other error is thrown again. *)
Definition tool_catch (error : Error) : Error :=
  if String.eqb (name error) "AbortError"
  then new_Error "ClickUp API request timed out after 30 seconds"
  else error.

(** [clickupSyncTool.execute]: the outcome, and the requests sent. *)
Definition clickupSyncTool (inputListId : option string) (includeSubtasks : bool)
    (statuses : option (list string))
    : Completion (list Value * string) * list Request :=
  match resolve_listId inputListId with
  | Throw e => (Throw e, [])
  | Return listId =>
  match getEnvVar "CLICKUP_API_TOKEN" with
  | Throw e => (Throw e, [])
  | Return apiToken =>
      let url := CLICKUP_API_BASE ++ "/list/" ++ listId ++ "/task?"
                   ++ tool_params includeSubtasks statuses in
      let r := get_request url apiToken in
      let tried :=
        match fetch_with_timeout upstream r with
        | Rejects e => Throw e
        | Resolves response =>
            if negb (ok response)
            then
              if (resp_status response =? 429)%Z
              then Throw (new_Error "ClickUp API rate limit exceeded. Please try again later.")
              else if (resp_status response =? 401)%Z
              then Throw (new_Error "Invalid ClickUp API token. Please check your CLICKUP_API_TOKEN environment variable.")
              else Throw (new_Error ("ClickUp API error: "
                                       ++ string_of_Z (resp_status response) ++ " "
                                       ++ resp_statusText response))
            else
              bind (JSON_parse (resp_body response)) (fun data =>
              bind (tasks_of data) (fun raw =>
              bind (map_throwing tool_parse_or_coerce raw) (fun tasks =>
              Return (tasks, listId))))
        end in
      (match tried with
       | Return v => Return v
       | Throw error => Throw (tool_catch error)
       end, [r])
  end end.

End Clients.

End Source.

(* ===================================================================== *)
(** ** src/workflows/sprint-sync.ts: the steps and their composition *)
(* ===================================================================== *)

Module Workflow.
Import JS Types Http.

(** The output of the last step, and of the workflow. *)
Record Outcome := mkOutcome {
  success : bool;
  ticketCount : nat;
  webhookDelivered : bool;
  message : string }.

Record PayloadMetadata := mkPayloadMetadata {
  payload_syncTimestamp : string;
  payload_ticketCount : nat;
  payload_listId : string }.

(** The object posted to the webhook. *)
Record Payload := mkPayload {
  sprintMarkdown : string;
  tickets : list AnalyzedTicket;
  metadata : PayloadMetadata }.

Definition nl : string := Formatter.nl.
Definition dquote : string := Formatter.dquote.

Section Steps.
(** The clock: the result of the [k]-th evaluation of
    [new Date().toISOString()] in the step. *)
Variable now : nat -> string.
(** [(sum / n).toFixed(1)], a rendering of a floating-point quotient. *)
Variable toFixed1 : Z -> nat -> string.
(** [JSON.stringify] on the payload. *)
Variable JSON_stringify : Payload -> string.
Variable destination : Delivery.Destination.

(** The lines pushed for one ticket by the [forEach] of the step. *)
Definition ticket_lines (item : AnalyzedTicket) (index : nat) : list string :=
  let tag := toUpperCase (ComplexityTag_to_string (complexityTag (analysis item))) in
  let head :=
    [ "### " ++ string_of_nat (index + 1) ++ ". [" ++ tag ++ "] " ++ name (ticket item);
      "- **ClickUp ID**: " ++ id (ticket item);
      "- **Status**: " ++ status_status (status (ticket item));
      "- **Quality**: " ++ string_of_Z (qualityScore (analysis item)) ++ "/5" ] in
  let files :=
    match affectedFiles (analysis item) with
    | [] => []
    | fs => [ "- **Affected files**: " ++ join ", " fs ]
    end in
  let tail_ :=
    [ "- **Suggested approach**: " ++ suggestedApproach (analysis item);
      "";
      "---";
      "" ] in
  (head ++ files ++ tail_)%list.

(** [analyzedTickets.forEach((item, index) => ...)]: the tickets are
    taken in the order of [analyzedTickets]. *)
Fixpoint forEach_lines (items : list AnalyzedTicket) (index : nat) : list string :=
  match items with
  | [] => []
  | item :: rest => (ticket_lines item index ++ forEach_lines rest (index + 1))%list
  end.

(** The [lines] array of [formatAndDeliverStep]. Its [metadata] holds
    two readings of the clock; [new Date(s).toISOString()] gives back
    the [s] that [toISOString] produced. *)
Definition markdown_lines (analyzedTickets : list AnalyzedTicket) (listId : string)
    : list string :=
  let syncTimestamp := now 0 in
  let ticketCount := List.length analyzedTickets in
  let listName := "Sprint " ++ before_T (now 1) in
  let sprintDate := before_T syncTimestamp in
  let fixes := Formatter.count_tag fix_ analyzedTickets in
  let features := Formatter.count_tag feature analyzedTickets in
  let avgQuality :=
    match analyzedTickets with
    | [] => "0"
    | _ => toFixed1 (Formatter.sum_quality analyzedTickets) (List.length analyzedTickets)
    end in
  let front :=
    [ "# Sprint: " ++ sprintDate;
      "";
      "Synced from ClickUp List " ++ dquote ++ Formatter.or_default (Some listName) listId
        ++ dquote ++ " at " ++ syncTimestamp;
      "Total tickets: " ++ string_of_nat ticketCount;
      "";
      "**Summary:**";
      "- Fixes: " ++ string_of_nat fixes;
      "- Features: " ++ string_of_nat features;
      "- Average Quality Score: " ++ avgQuality ++ "/5";
      "";
      "## Tickets (ordered by priority)";
      "" ] in
  (front ++ forEach_lines analyzedTickets 0)%list.

Definition build_payload (analyzedTickets : list AnalyzedTicket) (listId : string) : Payload :=
  {| sprintMarkdown := join nl (markdown_lines analyzedTickets listId);
     tickets := analyzedTickets;
     metadata := {| payload_syncTimestamp := now 2;
                    payload_ticketCount := List.length analyzedTickets;
                    payload_listId := listId |} |}.

(** [formatAndDeliverStep.execute]: the outcome, and what was done to
    the destination. [deliverWebhook] is called without [retries]. *)
Definition formatAndDeliverStep (analyzedTickets : list AnalyzedTicket) (listId : string)
    (webhookUrl : string) (webhookSecret : option string)
    : Outcome * list Delivery.Event :=
  match analyzedTickets with
  | [] =>
      ({| success := true;
          ticketCount := 0;
          webhookDelivered := false;
          message := "No tickets found in the list" |}, [])
  | _ =>
      let payload := build_payload analyzedTickets listId in
      let '(delivery, trace) :=
        Delivery.deliverWebhook JSON_stringify destination webhookUrl payload webhookSecret
          Delivery.default_retries in
      let webhookDelivered := match delivery with Return _ => true | Throw _ => false end in
      let n := string_of_nat (List.length analyzedTickets) in
      ({| success := true;
          ticketCount := List.length analyzedTickets;
          webhookDelivered := webhookDelivered;
          message :=
            if webhookDelivered
            then "Successfully analyzed " ++ n ++ " tickets and delivered to webhook"
            else "Analyzed " ++ n ++ " tickets but webhook delivery failed" |}, trace)
  end.

(** The workflow after [fetchTasksStep]: [analyzeTicketsStep], then
    [formatAndDeliverStep], on the [tasks] that were fetched. *)
Definition sprintSyncWorkflow (generateObject : Analyzer.Model) (codebaseMap : CodebaseMap)
    (tasks : list ClickUpTask) (listId webhookUrl : string) (webhookSecret : option string)
    : Completion Outcome * list Analyzer.ModelCall * list Delivery.Event :=
  match Analyzer.analyzeTicketsStep generateObject codebaseMap tasks with
  | (Return analyzedTickets, calls) =>
      let '(out, trace) := formatAndDeliverStep analyzedTickets listId webhookUrl webhookSecret in
      (Return out, calls, trace)
  | (Throw e, calls) => (Throw e, calls, [])
  end.

End Steps.

(** The ticket headings of a rendered report, in the order they occur. *)
Definition is_heading (line : string) : bool := startsWith "### " line.

Definition headings (lines : list string) : list string := filter is_heading lines.

End Workflow.

(* ===================================================================== *)
(** ** Vocabulary of the statements *)
(* ===================================================================== *)

Module Spec.
Import JS Types Formatter.

(** The rank of a ticket when its priority reads as a number. *)
Definition rank (a : AnalyzedTicket) : Z :=
  match getPriorityOrder (priority_label a) with
  | PNum n => n
  | PRef _ => 5%Z
  end.

(** The priority of the ticket is given a number by [getPriorityOrder]. *)
Definition ranked (a : AnalyzedTicket) : bool :=
  match getPriorityOrder (priority_label a) with
  | PNum _ => true
  | PRef _ => false
  end.

Definition quality (a : AnalyzedTicket) : Z := qualityScore (analysis a).
Definition tag (a : AnalyzedTicket) : ComplexityTag := complexityTag (analysis a).

(** ['fix'] before ['feature']. *)
Definition tag_le (x y : ComplexityTag) : Prop :=
  match x, y with
  | feature, fix_ => False
  | _, _ => True
  end.

(** The precedence of the report: rank ascending, then quality
    descending, then fix before feature. *)
Definition key_le (a b : AnalyzedTicket) : Prop :=
  (rank a < rank b)%Z \/
  (rank a = rank b /\
   ((quality b < quality a)%Z \/
    (quality a = quality b /\ tag_le (tag a) (tag b)))).

(** Equal on the three keys. *)
Definition same_key (a b : AnalyzedTicket) : bool :=
  strict_eq (getPriorityOrder (priority_label a)) (getPriorityOrder (priority_label b))
  && Z.eqb (quality a) (quality b)
  && ComplexityTag_eqb (tag a) (tag b).

(** The string mentions doing something by hand. *)
Fixpoint contains (needle hay : string) : bool :=
  startsWith needle hay
  || match hay with
     | EmptyString => false
     | String _ r => contains needle r
     end.

Definition mentions_manual (s : string) : bool := contains "manual" (toLowerCase s).

Section Analyses.
Import Analyzer.
Variable generateObject : Model.
Variable codebaseMap : CodebaseMap.

(** The call that [analyzeTicket] makes for a ticket. *)
Definition call_of (ticket : ClickUpTask) : ModelCall :=
  mkCall ANALYSIS_SYSTEM_PROMPT (userPrompt ticket codebaseMap).

(** The analysis that [analyzeTicket] returns as the [n]-th call. *)
Definition analysis_of (n : nat) (ticket : ClickUpTask) : TicketAnalysis :=
  match generateObject n (call_of ticket) with
  | Return object => object
  | Throw _ => fallbackAnalysis
  end.

(** The tickets paired with their analyses, the first one analyzed by
    call number [n]. *)
Fixpoint analyzed_from (n : nat) (tasks : list ClickUpTask) : list AnalyzedTicket :=
  match tasks with
  | [] => []
  | t :: r => mkAnalyzed t (analysis_of n t) :: analyzed_from (S n) r
  end.

End Analyses.

(** The analysis has the content of a fall-back: score 3, one gap, no
    affected file, complexity feature. *)
Definition fallback_shape (a : TicketAnalysis) : Prop :=
  qualityScore a = 3%Z /\
  (exists gap, qualityGaps a = [gap]) /\
  affectedFiles a = [] /\
  complexityTag a = feature.

(** The fall-back as the specification words it: its one gap says that
    a manual review is needed, and its approach tells to review by hand. *)
Definition fallback_as_specified (a : TicketAnalysis) : Prop :=
  qualityScore a = 3%Z /\
  (exists gap, qualityGaps a = [gap] /\ mentions_manual gap = true) /\
  affectedFiles a = [] /\
  complexityTag a = feature /\
  mentions_manual (suggestedApproach a) = true.

(** A model that is down: every call throws. *)
Definition model_down : Analyzer.Model :=
  fun _ _ => Throw (new_Error "fetch failed").

(** The heading of a ticket in a report, and the headings of a list
    of tickets numbered from [index + 1]. *)
Definition heading (item : AnalyzedTicket) (index : nat) : string :=
  "### " ++ string_of_nat (index + 1) ++ ". ["
    ++ toUpperCase (ComplexityTag_to_string (complexityTag (analysis item))) ++ "] "
    ++ name (ticket item).

Fixpoint numbered_headings (items : list AnalyzedTicket) (index : nat) : list string :=
  match items with
  | [] => []
  | item :: rest => heading item index :: numbered_headings rest (index + 1)
  end.

(** What precedes the first line feed. *)
Fixpoint first_line (s : string) : string :=
  match s with
  | EmptyString => EmptyString
  | String c r => if (nat_of_ascii c =? 10)%nat then EmptyString else String c (first_line r)
  end.

(** *** The task source *)

Section SourceSpec.
Import Source.

(** [v.k] on a value that is neither [null] nor [undefined]. *)
Definition field (v : Value) (k : string) : Value :=
  match v with
  | VObject props => match lookup k props with Some x => x | None => VUndefined end
  | _ => VUndefined
  end.

(** The object that the [catch] branch of [fetchClickUpTasks] builds
    from a raw item, given the strings its [id] and [name] convert to. *)
Definition coerced (task : Value) (id_ name_ : string) : Value :=
  VObject
    [ ("id", VString id_);
      ("name", VString name_);
      ("description", or (field task "description") VNull);
      ("status", VObject [ ("status", or (field (field task "status") "status")
                                         (VString "unknown")) ]);
      ("assignees", or (field task "assignees") (VArray []));
      ("priority", or (field task "priority") VNull);
      ("tags", or (field task "tags") (VArray []));
      ("due_date", or (field task "due_date") VNull);
      ("custom_fields", or (field task "custom_fields") (VArray []));
      ("url", or (field task "url") (VString "")) ].

Definition nullish (v : Value) : bool :=
  match v with
  | VUndefined | VNull => true
  | _ => false
  end.

End SourceSpec.

(** *** Delivery *)

Section DeliverySpec.
Import Http Delivery.

(** The attempt got a 2xx response. *)
Definition accepted (o : FetchOutcome) : bool :=
  match o with
  | Resolves r => ok r
  | Rejects _ => false
  end.

(** The error that a failed attempt raises. *)
Definition error_of (o : FetchOutcome) : Error :=
  match o with
  | Resolves r =>
      new_Error ("Webhook delivery failed: " ++ string_of_Z (resp_status r) ++ " "
                   ++ resp_statusText r)
  | Rejects e => e
  end.

(** [n] failed attempts from attempt [from] on, each followed by its
    back-off. *)
Fixpoint failed_attempts (r : Request) (from n : nat) : list Event :=
  match n with
  | O => []
  | S n' => Post from r :: Sleep (delay from) :: failed_attempts r (S from) n'
  end.

End DeliverySpec.

(** [n] NUL characters. *)
Fixpoint nuls (n : nat) : string :=
  match n with
  | O => EmptyString
  | S n' => String Ascii.zero (nuls n')
  end.

(** The key block that HMAC derives from a secret, and the two
    messages that it hashes for a secret and a body: the digest is
    the hash of the outer one, which ends in the hash of the inner one. *)
Definition hmac_key (secret : string) : list Z :=
  Crypto.key_block (Crypto.bytes_of_string secret).

Definition inner_message (secret body : string) : list Z :=
  (Crypto.xor_with 0x36%Z (hmac_key secret) ++ Crypto.bytes_of_string body)%list.

Definition outer_message (secret body : string) : list Z :=
  (Crypto.xor_with 0x5c%Z (hmac_key secret) ++ Crypto.sha256 (inner_message secret body))%list.

(** Two different messages with one SHA-256 digest. *)
Definition collide (m1 m2 : list Z) : Prop :=
  m1 <> m2 /\ Crypto.sha256 m1 = Crypto.sha256 m2.

End Spec.

(* ===================================================================== *)
(** ** Sample data *)
(* ===================================================================== *)

Module Examples.
Import JS Types Http.

Definition open_status : TaskStatus := mkStatus "open" None.

Definition task (id_ name_ : string) (p : option string) : ClickUpTask :=
  {| id := id_; name := name_; description := None; status := open_status;
     assignees := None;
     priority := option_map (fun l => mkPriority "1" l "#f50000") p;
     tags := None; due_date := None; url := None |}.

Definition urgent_task : ClickUpTask := task "86a1" "Fix login crash" (Some "Urgent").
Definition low_task : ClickUpTask := task "86a2" "Add dark mode" (Some "Low").
Definition odd_task : ClickUpTask := task "86a3" "Rename fields" (Some "constructor").

Definition analysis_ (q : Z) (c : ComplexityTag) : TicketAnalysis :=
  {| qualityScore := q; qualityGaps := []; affectedFiles := [];
     complexityTag := c; suggestedApproach := "See ticket" |}.

Definition urgent_fix : AnalyzedTicket := mkAnalyzed urgent_task (analysis_ 4 fix_).
Definition low_feature : AnalyzedTicket := mkAnalyzed low_task (analysis_ 4 feature).
Definition low_plain : AnalyzedTicket := mkAnalyzed low_task (analysis_ 3 feature).
Definition odd_plain : AnalyzedTicket := mkAnalyzed odd_task (analysis_ 3 feature).

Definition no_code : CodebaseMap := mkCodebaseMap [] [] [] None.

(** A model that answers: a fix for the first call, a feature for the
    others / a feature for the first call, a fix for the others. *)
Definition model_fix_first : Analyzer.Model :=
  fun n _ => Return (analysis_ 4 (match n with O => fix_ | _ => feature end)).

Definition model_feature_first : Analyzer.Model :=
  fun n _ => Return (analysis_ 4 (match n with O => feature | _ => fix_ end)).

Definition respond (status : Z) (text : string) : FetchOutcome :=
  Resolves (mkResponse status text "").

(** A destination that accepts at once; one that fails twice, with a
    503 and then a dropped connection, before it accepts; one that
    always answers 500. *)
Definition accepting : Delivery.Destination := fun _ _ => respond 200 "OK".

Definition flaky : Delivery.Destination :=
  fun attempt _ =>
    match attempt with
    | 0 => respond 503 "Service Unavailable"
    | 1 => Rejects (new_TypeError "fetch failed")
    | _ => respond 200 "OK"
    end.

Definition broken : Delivery.Destination := fun _ _ => respond 500 "Internal Server Error".

Definition clock : nat -> string := fun _ => "2026-02-13T09:30:00.000Z".
Definition fixed1 : Z -> nat -> string := fun _ _ => "4.0".

Definition sample_metadata : SprintMetadata :=
  mkMetadata "2026-02-13T09:30:00.000Z" 2 "901" None.

(** The analyzed tickets of the two orders of fetch. *)
Definition low_then_urgent : list AnalyzedTicket :=
  [ mkAnalyzed low_task (analysis_ 4 feature); mkAnalyzed urgent_task (analysis_ 4 fix_) ].

Definition urgent_then_low : list AnalyzedTicket :=
  [ mkAnalyzed urgent_task (analysis_ 4 fix_); mkAnalyzed low_task (analysis_ 4 feature) ].

(** The environment of the task source: both variables set. *)
Definition env : string -> Completion string :=
  fun k => Return (if String.eqb k "CLICKUP_LIST_ID" then "901" else "pk_token").

(** An upstream that answers after 120 ms with a status and no body of
    interest; one that has not answered after 30 s. *)
Definition upstream_status (status : Z) (text : string) : Source.Upstream :=
  fun _ => (120%Z, respond status text).

Definition upstream_silent : Source.Upstream :=
  fun _ => (30000%Z, respond 200 "OK").

Definition upstream_ok : Source.Upstream := fun _ => (120%Z, respond 200 "OK").

(** Parsed response bodies: a list whose only item is [null]; a list
    with a well-formed task and a task without [status] and [name]. *)
Definition data_null_item : Source.Value :=
  Source.VObject [ ("tasks", Source.VArray [ Source.VNull ]) ].

Definition raw_good : Source.Value :=
  Source.VObject [ ("id", Source.VString "86a1");
                   ("name", Source.VString "Fix login crash");
                   ("status", Source.VObject [ ("status", Source.VString "open") ]) ].

Definition raw_malformed : Source.Value :=
  Source.VObject [ ("id", Source.VNumber 4711) ].

Definition data_malformed_item : Source.Value :=
  Source.VObject [ ("tasks", Source.VArray [ raw_good; raw_malformed ]) ].

Definition data_good_then_null : Source.Value :=
  Source.VObject [ ("tasks", Source.VArray [ raw_good; Source.VNull ]) ].

(** A stand-in serializer for the sample runs. *)
Definition show_payload (p : Workflow.Payload) : string := Workflow.sprintMarkdown p.

End Examples.

(* ===================================================================== *)
(** ** Further vocabulary *)
(* ===================================================================== *)

Module Terms.
Import JS Types Http.

(** The due date of the ticket is absent, empty, or a date that
    [toISOString] renders. *)
Definition due_ok (toISOString : string -> Completion string) (item : AnalyzedTicket) : Prop :=
  match due_date (ticket item) with
  | Some d => d = "" \/ exists iso, toISOString d = Return iso
  | None => True
  end.

(** The first of the attempts [from], ..., [from + n - 1] that the
    destination accepts. *)
Fixpoint first_accepted (destination : Delivery.Destination) (r : Request) (from n : nat)
    : option nat :=
  match n with
  | O => None
  | S n' =>
      if Spec.accepted (destination from r) then Some from
      else first_accepted destination r (S from) n'
  end.

(** Two tasks that differ at most in that [id] and [name] of the
    second are the values of which the first holds the strings. *)
Definition stringified (v v' : Source.Value) : Prop :=
  exists id_ name_,
    Spec.field v "id" = Source.VString id_ /\
    Spec.field v "name" = Source.VString name_ /\
    Source.String_ (Spec.field v' "id") = Return id_ /\
    Source.String_ (Spec.field v' "name") = Return name_ /\
    forall k, k <> "id" -> k <> "name" -> Spec.field v' k = Spec.field v k.

(** A digit of lower-case hexadecimal: [0-9a-f]. *)
Definition is_lower_hex (c : ascii) : bool :=
  let n := nat_of_ascii c in
  ((48 <=? n) && (n <=? 57) || (97 <=? n) && (n <=? 102))%nat.

Fixpoint all_chars (p : ascii -> bool) (s : string) : bool :=
  match s with
  | EmptyString => true
  | String c r => p c && all_chars p r
  end.

(** *** The lines of a rendered report *)

Definition line_feed : ascii := ascii_of_nat 10.

(** The text holds no line feed. *)
Definition one_line (s : string) : bool :=
  all_chars (fun c => negb (Ascii.eqb c line_feed)) s.

(** [text.split('\n')]: the lines of a text, one more than it has
    line feeds. *)
Fixpoint lines_of (s : string) : list string :=
  match s with
  | EmptyString => [EmptyString]
  | String c r =>
      if Ascii.eqb c line_feed then EmptyString :: lines_of r
      else
        match lines_of r with
        | [] => [String c EmptyString]
        | l :: ls => String c l :: ls
        end
  end.

(** The lines of a report that are ticket headings, in their order. *)
Definition report_headings (markdown : string) : list string :=
  Workflow.headings (lines_of markdown).

Definition no_heading (lines : list string) : bool :=
  forallb (fun line => negb (Workflow.is_heading line)) lines.

Definition if_present {A : Type} (p : A -> bool) (x : option A) : bool :=
  match x with
  | Some a => p a
  | None => true
  end.

(** A ticket whose texts keep to their place in the report of the
    formatter tool: the texts printed within a line hold no line feed,
    the suggested approach, which ends its line, has no line after its
    first that reads as a heading, and no line of the description
    reads as a heading. *)
Definition plain_in_tool (item : AnalyzedTicket) : bool :=
  let t := ticket item in
  let a := analysis item in
  one_line (name t) && one_line (id t) && one_line (status_status (status t))
  && forallb one_line (qualityGaps a)
  && if_present (fun p => one_line (priority_priority p)) (priority t)
  && if_present (forallb (fun x => one_line (username x))) (assignees t)
  && if_present (forallb (fun x => one_line (tag_name x))) (tags t)
  && forallb one_line (affectedFiles a)
  && if_present one_line (url t)
  && no_heading (tl (lines_of (suggestedApproach a)))
  && if_present (fun d => no_heading (lines_of (Formatter.trim d))) (description t).

(** The same for the report that the last step of the workflow
    renders, which prints fewer fields. *)
Definition plain_in_step (item : AnalyzedTicket) : bool :=
  let t := ticket item in
  let a := analysis item in
  one_line (name t) && one_line (id t) && one_line (status_status (status t))
  && forallb one_line (affectedFiles a)
  && no_heading (tl (lines_of (suggestedApproach a))).

(** The names of the list in the metadata hold no line feed. *)
Definition plain_metadata (metadata : SprintMetadata) : bool :=
  one_line (listId metadata) && if_present one_line (listName metadata).

End Terms.

(** Sample tickets for the reports: one with every field set, whose
    description and suggested approach run over several lines, and
    one whose description holds a line that reads as a heading. *)
Module ReportSamples.
Import JS Types.

Definition iso_clock : string -> Completion string :=
  fun _ => Return "2026-02-13T09:30:00.000Z".

Definition export_task : ClickUpTask :=
  {| id := "86a4";
     name := "Export report";
     description :=
       Some ("Steps:" ++ Formatter.nl ++ "## Export" ++ Formatter.nl ++ "1. Open the list");
     status := mkStatus "in progress" None;
     assignees := Some [ mkAssignee 7 "ana" None; mkAssignee 9 "lee" None ];
     priority := Some (mkPriority "2" "High" "#ffcc00");
     tags := Some [ mkTag "backend" None None ];
     due_date := Some "1767225600000";
     url := Some "https://app.clickup.com/t/86a4" |}.

Definition export_feature : AnalyzedTicket :=
  mkAnalyzed export_task
    {| qualityScore := 4;
       qualityGaps := [ "acceptance criteria" ];
       affectedFiles := [ "app/api/export/route.ts" ];
       complexityTag := feature;
       suggestedApproach := "Add a route." ++ Formatter.nl ++ "Then a button." |}.

Definition pasted_task : ClickUpTask :=
  {| id := "86a5";
     name := "Copy the old report";
     description := Some ("As before:" ++ Formatter.nl ++ "### 2. [FIX] Fix login crash");
     status := mkStatus "open" None;
     assignees := None; priority := None; tags := None; due_date := None; url := None |}.

Definition pasted_feature : AnalyzedTicket :=
  mkAnalyzed pasted_task
    {| qualityScore := 3; qualityGaps := []; affectedFiles := [];
       complexityTag := feature; suggestedApproach := "See ticket" |}.

End ReportSamples.

(* ===================================================================== *)
(** ** client/webhook-receiver.ts: the server *)
(* ===================================================================== *)

Module Server.
Import JS Http Source.

(** How the body of a request arrives: the stream ends, [body] being
    the text that the ['data'] handler has put together from the
    chunks ([accumulate]), or it fails. *)
Inductive Stream :=
| Ends (body : string)
| Fails (e : Error).

(** [let body = ''] and [req.on('data', chunk => { body +=
    chunk.toString(); })]: each chunk is decoded by itself and added
    to the text. [toString] is [Buffer.prototype.toString], a chunk
    being its bytes. *)
Definition accumulate (toString : string -> string) (chunks : list string) : string :=
  fold_left (fun body chunk => body ++ toString chunk) chunks "".

Record IncomingMessage := mkIncoming {
  method : string;
  headers : list (string * string);
  stream : Stream }.

(** What the handler answers: the status and headers of [writeHead]
    and [setHeader], and the value whose JSON text [res.end] sends. *)
Record ServerResponse := mkServerResponse {
  statusCode : Z;
  sent_headers : list (string * string);
  sent : option Value }.

(** What the handler asks of the file system, in order. *)
Inductive FsCall :=
| ExistsSync (path : string)
| MkdirSync (path : string)
| WriteFileSync (path : string) (data : Value).

(** A computation that calls the file system and can throw. *)
Definition Run (A : Type) : Type := Completion A * list FsCall.

Definition pure {A} (c : Completion A) : Run A := (c, []).

Definition and_then {A B} (m : Run A) (k : A -> Run B) : Run B :=
  match fst m with
  | Return a => (fst (k a), (snd m ++ snd (k a))%list)
  | Throw e => (Throw e, snd m)
  end.

Definition cors : list (string * string) :=
  [ ("Access-Control-Allow-Origin", "*");
    ("Access-Control-Allow-Methods", "POST, OPTIONS");
    ("Access-Control-Allow-Headers", "Content-Type, X-Sprint-Pilot-Signature") ].

(** [res.writeHead(status, { 'Content-Type': 'application/json' })]
    then [res.end(JSON.stringify(v))]. *)
Definition json (status : Z) (v : Value) : ServerResponse :=
  {| statusCode := status;
     sent_headers := (cors ++ [ ("Content-Type", "application/json") ])%list;
     sent := Some v |}.

Definition error_body (msg : string) : Value := VObject [ ("error", VString msg) ].

Section createServer.
(** The file system: [fs.existsSync], [fs.mkdirSync] with
    [recursive: true], [fs.writeFileSync]. *)
Variable existsSync : string -> bool.
Variable mkdirSync : string -> Completion unit.
Variable writeFileSync : string -> Value -> Completion unit.
(** [path.join] and [path.relative]. *)
Variable path_join : list string -> string.
Variable path_relative : string -> string -> string.
(** [new Date().toISOString()] *)
Variable now : string.
Variable JSON_parse : string -> Completion Value.
(** [process.cwd()] *)
Variable projectRoot : string.
(** The value of [--secret], if any. *)
Variable secret : option string.

Definition ensureDirectoryExists (dirPath : string) : Run unit :=
  if existsSync dirPath then (Return tt, [ ExistsSync dirPath ])
  else (mkdirSync dirPath, [ ExistsSync dirPath; MkdirSync dirPath ]).

Definition writeSprintFile (markdown : Value) (projectRoot : string) : Run string :=
  let sprintDir := path_join [ projectRoot; ".ai"; "sprint" ] in
  and_then (ensureDirectoryExists sprintDir) (fun _ =>
  let date := before_T now in
  let filename := date ++ "-sprint.md" in
  let filepath := path_join [ sprintDir; filename ] in
  match writeFileSync filepath markdown with
  | Return _ => (Return filepath, [ WriteFileSync filepath markdown ])
  | Throw e => (Throw e, [ WriteFileSync filepath markdown ])
  end).

(** What follows the write in the [try] block: the two [console.log]
    lines print [payload.metadata.ticketCount] and
    [payload.metadata.syncTimestamp] in template literals, then the
    answer is built. *)
Definition respond_written (payload : Value) (relativePath : string)
    : Completion ServerResponse :=
  bind (get payload "metadata") (fun m1 =>
  bind (get m1 "ticketCount") (fun logged_count =>
  bind (String_ logged_count) (fun _ =>
  bind (get payload "metadata") (fun m2 =>
  bind (get m2 "syncTimestamp") (fun logged_time =>
  bind (String_ logged_time) (fun _ =>
  bind (get payload "metadata") (fun m3 =>
  bind (get m3 "ticketCount") (fun ticketCount =>
  Return (json 200 (VObject [ ("success", VBool true);
                              ("filepath", VString relativePath);
                              ("ticketCount", ticketCount) ])))))))))).

(** The body of the [try] block once the request is authenticated. *)
Definition process_payload (body : string) : Run ServerResponse :=
  and_then (pure (JSON_parse body)) (fun payload =>
  and_then (pure (get payload "sprintMarkdown")) (fun sprintMarkdown =>
  if negb (truthy sprintMarkdown)
  then pure (Return (json 400 (error_body "Missing sprintMarkdown in payload")))
  else
    and_then (writeSprintFile sprintMarkdown projectRoot) (fun filepath =>
    let relativePath := path_relative projectRoot filepath in
    pure (respond_written payload relativePath)))).

(** The [req.on('end')] handler. *)
Definition on_end (req : IncomingMessage) (body : string) : ServerResponse * list FsCall :=
  match Receiver.authenticate secret (headers req) body with
  | Receiver.Reply status error => (json status (error_body error), [])
  | Receiver.Authenticated =>
      let tried := process_payload body in
      match fst tried with
      | Return response => (response, snd tried)
      | Throw error =>
          (json 500 (VObject [ ("error", VString "Internal server error");
                               ("message", VString (message error)) ]), snd tried)
      end
  end.

(** The request listener of [createServer]. *)
Definition createServer (req : IncomingMessage) : ServerResponse * list FsCall :=
  if String.eqb (method req) "OPTIONS"
  then ({| statusCode := 200; sent_headers := cors; sent := None |}, [])
  else if negb (String.eqb (method req) "POST")
  then (json 405 (error_body "Method not allowed"), [])
  else
    match stream req with
    | Ends body => on_end req body
    | Fails _ => (json 500 (error_body "Request processing error"), [])
    end.

End createServer.

(** The path of the sprint file. *)
Definition sprint_file (path_join : list string -> string) (projectRoot now : string) : string :=
  path_join [ path_join [ projectRoot; ".ai"; "sprint" ]; before_T now ++ "-sprint.md" ].

Definition writes (calls : list FsCall) : list (string * Value) :=
  flat_map (fun c => match c with WriteFileSync p d => [ (p, d) ] | _ => [] end) calls.

End Server.

(* ===================================================================== *)
(** ** The receiver at the end of a delivery *)
(* ===================================================================== *)

Module Wire.
Import JS Http Source.

(** How a body travels: the transport cuts it into the chunks of the
    ['data'] events, and [chunk.toString()] decodes each chunk by
    itself, so that a character whose bytes fall into two chunks is
    not decoded to itself. *)
Record Transport := mkTransport {
  chunks_of : string -> list string;
  toString : string -> string }.

(** The body as the listener puts it together. *)
Definition received (transport : Transport) (body : string) : string :=
  Server.accumulate (toString transport) (chunks_of transport body).

(** The body arrives intact: its chunks make it up and each decodes
    to itself. *)
Definition intact (transport : Transport) (body : string) : Prop :=
  String.concat "" (chunks_of transport body) = body /\
  Forall (fun chunk => toString transport chunk = chunk) (chunks_of transport body).

Section Wire.
(** The transport, a request listener, the reason phrase that goes
    with a status on the wire, and [JSON.stringify]. *)
Variable transport : Transport.
Variable listener : Server.IncomingMessage -> Server.ServerResponse * list Server.FsCall.
Variable statusText : Z -> string.
Variable JSON_stringify : Value -> string.

(** The request of [fetch] as the listener receives it; a request
    without a body raises no ['data'] event. *)
Definition incoming (r : Request) : Server.IncomingMessage :=
  {| Server.method := req_method r;
     Server.headers := req_headers r;
     Server.stream :=
       Server.Ends (match req_body r with Some b => received transport b | None => "" end) |}.

(** The answer of the listener as [fetch] resolves with it. *)
Definition response_of (s : Server.ServerResponse) : Response :=
  {| resp_status := Server.statusCode s;
     resp_statusText := statusText (Server.statusCode s);
     resp_body := match Server.sent s with Some v => JSON_stringify v | None => "" end |}.

(** The listener as the destination of every attempt. *)
Definition destination : Delivery.Destination :=
  fun _ r => Resolves (response_of (fst (listener (incoming r)))).

End Wire.

End Wire.

(* ===================================================================== *)
(** ** Sample runs of the receiver *)
(* ===================================================================== *)

Module Samples.
Import JS Http Source.

Definition metadata_ : Value :=
  VObject [ ("syncTimestamp", VString "2026-02-13T09:30:00.000Z");
            ("ticketCount", VNumber 2);
            ("listId", VString "901") ].

Definition payload_ : Value :=
  VObject [ ("sprintMarkdown", VString "# Sprint: 2026-02-13");
            ("tickets", VArray []);
            ("metadata", metadata_) ].

(** A payload as a manual test posts it, without [metadata]. *)
Definition payload_bare : Value :=
  VObject [ ("sprintMarkdown", VString "# Test") ].

(** A parser that knows two bodies. *)
Definition parse_ (body : string) : Completion Value :=
  if String.eqb body "full" then Return payload_
  else if String.eqb body "bare" then Return payload_bare
  else Throw (mkError "SyntaxError" "Unexpected token").

(** A file system without the sprint directory, where every call
    succeeds. *)
Definition no_directory (path : string) : bool := false.
Definition mkdir_ok (path : string) : Completion unit := Return tt.
Definition write_ok (path : string) (data : Value) : Completion unit := Return tt.

Definition posix_join (parts : list string) : string := join "/" parts.

(** [path.relative] on the paths of the sample: the project root is
    [/work]. *)
Definition relative_ (from to : string) : string :=
  if startsWith "/work/" to then substring 6 (String.length to - 6) to else to.

Definition clock_ : string := "2026-02-13T09:30:00.000Z".

Definition post (hs : list (string * string)) (body : string) : Server.IncomingMessage :=
  {| Server.method := "POST"; Server.headers := hs; Server.stream := Server.Ends body |}.

(** The headers of a sender whose secret is ["s3cret"], for the body
    ["full"]: the digest is HMAC-SHA-256 of the body under the secret. *)
Definition signed : list (string * string) :=
  [ ("Content-Type", "application/json");
    ("X-Sprint-Pilot-Signature",
     "sha256=d1152e05fabeec099eba9b30a616ebaae7fd3295ced0ff602e7d04534afb04f3") ].

Definition receiver (secret : option string)
    : Server.IncomingMessage -> Server.ServerResponse * list Server.FsCall :=
  Server.createServer no_directory mkdir_ok write_ok posix_join relative_ clock_ parse_
    "/work" secret.

(** Transports: the body in one chunk; the body in two chunks, cut
    after its second byte; both decode a chunk to itself. *)
Definition whole : Wire.Transport :=
  Wire.mkTransport (fun body => [ body ]) (fun chunk => chunk).

Definition halves : Wire.Transport :=
  Wire.mkTransport
    (fun body => [ substring 0 2 body; substring 2 (String.length body - 2) body ])
    (fun chunk => chunk).

(** A body that ends in a character of two bytes, U+00E9, and a
    transport that cuts it between the two: [Buffer.prototype.toString]
    puts U+FFFD for the lead byte that ends the first chunk and for the
    continuation byte that is the second. *)
Definition byte (n : nat) : string := String (ascii_of_nat n) EmptyString.

Definition cafe : string := "caf" ++ byte 195 ++ byte 169.

Definition replacement : string := byte 239 ++ byte 191 ++ byte 189.

Definition split_character : Wire.Transport :=
  Wire.mkTransport
    (fun body => [ substring 0 4 body; substring 4 (String.length body - 4) body ])
    (fun chunk =>
       if String.eqb chunk ("caf" ++ byte 195) then "caf" ++ replacement
       else if String.eqb chunk (byte 169) then replacement
       else chunk).

End Samples.

(* ===================================================================== *)
(** ** api/index.ts: the dashboard *)
(* ===================================================================== *)

Module Dashboard.
Import JS Http Source.

Record JobRecord := mkJob {
  job_id : string;
  job_timestamp : string;
  job_listId : string;
  job_ticketCount : Z;
  job_status : string;
  job_error : option string }.

(** The object that [res.json] serializes for a job. *)
Definition job_value (j : JobRecord) : Value :=
  VObject ([ ("id", VString (job_id j));
             ("timestamp", VString (job_timestamp j));
             ("listId", VString (job_listId j));
             ("ticketCount", VNumber (job_ticketCount j));
             ("status", VString (job_status j)) ]
           ++ match job_error j with
              | Some e => [ ("error", VString e) ]
              | None => []
              end)%list.

(** [const jobs: JobRecord[] = []]; no statement of the module
    assigns to it or calls a method that changes it. *)
Definition jobs : list JobRecord := [].

(** A request: the [pathname] of [new URL(req.url || '', ...)], which
    throws on a URL that does not parse, the method and the parsed
    body. *)
Record VercelRequest := mkVercelRequest {
  pathname : Completion string;
  method : string;
  body : Value }.

Inductive Sent :=
| Html (html : string)
| Json (v : Value).

Record VercelResponse := mkVercelResponse {
  status : Z;
  sent : Sent }.

Definition json (status : Z) (v : Value) : VercelResponse :=
  {| status := status; sent := Json v |}.

(** [jobs.slice(-50)] *)
Definition slice_last (n : nat) {A} (l : list A) : list A := skipn (List.length l - n) l.

(** [pathname.split('/').pop()]: what follows the last ['/']. *)
Fixpoint last_segment_from (acc s : string) : string :=
  match s with
  | EmptyString => acc
  | String c r =>
      if Ascii.eqb c "/"%char then last_segment_from "" r
      else last_segment_from (acc ++ String c "") r
  end.

Definition last_segment (s : string) : string := last_segment_from "" s.

(** [const { webhookUrl } = req.body] *)
Definition destructure_webhookUrl (body : Value) : Completion Value :=
  match body with
  | VUndefined =>
      Throw (new_TypeError
        "Cannot destructure property 'webhookUrl' of 'req.body' as it is undefined.")
  | VNull =>
      Throw (new_TypeError
        "Cannot destructure property 'webhookUrl' of 'req.body' as it is null.")
  | _ => get body "webhookUrl"
  end.

Section handler.
(** [fs.readFileSync(path, 'utf-8')], [path.join], [process.cwd()],
    the clock, [JSON.stringify] and the peer reached by [fetch]. *)
Variable readFileSync : string -> Completion string.
Variable path_join : list string -> string.
Variable cwd : string.
Variable now : string.
Variable JSON_stringify : Value -> string.
Variable destination : Request -> FetchOutcome.

Definition testPayload : Value :=
  VObject
    [ ("sprintMarkdown",
       VString ("# Test Sprint" ++ Formatter.nl ++ Formatter.nl
                  ++ "This is a test webhook delivery from Sprint Pilot."));
      ("tickets", VArray []);
      ("metadata", VObject [ ("syncTimestamp", VString now);
                             ("ticketCount", VNumber 0);
                             ("listId", VString "test") ]) ].

(** The request of the webhook test; [fetch] takes the string of its
    first argument as the URL. *)
Definition test_request (url : string) : Request :=
  {| req_method := "POST";
     req_url := url;
     req_headers := [ ("Content-Type", "application/json") ];
     req_body := Some (JSON_stringify testPayload) |}.

Definition test_result (success : bool) (message : string) : Value :=
  VObject [ ("success", VBool success); ("message", VString message) ].

(** The branch of [/api/test-webhook]: the answer and the requests
    sent. *)
Definition test_webhook (body : Value) : VercelResponse * list Request :=
  match destructure_webhookUrl body with
  | Throw error => (json 200 (test_result false (message error)), [])
  | Return webhookUrl =>
      if negb (truthy webhookUrl)
      then (json 400 (VObject [ ("error", VString "Missing webhookUrl in body") ]), [])
      else
        match String_ webhookUrl with
        | Throw error => (json 200 (test_result false (message error)), [])
        | Return url =>
            let r := test_request url in
            (match destination r with
             | Rejects error => json 200 (test_result false (message error))
             | Resolves response =>
                 if ok response
                 then json 200 (test_result true "Webhook test successful")
                 else json 200 (test_result false
                        ("Webhook returned " ++ string_of_Z (resp_status response)
                           ++ ": " ++ resp_statusText response))
             end, [ r ])
        end
  end.

(** The handler over a job store. *)
Definition handler_over (jobs : list JobRecord) (req : VercelRequest)
    : Completion VercelResponse * list Request :=
  match pathname req with
  | Throw e => (Throw e, [])
  | Return pathname =>
      if String.eqb pathname "/" || String.eqb pathname ""
      then
        (Return
           match readFileSync (path_join [ cwd; "public"; "index.html" ]) with
           | Return html => {| status := 200; sent := Html html |}
           | Throw _ => json 500 (VObject [ ("error", VString "Failed to load dashboard") ])
           end, [])
      else if String.eqb pathname "/api/jobs" && String.eqb (method req) "GET"
      then
        (Return (json 200 (VObject [ ("jobs",
                   VArray (map job_value (rev (slice_last 50 jobs)))) ])), [])
      else if startsWith "/api/jobs/" pathname && String.eqb (method req) "GET"
      then
        let jobId := last_segment pathname in
        (Return
           match find (fun j => String.eqb (job_id j) jobId) jobs with
           | Some job => json 200 (job_value job)
           | None => json 404 (VObject [ ("error", VString "Job not found") ])
           end, [])
      else if String.eqb pathname "/api/test-webhook" && String.eqb (method req) "POST"
      then let '(response, sent) := test_webhook (body req) in (Return response, sent)
      else (Return (json 404 (VObject [ ("error", VString "Not found") ])), [])
  end.

(** [handler] *)
Definition handler : VercelRequest -> Completion VercelResponse * list Request :=
  handler_over jobs.

End handler.

End Dashboard.

Module DashboardSamples.
Import JS Http Source.

Definition job (id_ : string) : Dashboard.JobRecord :=
  Dashboard.mkJob id_ "2026-02-13T09:30:00.000Z" "901" 2 "success" None.

Definition get_ (path : string) : Dashboard.VercelRequest :=
  Dashboard.mkVercelRequest (Return path) "GET" VUndefined.

Definition test_ (body : Value) : Dashboard.VercelRequest :=
  Dashboard.mkVercelRequest (Return "/api/test-webhook") "POST" body.

Definition body_ : Value := VObject [ ("webhookUrl", VString "http://localhost:3001") ].

Definition no_file (path : string) : Completion string :=
  Throw (new_Error "ENOENT: no such file or directory").

Definition reason (status : Z) : string :=
  if (status =? 401)%Z then "Unauthorized" else "OK".

Definition show_ (v : Value) : string := "full".

(** The dashboard whose test requests reach the sample receiver. *)
Definition dashboard (secret : option string)
    : Dashboard.VercelRequest -> Completion Dashboard.VercelResponse * list Request :=
  Dashboard.handler no_file Samples.posix_join "/srv" Samples.clock_ show_
    (Wire.destination Samples.whole (Samples.receiver secret) reason show_ 0).

End DashboardSamples.

(* ===================================================================== *)
(** ** client/scan-codebase.ts *)
(* ===================================================================== *)

Module Scanner.
Import JS.

Definition ROUTE_FILES : list string := [ "page.tsx"; "page.ts"; "page.jsx"; "page.js" ].
Definition LAYOUT_FILES : list string :=
  [ "layout.tsx"; "layout.ts"; "layout.jsx"; "layout.js" ].
Definition LOADING_FILES : list string :=
  [ "loading.tsx"; "loading.ts"; "loading.jsx"; "loading.js" ].
Definition ERROR_FILES : list string := [ "error.tsx"; "error.ts"; "error.jsx"; "error.js" ].
Definition ACTION_FILES : list string := [ "actions.ts"; "actions.tsx"; "actions.js" ].

(** [array.includes(x)] on strings. *)
Definition includes (x : string) (l : list string) : bool := existsb (String.eqb x) l.

(** [hay.includes(needle)] *)
Fixpoint String_includes (needle hay : string) : bool :=
  startsWith needle hay
  || match hay with
     | EmptyString => false
     | String _ r => String_includes needle r
     end.

(** [s.endsWith(suffix)] *)
Fixpoint endsWith (suffix s : string) : bool :=
  String.eqb suffix s
  || match s with
     | EmptyString => false
     | String _ r => endsWith suffix r
     end.

Definition shouldIgnoreDirectory (dirName : string) : bool :=
  let ignoredDirs :=
    [ "node_modules"; ".next"; ".git"; "dist"; "build"; ".vercel"; ".turbo" ] in
  includes dirName ignoredDirs || startsWith "." dirName.

(** *** [extractRoutePath] *)

(** What is left of [s] after the prefix [p], if [s] starts with it. *)
Fixpoint strip_prefix (p s : string) : option string :=
  match p with
  | EmptyString => Some s
  | String a p' =>
      match s with
      | EmptyString => None
      | String b s' => if Ascii.eqb a b then strip_prefix p' s' else None
      end
  end.

(** [relativePath.replace(/^app\/?/, '')] *)
Definition strip_app (relativePath : string) : string :=
  match strip_prefix "app" relativePath with
  | Some r => match strip_prefix "/" r with Some r' => r' | None => r end
  | None => relativePath
  end.

(** [routePath.replace(/\([^)]+\)/g, '')], read from left to right.
    [pending] is [None] outside a group, and [Some buf] once a ['(']
    was read, [buf] what was read since. A [')'] closes the group and
    drops it, unless nothing was read since the ['('], in which case
    both characters stay; a ['('] that no [')'] follows stays with
    what follows it. *)
Fixpoint remove_groups_from (pending : option string) (s : string) : string :=
  match s with
  | EmptyString =>
      match pending with
      | None => EmptyString
      | Some buf => String "("%char buf
      end
  | String c r =>
      match pending with
      | None =>
          if Ascii.eqb c "("%char then remove_groups_from (Some EmptyString) r
          else String c (remove_groups_from None r)
      | Some buf =>
          if Ascii.eqb c ")"%char then
            match buf with
            | EmptyString => String "("%char (String ")"%char (remove_groups_from None r))
            | _ => remove_groups_from None r
            end
          else remove_groups_from (Some (buf ++ String c EmptyString)) r
      end
  end.

Definition remove_groups (s : string) : string := remove_groups_from None s.

(** [routePath.replace(/\/+/g, '/')] *)
Fixpoint collapse_slashes (s : string) : string :=
  match s with
  | EmptyString => EmptyString
  | String c r =>
      if Ascii.eqb c "/"%char then
        match r with
        | String c' _ => if Ascii.eqb c' "/"%char then collapse_slashes r
                         else String c (collapse_slashes r)
        | EmptyString => String c EmptyString
        end
      else String c (collapse_slashes r)
  end.

(** [s.slice(0, -1)] *)
Fixpoint drop_last (s : string) : string :=
  match s with
  | EmptyString => EmptyString
  | String c r => match r with EmptyString => EmptyString | _ => String c (drop_last r) end
  end.

Definition extractRoutePath (relativePath : string) : string :=
  let routePath := strip_app relativePath in
  let routePath := remove_groups routePath in
  let routePath := collapse_slashes routePath in
  let routePath := if negb (startsWith "/" routePath) then "/" ++ routePath else routePath in
  if negb (String.eqb routePath "/") && endsWith "/" routePath
  then drop_last routePath
  else routePath.

(** *** [path.extname] and [path.basename] on a directory entry, a
    name without separator *)

(** The part of [s] that starts at its last ['.']. *)
Fixpoint from_last_dot (s : string) : option string :=
  match s with
  | EmptyString => None
  | String c r =>
      match from_last_dot r with
      | Some x => Some x
      | None => if Ascii.eqb c "."%char then Some s else None
      end
  end.

(** The extension starts at the last ['.'], unless that is the first
    character or the name is [..]. *)
Definition extname (name : string) : string :=
  match name with
  | EmptyString => EmptyString
  | String _ r =>
      if String.eqb name ".." then EmptyString
      else match from_last_dot r with Some x => x | None => EmptyString end
  end.

Definition basename (name ext : string) : string :=
  if negb (String.eqb ext "") && negb (String.eqb ext name) && endsWith ext name
  then substring 0 (String.length name - String.length ext) name
  else if String.eqb ext name && negb (String.eqb ext "") then EmptyString
  else name.

(** [relativePath.replace(/\\/g, '/')] *)
Fixpoint slashes (s : string) : string :=
  match s with
  | EmptyString => EmptyString
  | String c r =>
      String (if Ascii.eqb c (ascii_of_nat 92) then "/"%char else c) (slashes r)
  end.

(** *** [scanDirectory] *)

Record RouteInfo := mkRoute {
  path : string;
  files : list string }.

(** A [Map] from route path to route, in insertion order. *)
Definition Routes := list (string * RouteInfo).

Fixpoint Map_get (k : string) (m : Routes) : option RouteInfo :=
  match m with
  | [] => None
  | (k', v) :: r => if String.eqb k k' then Some v else Map_get k r
  end.

(** [m.set(k, v)]: the value of a key that is present is replaced
    where it stands. *)
Fixpoint Map_set (k : string) (v : RouteInfo) (m : Routes) : Routes :=
  match m with
  | [] => [ (k, v) ]
  | (k', v') :: r => if String.eqb k k' then (k, v) :: r else (k', v') :: Map_set k v r
  end.

Record ScanResult := mkScan {
  routes : Routes;
  components : list string;
  actions : list string }.

Definition empty : ScanResult := mkScan [] [] [].

(** What [scanDirectory] finds under a name of a directory listing: a
    directory with its own listing, a directory whose [readdirSync]
    throws, or anything else, for which [isDirectory] is false. *)
#[local] Set Warnings "-register-all".
Inductive Entry :=
| File (name : string)
| Dir (name : string) (entries : list Entry)
| Unreadable (name : string) (e : Error).

Definition is_route_file (entry : string) : bool :=
  includes entry ROUTE_FILES || includes entry LAYOUT_FILES
  || includes entry LOADING_FILES || includes entry ERROR_FILES.

(** The [else] branch of the loop body, for an entry that is not a
    directory. [rel] is the path of the current directory relative to
    the base directory, so that the relative path of the entry is
    [rel/entry] and its [dirname] is [rel]. *)
Definition visit_file (rel entry : string) (acc : ScanResult) : ScanResult :=
  let relativePath := rel ++ "/" ++ entry in
  let ext := extname entry in
  let basename := basename entry ext in
  let routes' :=
    if is_route_file entry then
      let routePath := extractRoutePath rel in
      match Map_get routePath (routes acc) with
      | Some existing =>
          Map_set routePath (mkRoute (path existing) (files existing ++ [ entry ])) (routes acc)
      | None => Map_set routePath (mkRoute routePath [ entry ]) (routes acc)
      end
    else routes acc in
  let actions' :=
    if includes entry ACTION_FILES then (actions acc ++ [ slashes relativePath ])%list
    else actions acc in
  let components' :=
    if includes ext [ ".tsx"; ".jsx" ]
       && (String_includes "components/" relativePath
           || endsWith ".client" basename
           || String_includes "/ui/" relativePath)
    then (components acc ++ [ slashes relativePath ])%list
    else components acc in
  mkScan routes' components' actions'.

(** The merge of the results of a subdirectory. *)
Definition merge (acc sub : ScanResult) : ScanResult :=
  mkScan (fold_left (fun m kv => Map_set (fst kv) (snd kv) m) (routes sub) (routes acc))
         (components acc ++ components sub)
         (actions acc ++ actions sub).

(** One turn of the [for (const entry of entries)] loop at [depth],
    and with it the recursive call on a subdirectory. *)
Fixpoint visit (rel : string) (depth maxDepth : nat) (acc : ScanResult) (e : Entry)
    {struct e} : Completion ScanResult :=
  match e with
  | File name => Return (visit_file rel name acc)
  | Dir name entries =>
      if shouldIgnoreDirectory name then Return acc
      else
        bind (if (maxDepth <? depth + 1)%nat then Return empty
              else fold_left (fun a e' =>
                                bind a (fun a' =>
                                  visit (rel ++ "/" ++ name) (depth + 1) maxDepth a' e'))
                             entries (Return empty))
             (fun subResults => Return (merge acc subResults))
  | Unreadable name error =>
      if shouldIgnoreDirectory name then Return acc
      else
        bind (if (maxDepth <? depth + 1)%nat then Return empty else Throw error)
             (fun subResults => Return (merge acc subResults))
  end.

(** The loop over a listing. *)
Definition scan_entries (rel : string) (depth maxDepth : nat) (entries : list Entry)
    : Completion ScanResult :=
  fold_left (fun a e => bind a (fun a' => visit rel depth maxDepth a' e))
            entries (Return empty).

(** [scanDirectory(baseDir, currentDir, depth, maxDepth)], for the
    directory at [rel] under the base directory, given what
    [readdirSync] answers for it. *)
Definition scanDirectory (rel : string) (depth maxDepth : nat)
    (listing : Completion (list Entry)) : Completion ScanResult :=
  if (maxDepth <? depth)%nat then Return empty
  else bind listing (scan_entries rel depth maxDepth).

(** *** What is stated of a route path *)

Fixpoint has_double_slash (s : string) : bool :=
  match s with
  | EmptyString => false
  | String c r =>
      (Ascii.eqb c "/"%char && startsWith "/" r) || has_double_slash r
  end.

Fixpoint has_char (c : ascii) (s : string) : bool :=
  match s with
  | EmptyString => false
  | String c' r => Ascii.eqb c c' || has_char c r
  end.

(** A route as the scan records it: filed under its own path, the
    route path of some directory, with at least one file, each a page,
    layout, loading or error file. *)
Definition route_ok (kv : string * RouteInfo) : Prop :=
  path (snd kv) = fst kv /\
  files (snd kv) <> [] /\
  forallb is_route_file (files (snd kv)) = true /\
  exists rel, fst kv = extractRoutePath rel.

Definition routes_ok (m : Routes) : Prop := NoDup (map fst m) /\ Forall route_ok m.

(** An entry cut [levels] directories down: the directories below
    are emptied, readable or not. *)
Fixpoint prune (levels : nat) (e : Entry) {struct e} : Entry :=
  match e with
  | File name => File name
  | Dir name entries =>
      match levels with
      | O => Dir name []
      | S n => Dir name (map (prune n) entries)
      end
  | Unreadable name error =>
      match levels with
      | O => Dir name []
      | S _ => Unreadable name error
      end
  end.

End Scanner.

Module ScannerSamples.
Import Scanner.

(** Two route groups, each with a file of the root route. *)
Definition two_groups : list Entry :=
  [ Dir "(marketing)" [ File "layout.tsx"; File "page.tsx" ];
    Dir "(shop)" [ File "layout.tsx" ] ].

End ScannerSamples.

(* ===================================================================== *)
(** ** The formatter: ranks *)
(* ===================================================================== *)

Section FormatterRanks.
Import JS Types Formatter Spec.

Lemma lower_ascii_idempotent (c : ascii) : lower_ascii (lower_ascii c) = lower_ascii c.
Proof.
  destruct c as [[] [] [] [] [] [] [] []]; vm_compute; reflexivity.
Qed.

Lemma toLowerCase_idempotent (s : string) : toLowerCase (toLowerCase s) = toLowerCase s.
Proof.
  induction s as [| c s IH]; simpl.
  - reflexivity.
  - rewrite lower_ascii_idempotent, IH. reflexivity.
Qed.

Lemma toLowerCase_empty (s : string) : String.eqb (toLowerCase s) "" = String.eqb s "".
Proof. destruct s; reflexivity. Qed.

(** The rank of a label is the rank of its lower-case form. *)
Lemma getPriorityOrder_case_insensitive (s : string) :
  getPriorityOrder (Some s) = getPriorityOrder (Some (toLowerCase s)).
Proof.
  unfold getPriorityOrder.
  rewrite toLowerCase_empty, toLowerCase_idempotent. reflexivity.
Qed.

Lemma getPriorityOrder_urgent :
  getPriorityOrder (Some "URGENT") = PNum 1 /\
  getPriorityOrder (Some "Urgent") = PNum 1 /\
  getPriorityOrder (Some "urgent") = PNum 1.
Proof. repeat split; reflexivity. Qed.

Lemma getPriorityOrder_known :
  getPriorityOrder (Some "Urgent") = PNum 1 /\
  getPriorityOrder (Some "High") = PNum 2 /\
  getPriorityOrder (Some "Normal") = PNum 3 /\
  getPriorityOrder (Some "Low") = PNum 4 /\
  getPriorityOrder None = PNum 5 /\
  getPriorityOrder (Some "") = PNum 5.
Proof. repeat split; reflexivity. Qed.

(** A label that, in lower case, is neither a key of the table nor a
    property of [Object.prototype] has rank 5. *)
Lemma getPriorityOrder_unrecognized (s : string) :
  assoc (toLowerCase s) PRIORITY_ORDER = None ->
  assoc (toLowerCase s) Object_prototype_properties = None ->
  getPriorityOrder (Some s) = PNum 5.
Proof.
  intros Hown Hproto. unfold getPriorityOrder, PRIORITY_ORDER_get.
  rewrite Hown, Hproto. destruct (String.eqb s ""); reflexivity.
Qed.

(** A label owned by the table has the rank the table gives it. *)
Lemma getPriorityOrder_own (s : string) (n : Z) :
  assoc (toLowerCase s) PRIORITY_ORDER = Some n ->
  getPriorityOrder (Some s) = PNum n /\ (1 <= n <= 4)%Z.
Proof.
  intros Hown. unfold getPriorityOrder, PRIORITY_ORDER_get.
  destruct (String.eqb s "") eqn:Hs.
  - apply String.eqb_eq in Hs. subst s. discriminate Hown.
  - rewrite Hown. unfold PRIORITY_ORDER in Hown. simpl in Hown.
    repeat match type of Hown with
           | (if ?c then _ else _) = _ => destruct c
           end; inversion Hown; subst; simpl; split; (reflexivity || lia).
Qed.

(** Every rank that is a number lies in 1..5. *)
Lemma rank_bounds (a : AnalyzedTicket) : (1 <= rank a <= 5)%Z.
Proof.
  unfold rank, getPriorityOrder, PRIORITY_ORDER_get.
  destruct (priority_label a) as [p |]; [| lia].
  destruct (String.eqb p ""); [lia |].
  destruct (assoc (toLowerCase p) PRIORITY_ORDER) as [n |] eqn:Hown.
  - unfold PRIORITY_ORDER in Hown. simpl in Hown.
    repeat match type of Hown with
           | (if ?c then _ else _) = _ => destruct c
           end; inversion Hown; subst; simpl; lia.
  - destruct (assoc (toLowerCase p) Object_prototype_properties); simpl; lia.
Qed.

End FormatterRanks.

(** C10. At the label ["constructor"] the table read finds the
    constructor inherited from [Object.prototype], which is truthy, and
    [getPriorityOrder] returns that object: the label is outside
    urgent, high, normal and low, yet its rank is not 5. The same holds
    of the label in capitals and of ["__proto__"]. *)
Theorem getPriorityOrder_inherited_property :
  Formatter.getPriorityOrder (Some "constructor") = Formatter.PRef Formatter.Object_constructor /\
  Formatter.getPriorityOrder (Some "Constructor") = Formatter.PRef Formatter.Object_constructor /\
  Formatter.getPriorityOrder (Some "__proto__") = Formatter.PRef Formatter.Object_prototype /\
  Formatter.getPriorityOrder (Some "constructor") <> Formatter.PNum 5.
Proof.
  repeat split; try reflexivity. discriminate.
Qed.

(* ===================================================================== *)
(** ** The formatter: the sort *)
(* ===================================================================== *)

Section StableInsertion.
Import JS Formatter.
Context {A : Type}.
Variable comparefn : A -> A -> Number.

Lemma insert_permutation (x : A) (l : list A) :
  Permutation (x :: l) (insert comparefn x l).
Proof.
  induction l as [| y r IH]; simpl.
  - apply Permutation_refl.
  - destruct (0 <? SortCompare comparefn x y)%Z.
    + eapply perm_trans; [apply perm_swap |]. apply perm_skip. exact IH.
    + apply Permutation_refl.
Qed.

Lemma sort_permutation (l : list A) : Permutation l (sort comparefn l).
Proof.
  induction l as [| x r IH]; simpl.
  - constructor.
  - eapply perm_trans; [apply perm_skip; exact IH | apply insert_permutation].
Qed.

Lemma sort_length (l : list A) : List.length (sort comparefn l) = List.length l.
Proof. symmetry. apply Permutation_length, sort_permutation. Qed.

(** Elements that the comparator does not tell apart, its answers
    being 0 or NaN for every pair, stay as they are: the comparator
    is then consistent and a stable sort has nothing to move. *)
Lemma sort_indistinct (l : list A) :
  (forall x y, In x l -> In y l -> SortCompare comparefn x y = 0%Z) -> sort comparefn l = l.
Proof.
  induction l as [| x r IH]; intros Hall; [reflexivity |].
  cbn [sort]. rewrite IH by (intros a b Ha Hb; apply Hall; right; assumption).
  destruct r as [| y r']; [reflexivity |].
  cbn [insert]. rewrite (Hall x y); [reflexivity | left; reflexivity | right; left; reflexivity].
Qed.

(** Insertion into a list sorted for [le], when the comparator decides
    [le] both ways and [le] is transitive on the elements at hand. *)
Variable le : A -> A -> Prop.
Variable good : A -> Prop.
Hypothesis le_trans : forall x y z, good x -> good y -> good z -> le x y -> le y z -> le x z.
Hypothesis not_after : forall x y, good x -> good y ->
  (0 <? SortCompare comparefn x y)%Z = false -> le x y.
Hypothesis after : forall x y, good x -> good y ->
  (0 <? SortCompare comparefn x y)%Z = true -> le y x.

Lemma insert_sorted (x : A) (l : list A) :
  good x -> Forall good l ->
  StronglySorted le l -> StronglySorted le (insert comparefn x l).
Proof.
  intros Hx Hl Hs. induction Hs as [| y r Hr IH Hy]; simpl.
  - constructor; constructor.
  - inversion Hl as [| ? ? Hgy Hgr]; subst.
    destruct (0 <? SortCompare comparefn x y)%Z eqn:Hc.
    + constructor; [apply IH; assumption |].
      apply (Permutation_Forall (insert_permutation x r)).
      constructor; [apply after; assumption | exact Hy].
    + constructor; [constructor; assumption |].
      assert (Hxy : le x y) by (apply not_after; assumption).
      constructor; [exact Hxy |].
      rewrite Forall_forall in *. intros z Hz.
      apply (le_trans x y z); auto.
Qed.

Lemma sort_sorted (l : list A) :
  Forall good l -> StronglySorted le (sort comparefn l).
Proof.
  induction l as [| x r IH]; simpl; intros Hl.
  - constructor.
  - inversion Hl; subst. apply insert_sorted; auto.
    apply (Permutation_Forall (sort_permutation r)). assumption.
Qed.

End StableInsertion.

Section Stability.
Import JS Formatter.
Context {A : Type}.
Variable comparefn : A -> A -> Number.
(** A class of elements that the comparator never separates: an element
    put behind another one is not in the class with it. *)
Variable cls : A -> bool.
Hypothesis separated : forall x y,
  (0 <? SortCompare comparefn x y)%Z = true -> cls x = true -> cls y = false.

Lemma filter_insert (x : A) (l : list A) :
  filter cls (insert comparefn x l) = filter cls (x :: l).
Proof.
  induction l as [| y r IH]; simpl.
  - reflexivity.
  - destruct (0 <? SortCompare comparefn x y)%Z eqn:Hc; [| reflexivity].
    simpl. rewrite IH. simpl.
    destruct (cls x) eqn:Hx; [| reflexivity].
    rewrite (separated x y Hc Hx). reflexivity.
Qed.

Lemma filter_sort (l : list A) : filter cls (sort comparefn l) = filter cls l.
Proof.
  induction l as [| x r IH]; simpl.
  - reflexivity.
  - rewrite filter_insert. simpl. rewrite IH. reflexivity.
Qed.

End Stability.

Section SortTickets.
Import JS Types Formatter Spec.

Lemma ranked_value (a : AnalyzedTicket) :
  ranked a = true -> getPriorityOrder (priority_label a) = PNum (rank a).
Proof.
  unfold ranked, rank. destruct (getPriorityOrder (priority_label a)); [reflexivity | discriminate].
Qed.

Lemma Builtin_eqb_refl (r : Builtin) : Builtin_eqb r r = true.
Proof. destruct r; simpl; auto using String.eqb_refl. Qed.

(** The comparator on two ranked tickets, by cases on the keys. *)
Lemma compareTickets_ranked (a b : AnalyzedTicket) :
  ranked a = true -> ranked b = true ->
  compareTickets a b =
    if negb (rank a =? rank b)%Z then Num (rank a - rank b)
    else if negb (quality a =? quality b)%Z then Num (quality b - quality a)
    else if negb (ComplexityTag_eqb (tag a) (tag b))
    then (match tag a with fix_ => Num (-1) | feature => Num 1 end)
    else Num 0.
Proof.
  intros Ha Hb. unfold compareTickets.
  rewrite (ranked_value a Ha), (ranked_value b Hb). reflexivity.
Qed.

Lemma compare_not_after (a b : AnalyzedTicket) :
  ranked a = true -> ranked b = true ->
  (0 <? SortCompare compareTickets a b)%Z = false -> key_le a b.
Proof.
  intros Ha Hb. unfold SortCompare. rewrite (compareTickets_ranked a b Ha Hb).
  unfold key_le.
  destruct (Z.eqb_spec (rank a) (rank b)) as [Hr | Hr]; simpl.
  - destruct (Z.eqb_spec (quality a) (quality b)) as [Hq | Hq]; simpl.
    + destruct (tag a), (tag b); simpl; intros H; try discriminate;
        right; split; auto; right; split; simpl; auto.
    + intros H. apply Z.ltb_ge in H. right. split; auto. left. lia.
  - intros H. apply Z.ltb_ge in H. left. lia.
Qed.

Lemma compare_after (a b : AnalyzedTicket) :
  ranked a = true -> ranked b = true ->
  (0 <? SortCompare compareTickets a b)%Z = true -> key_le b a.
Proof.
  intros Ha Hb. unfold SortCompare. rewrite (compareTickets_ranked a b Ha Hb).
  unfold key_le.
  destruct (Z.eqb_spec (rank a) (rank b)) as [Hr | Hr]; simpl.
  - destruct (Z.eqb_spec (quality a) (quality b)) as [Hq | Hq]; simpl.
    + destruct (tag a), (tag b); simpl; intros H; try discriminate;
        right; split; auto; right; split; simpl; auto.
    + intros H. apply Z.ltb_lt in H. right. split; auto. left. lia.
  - intros H. apply Z.ltb_lt in H. left. lia.
Qed.

Lemma key_le_trans (a b c : AnalyzedTicket) : key_le a b -> key_le b c -> key_le a c.
Proof.
  unfold key_le, tag_le. intros Hab Hbc.
  destruct Hab as [Hab | [Hr1 [Hab | [Hq1 Ht1]]]];
    destruct Hbc as [Hbc | [Hr2 [Hbc | [Hq2 Ht2]]]];
    try (left; lia); try (right; split; [lia |]; left; lia).
  right. split; [lia |]. right. split; [lia |].
  destruct (tag a), (tag b), (tag c); auto.
Qed.

(** Tickets that the comparator orders strictly differ on a key. *)
Lemma compare_separates (c a b : AnalyzedTicket) :
  (0 <? SortCompare compareTickets a b)%Z = true ->
  same_key c a = true -> same_key c b = false.
Proof.
  unfold SortCompare, compareTickets, same_key, quality, tag.
  set (pa := getPriorityOrder (priority_label a)).
  set (pb := getPriorityOrder (priority_label b)).
  set (pc := getPriorityOrder (priority_label c)).
  intros Hcmp Hca.
  apply andb_true_iff in Hca as [Hca Ht]. apply andb_true_iff in Hca as [Hp Hq].
  apply Z.eqb_eq in Hq.
  assert (Hpc : pc = pa).
  { destruct pc as [x | r], pa as [y | r']; simpl in Hp; try discriminate.
    - apply Z.eqb_eq in Hp. congruence.
    - destruct r, r'; simpl in Hp; try discriminate; try reflexivity.
      apply String.eqb_eq in Hp. congruence. }
  assert (Htag : complexityTag (analysis c) = complexityTag (analysis a)).
  { destruct (complexityTag (analysis c)), (complexityTag (analysis a));
      simpl in Ht; congruence. }
  rewrite Hpc, Hq, Htag.
  destruct (strict_eq pa pb) eqn:Hab; simpl in *; [| reflexivity].
  destruct (Z.eqb_spec (qualityScore (analysis a)) (qualityScore (analysis b))) as [Hqq | Hqq];
    simpl in *; [| reflexivity].
  destruct (complexityTag (analysis a)), (complexityTag (analysis b));
    simpl in *; try reflexivity; discriminate.
Qed.

(** On ranked tickets [sortTickets] returns the tickets of its input,
    ordered by rank ascending, then by quality descending, then fix
    before feature, the tickets equal on the three keys in the order of
    the input. *)
Theorem sortTickets_ranked (l : list AnalyzedTicket) :
  Forall (fun a => ranked a = true) l ->
  Permutation l (sortTickets l) /\
  StronglySorted key_le (sortTickets l) /\
  (forall c, filter (same_key c) (sortTickets l) = filter (same_key c) l).
Proof.
  intros Hl. unfold sortTickets. split; [apply sort_permutation |]. split.
  - apply (sort_sorted compareTickets key_le (fun a => ranked a = true)); auto.
    + intros x y z _ _ _. apply key_le_trans.
    + apply compare_not_after.
    + apply compare_after.
  - intros c. apply filter_sort. intros x y. apply compare_separates.
Qed.

End SortTickets.

Section StableSortUnique.
Context {A : Type}.
Variable le : A -> A -> Prop.
Variable same : A -> A -> bool.
Variable good : A -> Prop.
Hypothesis same_refl : forall x, same x x = true.
Hypothesis le_antisym : forall x y, good x -> good y -> le x y -> le y x -> same x y = true.

(** Two sorted lists with the same elements of every class, in the
    same order within the class, are one list. *)
Lemma sorted_stable_unique (l1 l2 : list A) :
  Forall good l1 -> Forall good l2 ->
  StronglySorted le l1 -> StronglySorted le l2 ->
  (forall c, filter (same c) l1 = filter (same c) l2) ->
  l1 = l2.
Proof.
  revert l2. induction l1 as [| x r1 IH]; intros l2 Hg1 Hg2 Hs1 Hs2 Hf.
  - destruct l2 as [| y r2]; [reflexivity |].
    specialize (Hf y). simpl in Hf. rewrite same_refl in Hf. discriminate Hf.
  - destruct l2 as [| y r2].
    + specialize (Hf x). simpl in Hf. rewrite same_refl in Hf. discriminate Hf.
    + inversion Hg1 as [| ? ? Hgx Hgr1]; subst.
      inversion Hg2 as [| ? ? Hgy Hgr2]; subst.
      inversion Hs1 as [| ? ? Hsr1 Hx]; subst.
      inversion Hs2 as [| ? ? Hsr2 Hy]; subst.
      assert (Hxy : x = y).
      { destruct (same x y) eqn:Hsame.
        - specialize (Hf x). simpl in Hf. rewrite same_refl, Hsame in Hf.
          inversion Hf. reflexivity.
        - exfalso.
          assert (Hne : x <> y) by (intros ->; rewrite same_refl in Hsame; discriminate).
          assert (Hy1 : In y r1).
          { assert (Hin : In y (filter (same y) (x :: r1))).
            { rewrite Hf. apply filter_In. split; [left; reflexivity | apply same_refl]. }
            apply filter_In in Hin. destruct Hin as [[Heq | Hin] _]; [contradiction | exact Hin]. }
          assert (Hx2 : In x r2).
          { assert (Hin : In x (filter (same x) (y :: r2))).
            { rewrite <- Hf. apply filter_In. split; [left; reflexivity | apply same_refl]. }
            apply filter_In in Hin. destruct Hin as [[Heq | Hin] _]; [| exact Hin].
            contradiction Hne. symmetry. exact Heq. }
          rewrite Forall_forall in Hx, Hy.
          rewrite (le_antisym x y Hgx Hgy (Hx y Hy1) (Hy x Hx2)) in Hsame.
          discriminate Hsame. }
      subst y. f_equal. apply IH; auto.
      intros c. specialize (Hf c). simpl in Hf.
      destruct (same c x); [inversion Hf; reflexivity | exact Hf].
Qed.

End StableSortUnique.

Section SortTicketsUnique.
Import JS Types Formatter Spec.

Lemma strict_eq_refl (v : PropValue) : strict_eq v v = true.
Proof. destruct v; simpl; [apply Z.eqb_refl | apply Builtin_eqb_refl]. Qed.

Lemma same_key_refl (a : AnalyzedTicket) : same_key a a = true.
Proof.
  unfold same_key. rewrite strict_eq_refl, Z.eqb_refl.
  destruct (tag a); reflexivity.
Qed.

Lemma key_le_antisym (a b : AnalyzedTicket) :
  ranked a = true -> ranked b = true -> key_le a b -> key_le b a -> same_key a b = true.
Proof.
  intros Ha Hb Hab Hba. unfold same_key.
  rewrite (ranked_value a Ha), (ranked_value b Hb). simpl.
  unfold key_le, tag_le in *.
  destruct Hab as [Hab | [Hr1 [Hab | [Hq1 Ht1]]]];
    destruct Hba as [Hba | [Hr2 [Hba | [Hq2 Ht2]]]]; try lia.
  rewrite Hr1, Hq1, !Z.eqb_refl. simpl.
  destruct (tag a), (tag b); simpl; auto; contradiction.
Qed.

(** Whatever stable sorting algorithm the engine runs, on ranked
    tickets its result is the one of [sortTickets]: a list that is
    sorted for the precedence and keeps the tickets of every key in
    their input order is that list. *)
Theorem sortTickets_unique (l out : list AnalyzedTicket) :
  Forall (fun a => ranked a = true) l ->
  Permutation l out ->
  StronglySorted key_le out ->
  (forall c, filter (same_key c) out = filter (same_key c) l) ->
  out = sortTickets l.
Proof.
  intros Hl Hperm Hsorted Hstable.
  destruct (sortTickets_ranked l Hl) as [Hp [Hs Hf]].
  apply (sorted_stable_unique key_le same_key (fun a => ranked a = true)).
  - apply same_key_refl.
  - apply key_le_antisym.
  - apply (Permutation_Forall Hperm). exact Hl.
  - apply (Permutation_Forall Hp). exact Hl.
  - exact Hsorted.
  - exact Hs.
  - intros c. rewrite Hstable, Hf. reflexivity.
Qed.

End SortTicketsUnique.

(* ===================================================================== *)
(** ** The reports: the order of the ticket headings *)
(* ===================================================================== *)

Section Reports.
Import JS Types Formatter Spec.

Lemma first_line_append (a b : string) : first_line (a ++ nl ++ b) = first_line a.
Proof.
  induction a as [| c a IH]; [reflexivity |].
  simpl. destruct (nat_of_ascii c =? 10)%nat; [reflexivity |]. f_equal. exact IH.
Qed.

Lemma first_line_join (x : string) (rest : list string) :
  first_line (join nl (x :: rest)) = first_line x.
Proof.
  destruct rest as [| y rest]; [reflexivity |].
  change (join nl (x :: y :: rest)) with (x ++ nl ++ join nl (y :: rest)).
  apply first_line_append.
Qed.

Lemma is_heading_join (item : AnalyzedTicket) (index : nat) (rest : list string) :
  Workflow.is_heading (join nl (heading item index :: rest)) = true.
Proof. destruct rest; reflexivity. Qed.

Section Tool.
Variable toISOString : string -> Completion string.
Variable toFixed1 : Z -> nat -> string.

Lemma formatTicketLines_head (item : AnalyzedTicket) (index : nat) (lines : list string) :
  formatTicketLines toISOString item index = Return lines ->
  exists rest, lines = heading item index :: rest.
Proof.
  unfold formatTicketLines.
  destruct (due_date (ticket item)) as [d |].
  - destruct (String.eqb d "").
    + simpl. intros H. inversion H. eexists. reflexivity.
    + destruct (toISOString d); simpl; intros H; [| discriminate].
      inversion H. eexists. reflexivity.
  - simpl. intros H. inversion H. eexists. reflexivity.
Qed.

Lemma formatTicketMarkdown_heading (item : AnalyzedTicket) (index : nat) (block : string) :
  formatTicketMarkdown toISOString item index = Return block ->
  Workflow.is_heading block = true /\ first_line block = first_line (heading item index).
Proof.
  unfold formatTicketMarkdown.
  destruct (formatTicketLines toISOString item index) as [lines | e] eqn:Hl; simpl;
    intros H; [| discriminate].
  inversion H; subst block. destruct (formatTicketLines_head _ _ _ Hl) as [rest ->].
  split; [apply is_heading_join | apply first_line_join].
Qed.

Lemma ticket_sections_headings (items : list AnalyzedTicket) (index : nat)
    (sections : list string) :
  ticket_sections toISOString items index = Return sections ->
  map first_line (Workflow.headings sections)
  = map first_line (numbered_headings items index).
Proof.
  revert index sections. induction items as [| item rest IH]; intros index sections; simpl.
  - intros H. inversion H. reflexivity.
  - destruct (formatTicketMarkdown toISOString item index) as [block | e] eqn:Hb; simpl;
      [| discriminate].
    destruct (ticket_sections toISOString rest (index + 1)) as [more | e] eqn:Hm; simpl;
      intros H; [| discriminate].
    inversion H; subst sections.
    destruct (formatTicketMarkdown_heading _ _ _ Hb) as [Hh Hf].
    unfold Workflow.headings. simpl. rewrite Hh. simpl.
    rewrite Hf. f_equal. apply IH. exact Hm.
Qed.

(** The report of the tool, when it is produced, has one heading per
    ticket, in the order of [sortTickets]. *)
Lemma sprintFormatterLines_order (tickets : list AnalyzedTicket) (metadata : SprintMetadata)
    (lines : list string) :
  sprintFormatterLines toISOString toFixed1 tickets metadata = Return lines ->
  map first_line (Workflow.headings lines)
  = map first_line (numbered_headings (sortTickets tickets) 0).
Proof.
  unfold sprintFormatterLines.
  destruct (toISOString (syncTimestamp metadata)) as [iso | e]; simpl; [| discriminate].
  destruct (sortTickets tickets) as [| t ts] eqn:Hsorted.
  - intros H. inversion H. reflexivity.
  - destruct (ticket_sections toISOString (t :: ts) 0) as [sections | e] eqn:Hs;
      simpl; intros H; [| discriminate].
    inversion H. unfold Workflow.headings. simpl.
    apply (ticket_sections_headings _ _ _ Hs).
Qed.

End Tool.

Section Step.
Variable now : nat -> string.
Variable toFixed1 : Z -> nat -> string.

Lemma headings_ticket_lines (item : AnalyzedTicket) (index : nat) :
  Workflow.headings (Workflow.ticket_lines item index) = [heading item index].
Proof.
  unfold Workflow.ticket_lines, Workflow.headings.
  destruct (affectedFiles (analysis item)); reflexivity.
Qed.

Lemma headings_app (l1 l2 : list string) :
  Workflow.headings (l1 ++ l2) = (Workflow.headings l1 ++ Workflow.headings l2)%list.
Proof. apply filter_app. Qed.

Lemma headings_forEach (items : list AnalyzedTicket) (index : nat) :
  Workflow.headings (Workflow.forEach_lines items index) = numbered_headings items index.
Proof.
  revert index. induction items as [| item rest IH]; intros index; [reflexivity |].
  change (Workflow.forEach_lines (item :: rest) index)
    with (Workflow.ticket_lines item index ++ Workflow.forEach_lines rest (index + 1))%list.
  rewrite headings_app, headings_ticket_lines, IH. reflexivity.
Qed.

(** The report of the workflow step has one heading per ticket, in
    the order in which the step received the tickets. *)
Lemma markdown_lines_order (analyzedTickets : list AnalyzedTicket) (listId : string) :
  Workflow.headings (Workflow.markdown_lines now toFixed1 analyzedTickets listId)
  = numbered_headings analyzedTickets 0.
Proof.
  unfold Workflow.markdown_lines. rewrite headings_app, headings_forEach.
  destruct analyzedTickets; reflexivity.
Qed.

End Step.

End Reports.

(* ===================================================================== *)
(** ** The analyzer and the batch step *)
(* ===================================================================== *)

Section AnalyzerFacts.
Import JS Types Analyzer Spec.
Variable generateObject : Model.
Variable codebaseMap : CodebaseMap.
Local Abbreviation call_of := (Spec.call_of codebaseMap).
Local Abbreviation analysis_of := (Spec.analysis_of generateObject codebaseMap).
Local Abbreviation analyzed_from := (Spec.analyzed_from generateObject codebaseMap).

Lemma analyzeTicket_returns (n : nat) (ticket : ClickUpTask) :
  analyzeTicket generateObject n ticket codebaseMap = Return (analysis_of n ticket).
Proof.
  unfold analyzeTicket, analysis_of, call_of.
  destruct (generateObject n _); reflexivity.
Qed.

Lemma analyzed_from_app (n : nat) (l1 l2 : list ClickUpTask) :
  analyzed_from n (l1 ++ l2)
  = (analyzed_from n l1 ++ analyzed_from (n + List.length l1) l2)%list.
Proof.
  revert n. induction l1 as [| t r IH]; intros n; simpl.
  - rewrite Nat.add_0_r. reflexivity.
  - rewrite IH. replace (n + S (List.length r)) with (S n + List.length r) by lia.
    reflexivity.
Qed.

Lemma analyzed_from_tickets (n : nat) (tasks : list ClickUpTask) :
  map ticket (analyzed_from n tasks) = tasks.
Proof.
  revert n. induction tasks as [| t r IH]; intros n; simpl; [| rewrite IH]; reflexivity.
Qed.

Lemma analyzed_from_length (n : nat) (tasks : list ClickUpTask) :
  List.length (analyzed_from n tasks) = List.length tasks.
Proof. rewrite <- (analyzed_from_tickets n tasks) at 2. symmetry. apply length_map. Qed.

Lemma Promise_all_map_spec (batch : list ClickUpTask) (calls : list ModelCall) :
  Promise_all_map generateObject codebaseMap batch calls
  = (Return (analyzed_from (List.length calls) batch), (calls ++ map call_of batch)%list).
Proof.
  revert calls. induction batch as [| t r IH]; intros calls; simpl.
  - rewrite app_nil_r. reflexivity.
  - rewrite IH, analyzeTicket_returns. simpl.
    rewrite length_app, <- app_assoc. simpl.
    replace (List.length calls + 1) with (S (List.length calls)) by lia.
    reflexivity.
Qed.

Lemma slice_skipn {A} (i k : nat) (l : list A) :
  (slice i (i + k) l ++ skipn (i + k) l)%list = skipn i l.
Proof.
  unfold slice. replace (i + k - i) with k by lia.
  rewrite Nat.add_comm, <- skipn_skipn. apply firstn_skipn.
Qed.

(** The loop entered at [i] analyzes the tasks from [i] on, in order,
    and stops. *)
Lemma analyze_loop_spec (tasks : list ClickUpTask) (i : nat)
    (results : list AnalyzedTicket) (calls : list ModelCall) :
  analyze_loop generateObject codebaseMap tasks i results calls
  = (Return (results ++ analyzed_from (List.length calls) (skipn i tasks))%list,
     (calls ++ map call_of (skipn i tasks))%list).
Proof.
  funelim (analyze_loop generateObject codebaseMap tasks i results calls);
    try match goal with
        | Hp : Promise_all_map _ _ _ _ = _ |- _ =>
            rewrite Promise_all_map_spec in Hp; inversion Hp; subst; clear Hp
        end.
  - rewrite skipn_all2 by lia. simpl. rewrite !app_nil_r. reflexivity.
  - match goal with
    | IH : analyze_loop _ _ _ _ _ _ = (_, _) |- _ => rewrite IH
    end.
    rewrite <- (slice_skipn i batchSize tasks).
    rewrite analyzed_from_app, map_app, !length_app, length_map, <- !app_assoc.
    reflexivity.
Qed.

(** The step analyzes every task, in order, and returns. *)
Lemma analyzeTicketsStep_returns (tasks : list ClickUpTask) :
  analyzeTicketsStep generateObject codebaseMap tasks
  = (Return (analyzed_from 0 tasks), map call_of tasks).
Proof.
  unfold analyzeTicketsStep. destruct tasks as [| t r]; [reflexivity |].
  rewrite analyze_loop_spec. reflexivity.
Qed.

End AnalyzerFacts.

(** C2. The batch step returns, for every list of tasks, one analyzed
    ticket per task, in the order of the tasks and each paired with its
    own task, after exactly one model call per task issued in that
    order; on the empty list it returns the empty list and makes no call. *)
Theorem analyzeTicketsStep_one_per_task
    (generateObject : Analyzer.Model) (codebaseMap : Types.CodebaseMap)
    (tasks : list Types.ClickUpTask) :
  Analyzer.analyzeTicketsStep generateObject codebaseMap [] = (JS.Return [], []) /\
  exists results calls,
    Analyzer.analyzeTicketsStep generateObject codebaseMap tasks = (JS.Return results, calls) /\
    List.length results = List.length tasks /\
    map Types.ticket results = tasks /\
    results = Spec.analyzed_from generateObject codebaseMap 0 tasks /\
    List.length calls = List.length tasks /\
    calls = map (Spec.call_of codebaseMap) tasks.
Proof.
  split; [reflexivity |].
  exists (Spec.analyzed_from generateObject codebaseMap 0 tasks),
         (map (Spec.call_of codebaseMap) tasks).
  split.
  - unfold Analyzer.analyzeTicketsStep. destruct tasks as [| t r]; [reflexivity |].
    rewrite analyze_loop_spec. reflexivity.
  - split; [apply analyzed_from_length |].
    split; [apply analyzed_from_tickets |].
    split; [reflexivity |]. split; [apply length_map | reflexivity].
Qed.

Section AnalyzerFallback.
Import JS Types Analyzer Spec.

Lemma fallbackAnalysis_as_specified : fallback_as_specified fallbackAnalysis.
Proof.
  unfold fallback_as_specified. simpl. repeat split; try reflexivity.
  eexists. split; reflexivity.
Qed.

Lemma toolFallbackAnalysis_gap :
  qualityGaps toolFallbackAnalysis
    = ["Unable to perform detailed analysis due to technical error"] /\
  forallb mentions_manual (qualityGaps toolFallbackAnalysis) = false.
Proof. split; reflexivity. Qed.

End AnalyzerFallback.

(** C3, as amended. Neither analyzer throws, whatever the model does.
    When the model call throws, [analyzeTicket] returns the fixed
    fall-back of the specification (score 3, the one gap saying that a
    manual review is needed, no affected file, feature, an approach that
    tells to review by hand) and the tool returns its own fixed
    fall-back, of the same shape and with an approach that tells to work
    by hand, whose one gap reports a technical error. When the model
    answers, both return its answer. *)
Theorem analyzers_never_throw
    (generateObject : Analyzer.Model) (n : nat)
    (ticket : Types.ClickUpTask) (codebaseMap : Types.CodebaseMap) :
  (exists a, Analyzer.analyzeTicket generateObject n ticket codebaseMap = JS.Return a /\
     match generateObject n (Analyzer.mkCall Analyzer.ANALYSIS_SYSTEM_PROMPT
                               (Analyzer.userPrompt ticket codebaseMap)) with
     | JS.Return object => a = object
     | JS.Throw _ => a = Analyzer.fallbackAnalysis /\ Spec.fallback_as_specified a
     end) /\
  (exists a, Analyzer.analyzeTicketTool generateObject n ticket codebaseMap = JS.Return a /\
     match generateObject n (Analyzer.mkCall Analyzer.SYSTEM_PROMPT
                               (Analyzer.toolPrompt ticket codebaseMap)) with
     | JS.Return object => a = object
     | JS.Throw _ =>
         a = Analyzer.toolFallbackAnalysis /\ Spec.fallback_shape a /\
         Types.qualityGaps a = ["Unable to perform detailed analysis due to technical error"] /\
         Spec.mentions_manual (Types.suggestedApproach a) = true
     end).
Proof.
  split.
  - unfold Analyzer.analyzeTicket.
    destruct (generateObject n _) as [object | e]; eexists; split; try reflexivity.
    split; [reflexivity | apply fallbackAnalysis_as_specified].
  - unfold Analyzer.analyzeTicketTool.
    destruct (generateObject n _) as [object | e]; eexists; split; try reflexivity.
    split; [reflexivity |]. split.
    + unfold Spec.fallback_shape. simpl. repeat split; try reflexivity.
      eexists. reflexivity.
    + split; reflexivity.
Qed.

(** C3, the claim as stated fails for the tool: with the model down,
    [analyzeTicketTool] returns a fall-back whose one gap reports a
    technical error and says nothing of a manual review. *)
Lemma analyzeTicketTool_fallback_gap :
  Analyzer.analyzeTicketTool Spec.model_down 0 Examples.urgent_task Examples.no_code
    = JS.Return Analyzer.toolFallbackAnalysis /\
  Types.qualityGaps Analyzer.toolFallbackAnalysis
    = ["Unable to perform detailed analysis due to technical error"] /\
  ~ Spec.fallback_as_specified Analyzer.toolFallbackAnalysis.
Proof.
  split; [reflexivity |]. split; [reflexivity |].
  unfold Spec.fallback_as_specified. simpl.
  intros [_ [[gap [Hgap Hmanual]] _]].
  inversion Hgap; subst gap. vm_compute in Hmanual. discriminate Hmanual.
Qed.

(* ===================================================================== *)
(** ** Delivery: attempts and back-off *)
(* ===================================================================== *)

Section DeliveryFacts.
Import JS Http Delivery Spec.
Context {Payload : Type}.
Variable JSON_stringify : Payload -> string.
Variable destination : Destination.
Variable webhookUrl : string.
Variable payload : Payload.
Variable secret : option string.
Variable retries : nat.

Local Abbreviation req := (request JSON_stringify webhookUrl payload secret).
Local Abbreviation once :=
  (attempt_once JSON_stringify destination webhookUrl payload secret).
Local Abbreviation loop :=
  (deliver_loop JSON_stringify destination webhookUrl payload secret retries).

(** An attempt fails exactly on a rejected [fetch] or a non-2xx answer. *)
Lemma attempt_once_outcome (attempt : nat) :
  once attempt =
    if accepted (destination attempt req) then Return tt
    else Throw (error_of (destination attempt req)).
Proof.
  unfold attempt_once, accepted, error_of.
  destruct (destination attempt _) as [r | e]; [destruct (ok r) |]; reflexivity.
Qed.

Lemma deliver_loop_unfold (attempt : nat) (lastError : option Error) (trace : list Event) :
  loop attempt lastError trace =
    if (attempt <? retries)%nat then
      match once attempt with
      | Return _ => (Return tt, (trace ++ [Post attempt req])%list)
      | Throw error =>
          loop (attempt + 1) (Some error)
            (trace ++ [Post attempt req]
                   ++ (if (attempt <? retries - 1)%nat then [Sleep (delay attempt)] else []))%list
      end
    else
      (Throw (match lastError with
              | Some e => e
              | None => new_Error "Webhook delivery failed after retries"
              end), trace).
Proof.
  funelim (deliver_loop JSON_stringify destination webhookUrl payload secret retries
             attempt lastError trace);
    match goal with
    | Hlt : lt_dec _ _ = _ |- _ => clear Hlt
    end.
  - destruct (Nat.ltb_spec attempt retries); [lia | reflexivity].
  - destruct (Nat.ltb_spec attempt retries); [| lia].
    match goal with Ho : attempt_once _ _ _ _ _ _ = _ |- _ => rewrite Ho end.
    reflexivity.
  - destruct (Nat.ltb_spec attempt retries); [| lia].
    match goal with Ho : attempt_once _ _ _ _ _ _ = _ |- _ => rewrite Ho end.
    reflexivity.
Qed.

(** The first accepted attempt ends the loop. *)
Lemma deliver_loop_accepted (n attempt : nat) (lastError : option Error) (trace : list Event) :
  attempt + n < retries ->
  (forall j, attempt <= j < attempt + n -> accepted (destination j req) = false) ->
  accepted (destination (attempt + n) req) = true ->
  loop attempt lastError trace
  = (Return tt, (trace ++ failed_attempts req attempt n ++ [Post (attempt + n) req])%list).
Proof.
  revert attempt lastError trace.
  induction n as [| n IH]; intros attempt lastError trace Hlt Hfail Hok;
    rewrite deliver_loop_unfold, attempt_once_outcome.
  - rewrite Nat.add_0_r in *.
    destruct (Nat.ltb_spec attempt retries); [| lia].
    rewrite Hok. reflexivity.
  - destruct (Nat.ltb_spec attempt retries); [| lia].
    rewrite (Hfail attempt) by lia.
    destruct (Nat.ltb_spec attempt (retries - 1)); [| lia].
    replace (attempt + 1) with (S attempt) by lia.
    rewrite IH.
    + replace (S attempt + n) with (attempt + S n) by lia.
      simpl. rewrite <- !app_assoc. reflexivity.
    + lia.
    + intros j Hj. apply Hfail. lia.
    + replace (S attempt + n) with (attempt + S n) by lia. exact Hok.
Qed.

(** When no remaining attempt is accepted the loop ends after the last
    one, with no back-off behind it, and throws its error. *)
Lemma deliver_loop_exhausted (n attempt : nat) (lastError : option Error) (trace : list Event) :
  attempt + S n = retries ->
  (forall j, attempt <= j < retries -> accepted (destination j req) = false) ->
  loop attempt lastError trace
  = (Throw (error_of (destination (retries - 1) req)),
     (trace ++ failed_attempts req attempt n ++ [Post (retries - 1) req])%list).
Proof.
  revert attempt lastError trace.
  induction n as [| n IH]; intros attempt lastError trace Hn Hfail;
    rewrite deliver_loop_unfold, attempt_once_outcome;
    (destruct (Nat.ltb_spec attempt retries); [| lia]);
    rewrite (Hfail attempt) by lia.
  - destruct (Nat.ltb_spec attempt (retries - 1)); [lia |].
    rewrite deliver_loop_unfold.
    destruct (Nat.ltb_spec (attempt + 1) retries); [lia |].
    replace (retries - 1) with attempt by lia.
    simpl. rewrite ?app_nil_r. reflexivity.
  - destruct (Nat.ltb_spec attempt (retries - 1)); [| lia].
    replace (attempt + 1) with (S attempt) by lia.
    rewrite IH; [| lia | intros j Hj; apply Hfail; lia].
    simpl. rewrite <- !app_assoc. reflexivity.
Qed.

Lemma attempts_app (t1 t2 : list Event) : attempts (t1 ++ t2) = attempts t1 + attempts t2.
Proof. unfold attempts. rewrite filter_app, length_app. reflexivity. Qed.

Lemma total_delay_app (t1 t2 : list Event) :
  total_delay (t1 ++ t2) = (total_delay t1 + total_delay t2)%Z.
Proof.
  unfold total_delay. induction t1 as [| e t IH]; simpl; [reflexivity |].
  destruct e; rewrite IH; lia.
Qed.

Lemma attempts_post (k : nat) (r : Request) : attempts [Post k r] = 1.
Proof. reflexivity. Qed.

Lemma total_delay_post (k : nat) (r : Request) : total_delay [Post k r] = 0%Z.
Proof. reflexivity. Qed.

Lemma attempts_failed (r : Request) (from n : nat) : attempts (failed_attempts r from n) = n.
Proof.
  revert from. induction n as [| n IH]; intros from; [reflexivity |].
  simpl. unfold attempts in *. simpl. rewrite IH. reflexivity.
Qed.

(** The back-off behind [n] failed attempts from attempt [from] on:
    1000 * (2^from + ... + 2^(from + n - 1)) milliseconds. *)
Lemma total_delay_failed (r : Request) (from n : nat) :
  total_delay (failed_attempts r from n)
  = (1000 * 2 ^ Z.of_nat from * (2 ^ Z.of_nat n - 1))%Z.
Proof.
  revert from. induction n as [| n IH]; intros from.
  - simpl. lia.
  - change (total_delay (failed_attempts r from (S n)))
      with (delay from + total_delay (failed_attempts r (S from) n))%Z.
    rewrite IH. unfold delay.
    rewrite !Nat2Z.inj_succ, !Z.pow_succ_r by lia. lia.
Qed.

(** The loop sends at most one request per attempt left. *)
Lemma deliver_loop_bounded (n attempt : nat) (lastError : option Error) (trace : list Event) :
  retries - attempt = n ->
  attempts (snd (loop attempt lastError trace)) <= attempts trace + n.
Proof.
  revert attempt lastError trace.
  induction n as [| n IH]; intros attempt lastError trace Hn; rewrite deliver_loop_unfold.
  - destruct (Nat.ltb_spec attempt retries); [lia |]. cbn [snd]. lia.
  - destruct (Nat.ltb_spec attempt retries); [| lia].
    destruct (once attempt) as [[] | error].
    + cbn [snd]. rewrite attempts_app, attempts_post. lia.
    + eapply Nat.le_trans; [apply IH; lia |].
      rewrite !attempts_app, attempts_post.
      destruct (attempt <? retries - 1)%nat; unfold attempts; simpl; lia.
Qed.

(** The whole delivery, when attempt [k] is the first accepted one and
    when no attempt is accepted. *)
Lemma deliverWebhook_accepted (k : nat) :
  k < retries ->
  (forall j, j < k -> accepted (destination j req) = false) ->
  accepted (destination k req) = true ->
  deliverWebhook JSON_stringify destination webhookUrl payload secret retries
  = (Return tt, (failed_attempts req 0 k ++ [Post k req])%list).
Proof.
  intros Hk Hfail Hok. unfold deliverWebhook.
  rewrite (deliver_loop_accepted k 0); auto.
  intros j Hj. apply Hfail. lia.
Qed.

Lemma deliverWebhook_exhausted :
  0 < retries ->
  (forall j, j < retries -> accepted (destination j req) = false) ->
  deliverWebhook JSON_stringify destination webhookUrl payload secret retries
  = (Throw (error_of (destination (retries - 1) req)),
     (failed_attempts req 0 (retries - 1) ++ [Post (retries - 1) req])%list).
Proof.
  intros Hpos Hfail. unfold deliverWebhook.
  rewrite (deliver_loop_exhausted (retries - 1) 0); auto; try lia.
  intros j Hj. apply Hfail. lia.
Qed.

End DeliveryFacts.

(** C5. [deliverWebhook] makes at most [retries] attempts, and none
    with the error that says so when [retries] is 0; a caller that
    gives no [retries] gets the default, which is 3. An attempt fails
    on a rejected [fetch] or a non-2xx answer; failed attempt number
    [n], counted from 0, is followed by a pause of [2^n] seconds unless
    it was the last one allowed. When attempt [k] is the first accepted
    one the delivery succeeds after exactly [k + 1] requests and
    [2^k - 1] seconds of pauses, and stops. When no attempt is accepted
    it throws the error of the last attempt, with no pause behind it.
    So, with the default: a destination that fails twice and then
    accepts is delivered to with 3 requests and pauses of 1 and 2
    seconds, and one that fails 3 times gets 3 requests and the error
    of the third. *)
Theorem deliverWebhook_retries {Payload : Type}
    (JSON_stringify : Payload -> string) (destination : Delivery.Destination)
    (webhookUrl : string) (payload : Payload) (secret : option string) (retries : nat) :
  let r := Delivery.request JSON_stringify webhookUrl payload secret in
  let run := Delivery.deliverWebhook JSON_stringify destination webhookUrl payload secret retries in
  let by_default := Delivery.deliverWebhook JSON_stringify destination webhookUrl payload secret
                      Delivery.default_retries in
  (forall n, Delivery.delay n = (2 ^ Z.of_nat n * 1000)%Z) /\
  Delivery.attempts (snd run) <= retries /\
  Delivery.deliverWebhook JSON_stringify destination webhookUrl payload secret 0
    = (JS.Throw (JS.new_Error "Webhook delivery failed after retries"), []) /\
  (forall k,
     k < retries ->
     (forall j, j < k -> Spec.accepted (destination j r) = false) ->
     Spec.accepted (destination k r) = true ->
     run = (JS.Return tt, (Spec.failed_attempts r 0 k ++ [Delivery.Post k r])%list) /\
     Delivery.attempts (snd run) = k + 1 /\
     Delivery.total_delay (snd run) = (1000 * (2 ^ Z.of_nat k - 1))%Z) /\
  (0 < retries ->
   (forall j, j < retries -> Spec.accepted (destination j r) = false) ->
   run = (JS.Throw (Spec.error_of (destination (retries - 1) r)),
          (Spec.failed_attempts r 0 (retries - 1) ++ [Delivery.Post (retries - 1) r])%list) /\
   Delivery.attempts (snd run) = retries /\
   Delivery.total_delay (snd run) = (1000 * (2 ^ Z.of_nat (retries - 1) - 1))%Z) /\
  Delivery.default_retries = 3 /\
  Delivery.attempts (snd by_default) <= 3 /\
  (Spec.accepted (destination 0 r) = false ->
   Spec.accepted (destination 1 r) = false ->
   Spec.accepted (destination 2 r) = true ->
   by_default
     = (JS.Return tt,
        [ Delivery.Post 0 r; Delivery.Sleep 1000; Delivery.Post 1 r; Delivery.Sleep 2000;
          Delivery.Post 2 r ]) /\
   Delivery.attempts (snd by_default) = 3 /\
   Delivery.total_delay (snd by_default) = 3000%Z) /\
  (Spec.accepted (destination 0 r) = false ->
   Spec.accepted (destination 1 r) = false ->
   Spec.accepted (destination 2 r) = false ->
   by_default
     = (JS.Throw (Spec.error_of (destination 2 r)),
        [ Delivery.Post 0 r; Delivery.Sleep 1000; Delivery.Post 1 r; Delivery.Sleep 2000;
          Delivery.Post 2 r ]) /\
   Delivery.attempts (snd by_default) = 3).
Proof.
  intros r run by_default. split; [reflexivity |].
  split; [apply (deliver_loop_bounded _ _ _ _ _ _ retries 0 None []); lia |].
  split; [reflexivity |]. split; [| split; [| split; [reflexivity | split; [| split]]]].
  - intros k Hk Hfail Hok.
    assert (Hrun : run = (JS.Return tt, (Spec.failed_attempts r 0 k ++ [Delivery.Post k r])%list)).
    { apply deliverWebhook_accepted; assumption. }
    rewrite Hrun. cbn [snd]. split; [reflexivity |].
    rewrite attempts_app, total_delay_app, attempts_failed, total_delay_failed,
      attempts_post, total_delay_post.
    split; [reflexivity |]. change (Z.of_nat 0) with 0%Z. lia.
  - intros Hpos Hfail.
    assert (Hrun : run = (JS.Throw (Spec.error_of (destination (retries - 1) r)),
              (Spec.failed_attempts r 0 (retries - 1) ++ [Delivery.Post (retries - 1) r])%list)).
    { apply deliverWebhook_exhausted; assumption. }
    rewrite Hrun. cbn [snd]. split; [reflexivity |].
    rewrite attempts_app, total_delay_app, attempts_failed, total_delay_failed,
      attempts_post, total_delay_post.
    split; [lia |]. change (Z.of_nat 0) with 0%Z. lia.
  - apply (deliver_loop_bounded _ _ _ _ _ _ Delivery.default_retries 0 None []).
    unfold Delivery.default_retries. lia.
  - intros H0 H1 H2.
    assert (Hrun : by_default
              = (JS.Return tt, (Spec.failed_attempts r 0 2 ++ [Delivery.Post 2 r])%list)).
    { apply deliverWebhook_accepted; [unfold Delivery.default_retries; lia | | exact H2].
      intros j Hj. destruct j as [| [| j]]; [exact H0 | exact H1 | lia]. }
    rewrite Hrun. repeat split.
  - intros H0 H1 H2.
    assert (Hrun : by_default
              = (JS.Throw (Spec.error_of (destination (Delivery.default_retries - 1) r)),
                 (Spec.failed_attempts r 0 (Delivery.default_retries - 1)
                    ++ [Delivery.Post (Delivery.default_retries - 1) r])%list)).
    { apply deliverWebhook_exhausted; [unfold Delivery.default_retries; lia |].
      intros j Hj. unfold Delivery.default_retries in Hj.
      destruct j as [| [| [| j]]]; [exact H0 | exact H1 | exact H2 | lia]. }
    rewrite Hrun. repeat split.
Qed.

(** The run of the specification, with the default number of
    attempts: a destination that fails twice and then accepts is
    delivered to with 3 requests and 1 + 2 = 3 seconds of pauses; one
    that never accepts gets 3 requests and the last error. *)
Lemma deliverWebhook_retries_witness :
  (let run := Delivery.deliverWebhook (fun s : string => s) Examples.flaky
                "http://localhost:3001" "{}" None Delivery.default_retries in
   fst run = JS.Return tt /\
   Delivery.attempts (snd run) = 3 /\
   Delivery.total_delay (snd run) = 3000%Z) /\
  (let run := Delivery.deliverWebhook (fun s : string => s) Examples.broken
                "http://localhost:3001" "{}" None Delivery.default_retries in
   fst run = JS.Throw (JS.new_Error "Webhook delivery failed: 500 Internal Server Error") /\
   Delivery.attempts (snd run) = 3).
Proof.
  split.
  - destruct (deliverWebhook_retries (fun s : string => s) Examples.flaky
                "http://localhost:3001" "{}" None Delivery.default_retries)
      as [_ [_ [_ [_ [_ [_ [_ [Hok _]]]]]]]].
    destruct (Hok eq_refl eq_refl eq_refl) as [Hrun [Hn Hd]].
    cbv zeta. rewrite Hrun in *. split; [reflexivity | split; [exact Hn | exact Hd]].
  - destruct (deliverWebhook_retries (fun s : string => s) Examples.broken
                "http://localhost:3001" "{}" None Delivery.default_retries)
      as [_ [_ [_ [_ [_ [_ [_ [_ Hall]]]]]]]].
    destruct (Hall eq_refl eq_refl eq_refl) as [Hrun Hn].
    cbv zeta. rewrite Hrun in *. split; [reflexivity | exact Hn].
Defined.

(* ===================================================================== *)
(** ** The last step and the workflow *)
(* ===================================================================== *)

(** The last step on a non-empty list: the outcome follows the
    delivery, made with the default number of attempts. *)
Lemma formatAndDeliverStep_delivers
    (now : nat -> string) (toFixed1 : Z -> nat -> string)
    (JSON_stringify : Workflow.Payload -> string) (destination : Delivery.Destination)
    (analyzedTickets : list Types.AnalyzedTicket)
    (listId webhookUrl : string) (webhookSecret : option string)
    (delivery : JS.Completion unit) (trace : list Delivery.Event) :
  analyzedTickets <> [] ->
  Delivery.deliverWebhook JSON_stringify destination webhookUrl
    (Workflow.build_payload now toFixed1 analyzedTickets listId) webhookSecret
    Delivery.default_retries = (delivery, trace) ->
  Workflow.formatAndDeliverStep now toFixed1 JSON_stringify destination
    analyzedTickets listId webhookUrl webhookSecret
  = (let webhookDelivered := match delivery with JS.Return _ => true | JS.Throw _ => false end in
     let n := JS.string_of_nat (List.length analyzedTickets) in
     Workflow.mkOutcome true (List.length analyzedTickets) webhookDelivered
       (if webhookDelivered
        then "Successfully analyzed " ++ n ++ " tickets and delivered to webhook"
        else "Analyzed " ++ n ++ " tickets but webhook delivery failed"),
     trace).
Proof.
  intros Hne Hrun. unfold Workflow.formatAndDeliverStep.
  destruct analyzedTickets as [| t ts]; [congruence |].
  rewrite Hrun. reflexivity.
Qed.

(** C9. On an empty list the last step returns at once: success, 0
    tickets, nothing delivered, the message that no tickets were found,
    and nothing is sent to the destination; so does the workflow when
    no task was fetched, without a model call. When tasks were fetched
    the workflow analyzes each of them with one model call, builds the
    payload that carries the analyzed tickets, and tries to deliver it.
    If each of the 3 attempts fails, the workflow does not throw: it
    returns success with the number of analyzed tickets,
    [webhookDelivered] false and the message that the tickets were
    analyzed but the delivery failed, after the 3 requests and the
    pauses of 1 and 2 seconds. If attempt [k] is the first accepted one
    it returns the same count with [webhookDelivered] true and the
    message of a delivery, after [k + 1] requests. The last step alone
    does the same on every non-empty list of analyzed tickets. *)
Theorem sprintSyncWorkflow_outcomes
    (now : nat -> string) (toFixed1 : Z -> nat -> string)
    (JSON_stringify : Workflow.Payload -> string) (destination : Delivery.Destination)
    (generateObject : Analyzer.Model) (codebaseMap : Types.CodebaseMap)
    (tasks : list Types.ClickUpTask) (analyzedTickets : list Types.AnalyzedTicket)
    (listId webhookUrl : string) (webhookSecret : option string) :
  let step := Workflow.formatAndDeliverStep now toFixed1 JSON_stringify destination in
  let workflow := Workflow.sprintSyncWorkflow now toFixed1 JSON_stringify destination
                    generateObject codebaseMap in
  let analyzed := Spec.analyzed_from generateObject codebaseMap 0 tasks in
  let calls := map (Spec.call_of codebaseMap) tasks in
  let payload := Workflow.build_payload now toFixed1 analyzed listId in
  let sent := Delivery.request JSON_stringify webhookUrl payload webhookSecret in
  let r := Delivery.request JSON_stringify webhookUrl
             (Workflow.build_payload now toFixed1 analyzedTickets listId) webhookSecret in
  let failed (n : nat) :=
    Workflow.mkOutcome true n false
      ("Analyzed " ++ JS.string_of_nat n ++ " tickets but webhook delivery failed") in
  let delivered (n : nat) :=
    Workflow.mkOutcome true n true
      ("Successfully analyzed " ++ JS.string_of_nat n ++ " tickets and delivered to webhook") in
  step [] listId webhookUrl webhookSecret
    = (Workflow.mkOutcome true 0 false "No tickets found in the list", []) /\
  workflow [] listId webhookUrl webhookSecret
    = (JS.Return (Workflow.mkOutcome true 0 false "No tickets found in the list"), [], []) /\
  Workflow.tickets payload = analyzed /\
  map Types.ticket analyzed = tasks /\
  (tasks <> [] ->
   (forall j, j < Delivery.default_retries -> Spec.accepted (destination j sent) = false) ->
   workflow tasks listId webhookUrl webhookSecret
     = (JS.Return (failed (List.length tasks)), calls,
        [ Delivery.Post 0 sent; Delivery.Sleep 1000; Delivery.Post 1 sent; Delivery.Sleep 2000;
          Delivery.Post 2 sent ])) /\
  (tasks <> [] ->
   forall k,
     k < Delivery.default_retries ->
     (forall j, j < k -> Spec.accepted (destination j sent) = false) ->
     Spec.accepted (destination k sent) = true ->
     workflow tasks listId webhookUrl webhookSecret
       = (JS.Return (delivered (List.length tasks)), calls,
          (Spec.failed_attempts sent 0 k ++ [Delivery.Post k sent])%list)) /\
  (analyzedTickets <> [] ->
   (forall j, j < Delivery.default_retries -> Spec.accepted (destination j r) = false) ->
   step analyzedTickets listId webhookUrl webhookSecret
     = (failed (List.length analyzedTickets),
        [ Delivery.Post 0 r; Delivery.Sleep 1000; Delivery.Post 1 r; Delivery.Sleep 2000;
          Delivery.Post 2 r ])) /\
  (analyzedTickets <> [] ->
   forall k,
     k < Delivery.default_retries ->
     (forall j, j < k -> Spec.accepted (destination j r) = false) ->
     Spec.accepted (destination k r) = true ->
     step analyzedTickets listId webhookUrl webhookSecret
       = (delivered (List.length analyzedTickets),
          (Spec.failed_attempts r 0 k ++ [Delivery.Post k r])%list)) /\
  (forall n, failed n <> delivered n).
Proof.
  intros step workflow analyzed calls payload sent r failed delivered.
  assert (Hne : tasks <> [] -> analyzed <> []).
  { intros Ht Ha. apply Ht. apply length_zero_iff_nil.
    unfold analyzed in Ha.
    rewrite <- (analyzed_from_length generateObject codebaseMap 0 tasks), Ha. reflexivity. }
  assert (Hstep_failed : forall tickets,
            tickets <> [] ->
            let q := Delivery.request JSON_stringify webhookUrl
                       (Workflow.build_payload now toFixed1 tickets listId) webhookSecret in
            (forall j, j < Delivery.default_retries -> Spec.accepted (destination j q) = false) ->
            step tickets listId webhookUrl webhookSecret
            = (failed (List.length tickets),
               [ Delivery.Post 0 q; Delivery.Sleep 1000; Delivery.Post 1 q; Delivery.Sleep 2000;
                 Delivery.Post 2 q ])).
  { intros tickets Hts q Hfail. unfold step.
    assert (Hpos : 0 < Delivery.default_retries) by (unfold Delivery.default_retries; lia).
    rewrite (formatAndDeliverStep_delivers now toFixed1 JSON_stringify destination tickets
               listId webhookUrl webhookSecret _ _ Hts
               (deliverWebhook_exhausted _ _ _ _ _ _ Hpos Hfail)).
    reflexivity. }
  assert (Hstep_delivered : forall tickets,
            tickets <> [] ->
            let q := Delivery.request JSON_stringify webhookUrl
                       (Workflow.build_payload now toFixed1 tickets listId) webhookSecret in
            forall k,
              k < Delivery.default_retries ->
              (forall j, j < k -> Spec.accepted (destination j q) = false) ->
              Spec.accepted (destination k q) = true ->
              step tickets listId webhookUrl webhookSecret
              = (delivered (List.length tickets),
                 (Spec.failed_attempts q 0 k ++ [Delivery.Post k q])%list)).
  { intros tickets Hts q k Hk Hfail Hok. unfold step.
    rewrite (formatAndDeliverStep_delivers now toFixed1 JSON_stringify destination tickets
               listId webhookUrl webhookSecret _ _ Hts
               (deliverWebhook_accepted _ _ _ _ _ _ k Hk Hfail Hok)).
    reflexivity. }
  split; [reflexivity |]. split; [reflexivity |]. split; [reflexivity |].
  split; [apply analyzed_from_tickets |].
  split; [| split; [| split; [| split; [| discriminate]]]].
  - intros Ht Hfail. unfold workflow, Workflow.sprintSyncWorkflow.
    rewrite analyzeTicketsStep_returns.
    fold analyzed. fold step. rewrite (Hstep_failed analyzed (Hne Ht) Hfail).
    unfold analyzed. rewrite analyzed_from_length. reflexivity.
  - intros Ht k Hk Hfail Hok. unfold workflow, Workflow.sprintSyncWorkflow.
    rewrite analyzeTicketsStep_returns.
    fold analyzed. fold step. rewrite (Hstep_delivered analyzed (Hne Ht) k Hk Hfail Hok).
    unfold analyzed. rewrite analyzed_from_length. reflexivity.
  - intros Hts Hfail. exact (Hstep_failed analyzedTickets Hts Hfail).
  - intros Hts k Hk Hfail Hok. exact (Hstep_delivered analyzedTickets Hts k Hk Hfail Hok).
Qed.

(** The workflow on two fetched tasks, with a model that answers: a
    destination that answers 500 to every request gives the outcome
    "analyzed but delivery failed" after 2 model calls and 3 requests;
    one that accepts the third request gives the delivered outcome. *)
Lemma sprintSyncWorkflow_outcomes_witness :
  (let '(out, calls, trace) :=
     Workflow.sprintSyncWorkflow Examples.clock Examples.fixed1 Examples.show_payload
       Examples.broken Examples.model_feature_first Examples.no_code
       [Examples.low_task; Examples.urgent_task] "901" "http://localhost:3001" None in
   out = JS.Return (Workflow.mkOutcome true 2 false
                      "Analyzed 2 tickets but webhook delivery failed") /\
   List.length calls = 2 /\ Delivery.attempts trace = 3) /\
  (let '(out, calls, trace) :=
     Workflow.sprintSyncWorkflow Examples.clock Examples.fixed1 Examples.show_payload
       Examples.flaky Examples.model_feature_first Examples.no_code
       [Examples.low_task; Examples.urgent_task] "901" "http://localhost:3001" None in
   out = JS.Return (Workflow.mkOutcome true 2 true
                      "Successfully analyzed 2 tickets and delivered to webhook") /\
   List.length calls = 2 /\ Delivery.attempts trace = 3).
Proof.
  destruct (sprintSyncWorkflow_outcomes Examples.clock Examples.fixed1 Examples.show_payload
              Examples.broken Examples.model_feature_first Examples.no_code
              [Examples.low_task; Examples.urgent_task] []
              "901" "http://localhost:3001" None) as [_ [_ [_ [_ [Hfailed _]]]]].
  destruct (sprintSyncWorkflow_outcomes Examples.clock Examples.fixed1 Examples.show_payload
              Examples.flaky Examples.model_feature_first Examples.no_code
              [Examples.low_task; Examples.urgent_task] []
              "901" "http://localhost:3001" None) as [_ [_ [_ [_ [_ [Hdelivered _]]]]]].
  split.
  - rewrite Hfailed; [repeat split | discriminate | intros j Hj; reflexivity].
  - rewrite (Hdelivered ltac:(discriminate) 2);
      [repeat split | unfold Delivery.default_retries; lia | | reflexivity].
    intros j Hj. destruct j as [| [| j]]; [reflexivity | reflexivity | lia].
Defined.

(** C1. Two tasks fetched in the order Low, Urgent, analyzed as a
    feature and as a fix, and a destination that accepts at once: the
    workflow returns success, 2 tickets, delivered, after one request
    that carries the report; but the report lists the tickets in the
    order of the fetch, the Low feature first, since the last step
    renders [analyzedTickets] as they come. [sortTickets] on the same
    tickets puts the Urgent fix first. *)
Theorem sprintSyncWorkflow_report_in_fetch_order
    (now : nat -> string) (toFixed1 : Z -> nat -> string)
    (JSON_stringify : Workflow.Payload -> string) :
  let payload := Workflow.build_payload now toFixed1 Examples.low_then_urgent "901" in
  Workflow.sprintSyncWorkflow now toFixed1 JSON_stringify Examples.accepting
    Examples.model_feature_first Examples.no_code
    [Examples.low_task; Examples.urgent_task] "901" "http://localhost:3001" None
  = (JS.Return (Workflow.mkOutcome true 2 true
                  "Successfully analyzed 2 tickets and delivered to webhook"),
     map (Spec.call_of Examples.no_code) [Examples.low_task; Examples.urgent_task],
     [Delivery.Post 0 (Delivery.request JSON_stringify "http://localhost:3001" payload None)]) /\
  Workflow.sprintMarkdown payload
    = JS.join Workflow.nl (Workflow.markdown_lines now toFixed1 Examples.low_then_urgent "901") /\
  Workflow.headings (Workflow.markdown_lines now toFixed1 Examples.low_then_urgent "901")
    = [ "### 1. [FEATURE] Add dark mode"; "### 2. [FIX] Fix login crash" ] /\
  Formatter.sortTickets Examples.low_then_urgent = Examples.urgent_then_low.
Proof.
  intros payload. repeat split.
Qed.

(** The same run on the tasks fetched in the order Urgent, Low lists
    the Urgent fix first. *)
Lemma sprintSyncWorkflow_urgent_fetched_first
    (now : nat -> string) (toFixed1 : Z -> nat -> string)
    (JSON_stringify : Workflow.Payload -> string) :
  let payload := Workflow.build_payload now toFixed1 Examples.urgent_then_low "901" in
  Workflow.sprintSyncWorkflow now toFixed1 JSON_stringify Examples.accepting
    Examples.model_fix_first Examples.no_code
    [Examples.urgent_task; Examples.low_task] "901" "http://localhost:3001" None
  = (JS.Return (Workflow.mkOutcome true 2 true
                  "Successfully analyzed 2 tickets and delivered to webhook"),
     map (Spec.call_of Examples.no_code) [Examples.urgent_task; Examples.low_task],
     [Delivery.Post 0 (Delivery.request JSON_stringify "http://localhost:3001" payload None)]) /\
  Workflow.headings (Workflow.markdown_lines now toFixed1 Examples.urgent_then_low "901")
    = [ "### 1. [FIX] Fix login crash"; "### 2. [FEATURE] Add dark mode" ].
Proof.
  intros payload. repeat split.
Qed.

(** C4. A ticket whose priority label is ["constructor"] followed by a
    ticket of priority Low, equal in quality and complexity: the label
    is unrecognized, so the Low ticket (rank 4) should come first; but
    the label reads as an object, the comparator returns NaN both ways,
    and [sortTickets] leaves the unrecognized ticket in front, in the
    sorted list and in the rendered report. *)
Theorem sortTickets_unrecognized_before_low :
  Formatter.getPriorityOrder (Formatter.priority_label Examples.odd_plain)
    = Formatter.PRef Formatter.Object_constructor /\
  Formatter.getPriorityOrder (Formatter.priority_label Examples.low_plain) = Formatter.PNum 4 /\
  Formatter.compareTickets Examples.odd_plain Examples.low_plain = JS.NaN /\
  Formatter.compareTickets Examples.low_plain Examples.odd_plain = JS.NaN /\
  Formatter.sortTickets [Examples.odd_plain; Examples.low_plain]
    = [Examples.odd_plain; Examples.low_plain] /\
  exists lines,
    Formatter.sprintFormatterLines (fun s => JS.Return s) Examples.fixed1
      [Examples.odd_plain; Examples.low_plain] Examples.sample_metadata = JS.Return lines /\
    map Spec.first_line (Workflow.headings lines)
      = [ "### 1. [FEATURE] Rename fields"; "### 2. [FEATURE] Add dark mode" ].
Proof.
  repeat split. eexists. split; reflexivity.
Qed.

(* ===================================================================== *)
(** ** The signature *)
(* ===================================================================== *)

Section DigestBytes.
Import Crypto.
Local Open Scope Z_scope.

Lemma be_bytes_length (n : nat) (x : Z) : List.length (be_bytes n x) = n.
Proof. induction n as [| n IH]; cbn [be_bytes List.length]; [reflexivity | now rewrite IH]. Qed.

Lemma be_bytes_range (n : nat) (x : Z) : Forall (fun b => 0 <= b < 256) (be_bytes n x).
Proof.
  induction n as [| n IH]; cbn [be_bytes]; constructor; [| exact IH].
  apply Z.mod_pos_bound. lia.
Qed.

Lemma digest_bytes_length (ws : list Z) :
  List.length (flat_map (be_bytes 4) ws) = (4 * List.length ws)%nat.
Proof.
  induction ws as [| w r IH]; [reflexivity |].
  cbn [flat_map]. rewrite length_app, be_bytes_length, IH. cbn [List.length]. lia.
Qed.

Lemma digest_bytes_range (ws : list Z) :
  Forall (fun b => 0 <= b < 256) (flat_map (be_bytes 4) ws).
Proof.
  induction ws as [| w r IH]; [constructor |].
  cbn [flat_map]. apply Forall_app. split; [apply be_bytes_range | exact IH].
Qed.

Lemma compress_chain_length (blocks : list (list Z)) (h : list Z) :
  List.length h = 8%nat -> List.length (fold_left compress blocks h) = 8%nat.
Proof.
  revert h. induction blocks as [| b r IH]; intros h Hh; [exact Hh |].
  cbn [fold_left]. apply IH. reflexivity.
Qed.

Lemma sha256_length (msg : list Z) : List.length (sha256 msg) = 32%nat.
Proof.
  unfold sha256. rewrite digest_bytes_length, compress_chain_length; reflexivity.
Qed.

Lemma sha256_range (msg : list Z) : Forall (fun b => 0 <= b < 256) (sha256 msg).
Proof. apply digest_bytes_range. Qed.

(** [digest('hex')] loses nothing: two lists of bytes with the same
    hexadecimal form are one list. *)
Lemma hex_digit_code (n : Z) :
  0 <= n < 16 ->
  Z.of_nat (nat_of_ascii (hex_digit n)) = if n <? 10 then 48 + n else 87 + n.
Proof.
  intros H. unfold hex_digit.
  destruct (n <? 10); rewrite nat_ascii_embedding by lia; lia.
Qed.

Lemma hex_digit_inj (a b : Z) :
  0 <= a < 16 -> 0 <= b < 16 -> hex_digit a = hex_digit b -> a = b.
Proof.
  intros Ha Hb Heq.
  assert (Hc := hex_digit_code a Ha). assert (Hd := hex_digit_code b Hb).
  rewrite Heq in Hc. rewrite Hc in Hd.
  destruct (Z.ltb_spec a 10), (Z.ltb_spec b 10); lia.
Qed.

Lemma hex_inj (l1 l2 : list Z) :
  Forall (fun b => 0 <= b < 256) l1 -> Forall (fun b => 0 <= b < 256) l2 ->
  hex l1 = hex l2 -> l1 = l2.
Proof.
  intros H1. revert l2. induction H1 as [| x r Hx Hr IH]; intros l2 H2 Heq.
  - destruct l2; [reflexivity | discriminate Heq].
  - destruct H2 as [| y r' Hy Hr']; [discriminate Heq |].
    cbn [hex] in Heq. injection Heq as Hhi Hlo Hrest.
    apply hex_digit_inj in Hhi;
      [| split; [apply Z.div_pos; lia | apply Z.div_lt_upper_bound; lia] ..].
    apply hex_digit_inj in Hlo; [| apply Z.mod_pos_bound; lia ..].
    f_equal; [| apply IH; assumption].
    rewrite (Z.div_mod x 16), (Z.div_mod y 16) by lia. congruence.
Qed.

(** A string and its bytes. *)
Lemma bytes_of_string_length (s : string) :
  List.length (bytes_of_string s) = String.length s.
Proof. induction s as [| c r IH]; cbn; [reflexivity | now rewrite IH]. Qed.

Lemma bytes_of_string_inj (s t : string) : bytes_of_string s = bytes_of_string t -> s = t.
Proof.
  revert t. induction s as [| c r IH]; intros [| d r'] Heq; cbn in Heq;
    try discriminate Heq; [reflexivity |].
  injection Heq as Hc Hr. apply Nat2Z.inj in Hc. f_equal; [| apply IH; exact Hr].
  rewrite <- (ascii_nat_embedding c), <- (ascii_nat_embedding d), Hc. reflexivity.
Qed.

Lemma bytes_of_string_app (s t : string) :
  bytes_of_string (s ++ t) = (bytes_of_string s ++ bytes_of_string t)%list.
Proof. induction s as [| c r IH]; cbn; [reflexivity | now rewrite IH]. Qed.

Lemma bytes_of_nuls (n : nat) : bytes_of_string (Spec.nuls n) = repeat 0 n.
Proof. induction n as [| n IH]; cbn; [reflexivity | now rewrite IH]. Qed.

(** The key block: the key filled with zero bytes when it fits a
    block, its digest filled with zero bytes when it does not. *)
Lemma key_block_short (key : list Z) :
  (List.length key <= block_size)%nat ->
  key_block key = (key ++ repeat 0 (block_size - List.length key))%list.
Proof.
  intros Hlen. unfold key_block.
  destruct (Nat.ltb_spec block_size (List.length key)); [lia | reflexivity].
Qed.

Lemma key_block_long (key : list Z) :
  (block_size < List.length key)%nat ->
  key_block key = (sha256 key ++ repeat 0 32)%list.
Proof.
  intros Hlen. unfold key_block.
  destruct (Nat.ltb_spec block_size (List.length key)); [| lia].
  rewrite sha256_length. reflexivity.
Qed.

Lemma key_block_length (key : list Z) : List.length (key_block key) = block_size.
Proof.
  destruct (Nat.le_gt_cases (List.length key) block_size) as [Hle | Hgt].
  - rewrite key_block_short, length_app, repeat_length by exact Hle. lia.
  - rewrite key_block_long, length_app, repeat_length, sha256_length by exact Hgt.
    reflexivity.
Qed.

Lemma xor_with_inj (c : Z) (l1 l2 : list Z) : xor_with c l1 = xor_with c l2 -> l1 = l2.
Proof.
  unfold xor_with. revert l2. induction l1 as [| x r IH]; intros [| y r'] Heq; cbn in Heq;
    try discriminate Heq; [reflexivity |].
  injection Heq as Hx Hr. f_equal; [| apply IH; exact Hr].
  rewrite <- (Z.lxor_0_l x), <- (Z.lxor_0_l y), <- (Z.lxor_nilpotent c), !Z.lxor_assoc.
  rewrite Hx. reflexivity.
Qed.

Lemma app_inj_length {A : Type} (a a' b b' : list A) :
  List.length a = List.length a' -> (a ++ b = a' ++ b')%list -> a = a' /\ b = b'.
Proof.
  revert a'. induction a as [| x r IH]; intros [| y r'] Hlen Heq; cbn in Hlen;
    try discriminate Hlen; [split; [reflexivity | exact Heq] |].
  cbn in Heq. injection Heq as Hx Hr. injection Hlen as Hlen.
  destruct (IH r' Hlen Hr) as [Ha Hb]. split; [congruence | exact Hb].
Qed.

Lemma repeat_prefix {A : Type} (x : A) (p : nat) (b c : list A) :
  repeat x p = (b ++ c)%list -> b = repeat x (List.length b).
Proof.
  revert p. induction b as [| y r IH]; intros p Heq; [reflexivity |].
  destruct p as [| p]; [discriminate Heq |].
  cbn in Heq. injection Heq as Hy Hr. cbn. rewrite <- Hy, <- (IH p Hr). reflexivity.
Qed.

(** Two lists that agree once filled with zero bytes: the longer one
    is the shorter one followed by zero bytes. *)
Lemma zero_filled_eq (a b : list Z) (p q : nat) :
  (List.length a <= List.length b)%nat ->
  (a ++ repeat 0 p = b ++ repeat 0 q)%list ->
  b = (a ++ repeat 0 (List.length b - List.length a))%list.
Proof.
  revert b. induction a as [| x r IH]; intros b Hlen Heq.
  - cbn in Heq. rewrite Nat.sub_0_r. cbn. apply (repeat_prefix 0 p b _ Heq).
  - destruct b as [| y r']; [cbn in Hlen; lia |].
    cbn in Heq. injection Heq as Hx Hr. cbn in Hlen.
    cbn [List.length Nat.sub app]. rewrite <- Hx. f_equal. apply IH; [lia | exact Hr].
Qed.

End DigestBytes.

Section SignatureFacts.
Import JS Http Delivery Receiver Spec.

Lemma verifySignature_iff (body sig secret : string) :
  verifySignature body sig secret = true
  <-> sig = "sha256=" ++ Crypto.createHmac_sha256_hex secret body.
Proof. unfold verifySignature. apply String.eqb_eq. Qed.

Lemma sha256_prefix_inj (a b : string) : "sha256=" ++ a = "sha256=" ++ b -> a = b.
Proof. simpl. intros H. inversion H. reflexivity. Qed.

(** An empty secret signs nothing: [if (secret)] is false of it. *)
Lemma signature_empty_secret {Payload : Type} (JSON_stringify : Payload -> string)
    (payload : Payload) :
  signature JSON_stringify payload (Some "") = None /\
  signature JSON_stringify payload None = None.
Proof. split; reflexivity. Qed.

Lemma signature_header {Payload : Type} (JSON_stringify : Payload -> string)
    (webhookUrl : string) (payload : Payload) (s : string) :
  s <> "" ->
  header "x-sprint-pilot-signature"
    (req_headers (request JSON_stringify webhookUrl payload (Some s)))
  = Some ("sha256=" ++ Crypto.createHmac_sha256_hex s (JSON_stringify payload)).
Proof.
  intros Hs. unfold request, headers, signature. cbn [req_headers].
  destruct (String.eqb_spec s "") as [He | _]; [contradiction |].
  reflexivity.
Qed.

(** The check on a header that holds a digest: accepted or answered
    with 401 as the digest is or is not the receiver's own. *)
Lemma authenticate_signed (s digest body : string) (hs : list (string * string)) :
  s <> "" ->
  header "x-sprint-pilot-signature" hs = Some ("sha256=" ++ digest) ->
  authenticate (Some s) hs body
  = if String.eqb digest (Crypto.createHmac_sha256_hex s body)
    then Authenticated else Reply 401 "Invalid signature".
Proof.
  intros Hs Hh. unfold authenticate, verifySignature. rewrite Hh.
  destruct (String.eqb_spec s "") as [He | _]; [contradiction |].
  reflexivity.
Qed.

Lemma createHmac_outer (secret body : string) :
  Crypto.createHmac_sha256_hex secret body = Crypto.hex (Crypto.sha256 (outer_message secret body)).
Proof. reflexivity. Qed.

(** Secrets with one key block sign alike. *)
Lemma createHmac_same_key (s1 s2 body : string) :
  hmac_key s1 = hmac_key s2 ->
  Crypto.createHmac_sha256_hex s1 body = Crypto.createHmac_sha256_hex s2 body.
Proof.
  intros Hk. rewrite !createHmac_outer. unfold outer_message, inner_message.
  rewrite Hk. reflexivity.
Qed.

(** Two digests that agree: the key blocks and the bodies agree, or
    the messages hashed on the way are a collision of SHA-256. *)
Lemma createHmac_eq_cases (s1 body1 s2 body2 : string) :
  Crypto.createHmac_sha256_hex s2 body2 = Crypto.createHmac_sha256_hex s1 body1 ->
  (hmac_key s2 = hmac_key s1 /\ body2 = body1) \/
  collide (inner_message s1 body1) (inner_message s2 body2) \/
  collide (outer_message s1 body1) (outer_message s2 body2).
Proof.
  rewrite !createHmac_outer. intros Hhex.
  apply hex_inj in Hhex; [| apply sha256_range ..].
  destruct (list_eq_dec Z.eq_dec (outer_message s1 body1) (outer_message s2 body2))
    as [Hout | Hout]; [| right; right; split; [exact Hout | symmetry; exact Hhex]].
  unfold outer_message in Hout.
  apply app_inj_length in Hout;
    [| unfold Crypto.xor_with, hmac_key; rewrite !length_map, !key_block_length; reflexivity].
  destruct Hout as [Hkey Hin]. apply xor_with_inj in Hkey.
  destruct (list_eq_dec Z.eq_dec (inner_message s1 body1) (inner_message s2 body2))
    as [Hmsg | Hmsg]; [| right; left; split; [exact Hmsg | exact Hin]].
  left. split; [symmetry; exact Hkey |].
  unfold inner_message in Hmsg. rewrite Hkey in Hmsg.
  apply app_inv_head in Hmsg. apply bytes_of_string_inj. symmetry. exact Hmsg.
Qed.

(** Which secrets have one key block. *)
Lemma hmac_key_nuls (s : string) (n : nat) :
  String.length s + n <= 64 -> hmac_key (s ++ nuls n) = hmac_key s.
Proof.
  intros Hlen. unfold hmac_key.
  rewrite !key_block_short, bytes_of_string_app, bytes_of_nuls, length_app, repeat_length,
    bytes_of_string_length;
    unfold Crypto.block_size;
    rewrite ?bytes_of_string_app, ?length_app, ?bytes_of_nuls, ?repeat_length,
      ?bytes_of_string_length; try lia.
  rewrite <- app_assoc, <- repeat_app. f_equal. f_equal. lia.
Qed.

Lemma hmac_key_short (s1 s2 : string) :
  String.length s1 <= 64 -> String.length s2 <= 64 ->
  hmac_key s1 = hmac_key s2 ->
  exists n, s2 = s1 ++ nuls n \/ s1 = s2 ++ nuls n.
Proof.
  intros H1 H2. unfold hmac_key.
  rewrite !key_block_short
    by (rewrite bytes_of_string_length; unfold Crypto.block_size; lia).
  intros Heq.
  destruct (Nat.le_ge_cases (String.length s1) (String.length s2)) as [Hle | Hle].
  - exists (String.length s2 - String.length s1). left.
    apply bytes_of_string_inj. rewrite bytes_of_string_app, bytes_of_nuls.
    rewrite <- !bytes_of_string_length.
    apply (zero_filled_eq _ _ _ _ ltac:(rewrite !bytes_of_string_length; exact Hle) Heq).
  - exists (String.length s1 - String.length s2). right.
    apply bytes_of_string_inj. rewrite bytes_of_string_app, bytes_of_nuls.
    rewrite <- !bytes_of_string_length.
    apply (zero_filled_eq _ _ _ _ ltac:(rewrite !bytes_of_string_length; exact Hle)
             (eq_sym Heq)).
Qed.

Lemma hmac_key_long (s1 s2 : string) :
  64 < String.length s1 -> 64 < String.length s2 ->
  hmac_key s1 = hmac_key s2 ->
  s1 = s2 \/ collide (Crypto.bytes_of_string s1) (Crypto.bytes_of_string s2).
Proof.
  intros H1 H2. unfold hmac_key.
  rewrite !key_block_long
    by (rewrite bytes_of_string_length; unfold Crypto.block_size; lia).
  intros Heq. apply app_inv_tail in Heq.
  destruct (string_dec s1 s2) as [He | Hne]; [left; exact He |].
  right. split; [| exact Heq]. intros Hb. apply Hne, bytes_of_string_inj, Hb.
Qed.

Lemma hmac_key_digest (s1 s2 : string) :
  64 < String.length s1 -> String.length s2 <= 64 ->
  hmac_key s1 = hmac_key s2 ->
  exists n,
    Crypto.bytes_of_string s2
    = (Crypto.sha256 (Crypto.bytes_of_string s1) ++ repeat 0%Z n)%list \/
    Crypto.sha256 (Crypto.bytes_of_string s1)
    = (Crypto.bytes_of_string s2 ++ repeat 0%Z n)%list.
Proof.
  intros H1 H2. unfold hmac_key.
  rewrite key_block_long, key_block_short
    by (rewrite bytes_of_string_length; unfold Crypto.block_size; lia).
  intros Heq.
  destruct (Nat.le_ge_cases (List.length (Crypto.sha256 (Crypto.bytes_of_string s1)))
              (List.length (Crypto.bytes_of_string s2))) as [Hle | Hle].
  - eexists. left. apply (zero_filled_eq _ _ _ _ Hle Heq).
  - eexists. right. apply (zero_filled_eq _ _ _ _ Hle (eq_sym Heq)).
Qed.

End SignatureFacts.

(** C6, as amended. With a non-empty secret the request carries the
    serialized payload as its body and the header
    [X-Sprint-Pilot-Signature: sha256=<hex>], [<hex>] the HMAC-SHA-256
    of that body under the secret; a receiver configured with the same
    secret authenticates that request on that body. A receiver
    configured with a secret answers a request without the header
    with 401, and a request with the header, on whatever body and
    under whatever secret of its own, with an acceptance or with 401
    and the error of an invalid signature, the latter whenever the
    digest it computes is not the one in the header. It accepts when
    the body is the signed one and its secret gives the key block of
    the sender's secret. It accepts in no other case but one that
    shows two different messages with one SHA-256 digest: the inner
    or the outer messages that HMAC hashes for the two secrets and
    bodies. Two secrets of at most 64 bytes give one key block exactly
    when one is the other followed by NUL characters; two longer ones
    only when they are equal or collide under SHA-256; a longer and a
    shorter one only when the shorter one and the digest of the longer
    one differ by zero bytes at the end. *)
Theorem signature_round_trip {Payload : Type}
    (JSON_stringify : Payload -> string) (webhookUrl : string) (payload : Payload)
    (secret : string) :
  secret <> "" ->
  let r := Delivery.request JSON_stringify webhookUrl payload (Some secret) in
  let body := JSON_stringify payload in
  Http.req_body r = Some body /\
  Http.header "x-sprint-pilot-signature" (Http.req_headers r)
    = Some ("sha256=" ++ Crypto.createHmac_sha256_hex secret body) /\
  Receiver.authenticate (Some secret) (Http.req_headers r) body = Receiver.Authenticated /\
  (forall secret' hs body', secret' <> "" ->
     Http.header "x-sprint-pilot-signature" hs = None ->
     Receiver.authenticate (Some secret') hs body'
       = Receiver.Reply 401 "Missing signature header") /\
  (forall secret' body', secret' <> "" ->
     (Receiver.authenticate (Some secret') (Http.req_headers r) body' = Receiver.Authenticated \/
      Receiver.authenticate (Some secret') (Http.req_headers r) body'
        = Receiver.Reply 401 "Invalid signature") /\
     (Spec.hmac_key secret' = Spec.hmac_key secret -> body' = body ->
      Receiver.authenticate (Some secret') (Http.req_headers r) body' = Receiver.Authenticated) /\
     (Crypto.createHmac_sha256_hex secret' body' <> Crypto.createHmac_sha256_hex secret body ->
      Receiver.authenticate (Some secret') (Http.req_headers r) body'
        = Receiver.Reply 401 "Invalid signature") /\
     (Receiver.authenticate (Some secret') (Http.req_headers r) body' = Receiver.Authenticated ->
      (Spec.hmac_key secret' = Spec.hmac_key secret /\ body' = body) \/
      Spec.collide (Spec.inner_message secret body) (Spec.inner_message secret' body') \/
      Spec.collide (Spec.outer_message secret body) (Spec.outer_message secret' body'))) /\
  (forall s1 n, String.length s1 + n <= 64 ->
     Spec.hmac_key (s1 ++ Spec.nuls n) = Spec.hmac_key s1) /\
  (forall s1 s2, String.length s1 <= 64 -> String.length s2 <= 64 ->
     Spec.hmac_key s1 = Spec.hmac_key s2 ->
     exists n, s2 = s1 ++ Spec.nuls n \/ s1 = s2 ++ Spec.nuls n) /\
  (forall s1 s2, 64 < String.length s1 -> 64 < String.length s2 ->
     Spec.hmac_key s1 = Spec.hmac_key s2 ->
     s1 = s2 \/ Spec.collide (Crypto.bytes_of_string s1) (Crypto.bytes_of_string s2)) /\
  (forall s1 s2, 64 < String.length s1 -> String.length s2 <= 64 ->
     Spec.hmac_key s1 = Spec.hmac_key s2 ->
     exists n,
       Crypto.bytes_of_string s2
       = (Crypto.sha256 (Crypto.bytes_of_string s1) ++ repeat 0%Z n)%list \/
       Crypto.sha256 (Crypto.bytes_of_string s1)
       = (Crypto.bytes_of_string s2 ++ repeat 0%Z n)%list).
Proof.
  intros Hs r body.
  assert (Hh := signature_header JSON_stringify webhookUrl payload secret Hs).
  fold r body in Hh.
  assert (Hsigned : forall secret' body', secret' <> "" ->
            Receiver.authenticate (Some secret') (Http.req_headers r) body'
            = if String.eqb (Crypto.createHmac_sha256_hex secret body)
                   (Crypto.createHmac_sha256_hex secret' body')
              then Receiver.Authenticated else Receiver.Reply 401 "Invalid signature").
  { intros secret' body' Hs'. apply authenticate_signed; assumption. }
  split; [reflexivity |]. split; [exact Hh |].
  split; [rewrite (Hsigned secret body Hs), String.eqb_refl; reflexivity |].
  split.
  { intros secret' hs body' Hs' Hnone. unfold Receiver.authenticate. rewrite Hnone.
    destruct (String.eqb_spec secret' "") as [He | _]; [contradiction | reflexivity]. }
  split.
  { intros secret' body' Hs'. rewrite (Hsigned secret' body' Hs').
    destruct (String.eqb_spec (Crypto.createHmac_sha256_hex secret body)
                (Crypto.createHmac_sha256_hex secret' body')) as [Heq | Hne].
    - split; [left; reflexivity |]. split; [reflexivity |].
      split; [intros Hne; contradiction Hne; symmetry; exact Heq |].
      intros _. apply createHmac_eq_cases. symmetry. exact Heq.
    - split; [right; reflexivity |]. split; [| split; [reflexivity | discriminate]].
      intros Hk Hb. exfalso. apply Hne. rewrite Hb. symmetry.
      apply createHmac_same_key. exact Hk. }
  split; [exact hmac_key_nuls |]. split; [exact hmac_key_short |].
  split; [exact hmac_key_long | exact hmac_key_digest].
Qed.

(** A request signed under ["s3cret"]: its header, the receiver with
    that secret and with the secret followed by NUL characters, which
    accept it, and a receiver with another secret or another body,
    which answers 401. *)
Lemma signature_round_trip_witness :
  let r := Delivery.request (fun s : string => s) "http://localhost:3001" "{}" (Some "s3cret") in
  Http.header "x-sprint-pilot-signature" (Http.req_headers r)
    = Some "sha256=adbde1ce40c89c14215687d5d762a47df6dfaefcfad61e2e86718ffc8498571b" /\
  Receiver.authenticate (Some "s3cret") (Http.req_headers r) "{}" = Receiver.Authenticated /\
  Receiver.authenticate (Some ("s3cret" ++ Spec.nuls 58)) (Http.req_headers r) "{}"
    = Receiver.Authenticated /\
  Receiver.authenticate (Some "other") (Http.req_headers r) "{}"
    = Receiver.Reply 401 "Invalid signature" /\
  Receiver.authenticate (Some "s3cret") (Http.req_headers r) "{ }"
    = Receiver.Reply 401 "Invalid signature".
Proof.
  assert (Hs : "s3cret" <> "") by discriminate.
  destruct (signature_round_trip (fun s : string => s) "http://localhost:3001" "{}" "s3cret" Hs)
    as [_ [Hh [Hsame [_ [Hany [Hnuls _]]]]]].
  split; [rewrite Hh; vm_compute; reflexivity |]. split; [exact Hsame |].
  split; [| split; vm_compute; reflexivity].
  assert (Hp : "s3cret" ++ Spec.nuls 58 <> "") by discriminate.
  destruct (Hany ("s3cret" ++ Spec.nuls 58) "{}" Hp) as [_ [Haccept _]].
  apply Haccept; [| reflexivity]. apply Hnuls. cbn. lia.
Defined.

(** The bound of 64 bytes is the block of the hash: a secret that
    fills the block and the same secret followed by a NUL character
    sign differently, the longer one being hashed first. *)
Example hmac_key_full_block :
  let secret := "kkkkkkkkkkkkkkkkkkkkkkkkkkkkkkkkkkkkkkkkkkkkkkkkkkkkkkkkkkkkkkkk" in
  String.length secret = 64 /\
  Crypto.createHmac_sha256_hex secret "{}"
    = "d76035d5eb586aa7440c5113bd8b8dfbbdbc7c043a2a2091c52613ddc264c4ad" /\
  Crypto.createHmac_sha256_hex (secret ++ Spec.nuls 1) "{}"
    = "2b4179728a3b00cd10a7f08dc0d4442392da887e24c2905233cc5a074a0836c1".
Proof. cbv zeta. repeat split; vm_compute; reflexivity. Qed.

(** C6, the claim as stated fails for secrets that differ by a
    trailing NUL: the header signed under ["s3cret"] followed by a NUL
    character is accepted by a receiver whose secret is ["s3cret"]. *)
Lemma verifySignature_accepts_padded_secret :
  let sender := "s3cret" ++ String Ascii.zero EmptyString in
  let receiver := "s3cret" in
  let r := Delivery.request (fun s : string => s) "http://localhost:3001" "{}" (Some sender) in
  sender <> receiver /\
  Receiver.verifySignature "{}"
    ("sha256=" ++ Crypto.createHmac_sha256_hex sender "{}") receiver = true /\
  Receiver.authenticate (Some receiver) (Http.req_headers r) "{}" = Receiver.Authenticated.
Proof.
  cbv zeta. split; [discriminate |]. split; vm_compute; reflexivity.
Qed.

(* ===================================================================== *)
(** ** The task source *)
(* ===================================================================== *)

Section SourceFacts.
Import JS Http Source Spec.

Lemma get_field (v : Value) (k : string) :
  nullish v = false -> get v k = Return (field v k).
Proof. destruct v; simpl; intros H; try discriminate; reflexivity. Qed.

Lemma get_opt_field (v : Value) (k : string) : get_opt v k = Return (field v k).
Proof. destruct v; reflexivity. Qed.

(** A raw item that is neither [null] nor [undefined] is coerced, as
    soon as its [id] and its [name] convert to strings. *)
Lemma coerce_returns (task : Value) (id_ name_ : string) :
  nullish task = false ->
  String_ (field task "id") = Return id_ ->
  String_ (or (field task "name") (VString "Untitled Task")) = Return name_ ->
  coerce task = Return (coerced task id_ name_).
Proof.
  intros Hn Hid Hname. unfold coerce.
  rewrite !(get_field task) by assumption. cbn [bind].
  rewrite Hid. cbn [bind]. rewrite Hname. cbn [bind].
  rewrite get_opt_field. reflexivity.
Qed.

(** A [null] item makes the coercion throw. *)
Lemma coerce_null :
  coerce VNull = Throw (new_TypeError "Cannot read properties of null (reading 'id')").
Proof. reflexivity. Qed.

Lemma parse_null : parse ClickUpTaskSchema VNull = None.
Proof. reflexivity. Qed.

(** A primitive converts to a string without throwing. *)
Lemma String_primitive (v : Value) :
  match v with VArray _ | VObject _ => False | _ => True end ->
  exists s, String_ v = Return s.
Proof.
  destruct v as [| | [] | n | s | l | ps]; simpl; intros H; try contradiction; eexists; reflexivity.
Qed.

(** What the coerced item holds for what the raw item lacks. *)
Lemma coerced_defaults (task : Value) (id_ name_ : string) :
  let c := coerced task id_ name_ in
  field c "id" = VString id_ /\
  (truthy (field (field task "status") "status") = false ->
   field (field c "status") "status" = VString "unknown") /\
  (truthy (field task "assignees") = false -> field c "assignees" = VArray []) /\
  (truthy (field task "tags") = false -> field c "tags" = VArray []) /\
  (truthy (field task "custom_fields") = false -> field c "custom_fields" = VArray []).
Proof.
  cbv zeta. unfold coerced, or. cbn [field lookup String.eqb Ascii.eqb Bool.eqb].
  repeat split; intros H; rewrite H; reflexivity.
Qed.

Lemma name_default (task : Value) :
  truthy (field task "name") = false ->
  String_ (or (field task "name") (VString "Untitled Task")) = Return "Untitled Task".
Proof. intros H. unfold or. rewrite H. reflexivity. Qed.

Lemma map_throwing_length {A B} (f : A -> Completion B) (l : list A) (out : list B) :
  map_throwing f l = Return out -> List.length out = List.length l.
Proof.
  revert out. induction l as [| x r IH]; simpl; intros out H.
  - inversion H. reflexivity.
  - destruct (f x) as [y | e]; simpl in H; [| discriminate].
    destruct (map_throwing f r) as [ys | e]; simpl in H; [| discriminate].
    inversion H. simpl. f_equal. apply IH. reflexivity.
Qed.

(** [map] over callbacks that all return. *)
Lemma map_throwing_all {A B} (f : A -> Completion B) (g : A -> B) (l : list A) :
  Forall (fun x => f x = Return (g x)) l -> map_throwing f l = Return (map g l).
Proof.
  induction 1 as [| x r Hx Hr IH]; simpl; [reflexivity |].
  rewrite Hx, IH. reflexivity.
Qed.

End SourceFacts.

Section SourceClients.
Import JS Http Source Spec.
Variable getEnvVar : string -> Completion string.
Variable JSON_parse : string -> Completion Value.
Variable form_encode : string -> string.
Variable upstream : Upstream.

(** Each client sends at most one request, and exactly one once the
    list id and the token are resolved: neither retries. *)
Lemma clients_send_one_request (listId : option string) (includeSubtasks : bool)
    (statuses : option (list string)) :
  List.length (snd (fetchClickUpTasks getEnvVar JSON_parse upstream listId includeSubtasks)) <= 1 /\
  List.length (snd (clickupSyncTool getEnvVar JSON_parse form_encode upstream
                      listId includeSubtasks statuses)) <= 1.
Proof.
  unfold fetchClickUpTasks, clickupSyncTool.
  destruct (resolve_listId getEnvVar listId); simpl; [| lia].
  destruct (getEnvVar "CLICKUP_API_TOKEN"); simpl; lia.
Qed.

(** The tool names the failure: a time-out, a rejected token, a rate
    limit, or the status of any other answer outside 2xx. *)
Lemma clickupSyncTool_errors (listId : option string) (includeSubtasks : bool)
    (statuses : option (list string)) (l token : string) :
  resolve_listId getEnvVar listId = Return l ->
  getEnvVar "CLICKUP_API_TOKEN" = Return token ->
  let url := CLICKUP_API_BASE ++ "/list/" ++ l ++ "/task?"
               ++ tool_params form_encode includeSubtasks statuses in
  let r := get_request url token in
  let run := clickupSyncTool getEnvVar JSON_parse form_encode upstream
               listId includeSubtasks statuses in
  snd run = [r] /\
  ((timeout_ms <= fst (upstream r))%Z ->
   fst run = Throw (new_Error "ClickUp API request timed out after 30 seconds")) /\
  (forall response,
     (fst (upstream r) < timeout_ms)%Z -> snd (upstream r) = Resolves response ->
     ok response = false ->
     fst run = Throw (new_Error
       (if (resp_status response =? 429)%Z
        then "ClickUp API rate limit exceeded. Please try again later."
        else if (resp_status response =? 401)%Z
        then "Invalid ClickUp API token. Please check your CLICKUP_API_TOKEN environment variable."
        else "ClickUp API error: " ++ string_of_Z (resp_status response) ++ " "
               ++ resp_statusText response))) /\
  (forall e,
     (fst (upstream r) < timeout_ms)%Z -> snd (upstream r) = Rejects e ->
     name e <> "AbortError" ->
     fst run = Throw e).
Proof.
  intros Hl Ht url r run. unfold run, clickupSyncTool. rewrite Hl, Ht.
  fold url. fold r. cbn [fst snd]. split; [reflexivity |].
  unfold fetch_with_timeout. destruct (upstream r) as [elapsed outcome]. cbn [fst snd].
  split; [| split].
  - intros Hslow. destruct (Z.leb_spec timeout_ms elapsed); [reflexivity | lia].
  - intros response Hfast Ho Hnok. subst outcome.
    destruct (Z.leb_spec timeout_ms elapsed); [lia |].
    rewrite Hnok. cbn [negb].
    destruct (resp_status response =? 429)%Z; [reflexivity |].
    destruct (resp_status response =? 401)%Z; reflexivity.
  - intros e Hfast Ho Hname. subst outcome.
    destruct (Z.leb_spec timeout_ms elapsed); [lia |].
    unfold tool_catch. destruct (String.eqb_spec (name e) "AbortError"); [contradiction | reflexivity].
Qed.

(** The workflow's client reports every answer outside 2xx in one
    form, the status in the message, and lets the abort through. *)
Lemma fetchClickUpTasks_errors (listId : option string) (includeSubtasks : bool)
    (l token : string) :
  resolve_listId getEnvVar listId = Return l ->
  getEnvVar "CLICKUP_API_TOKEN" = Return token ->
  let url := CLICKUP_API_BASE ++ "/list/" ++ l ++ "/task?"
               ++ "include_subtasks=" ++ string_of_bool includeSubtasks in
  let r := get_request url token in
  let run := fetchClickUpTasks getEnvVar JSON_parse upstream listId includeSubtasks in
  snd run = [r] /\
  ((timeout_ms <= fst (upstream r))%Z ->
   fst run = Throw (mkError "AbortError" "This operation was aborted")) /\
  (forall response,
     (fst (upstream r) < timeout_ms)%Z -> snd (upstream r) = Resolves response ->
     ok response = false ->
     fst run = Throw (new_Error ("ClickUp API error: " ++ string_of_Z (resp_status response)
                                   ++ " " ++ resp_statusText response))).
Proof.
  intros Hl Ht url r run. unfold run, fetchClickUpTasks. rewrite Hl, Ht.
  fold url. fold r. cbn [fst snd]. split; [reflexivity |].
  unfold fetch_with_timeout. destruct (upstream r) as [elapsed outcome]. cbn [fst snd].
  split.
  - intros Hslow. destruct (Z.leb_spec timeout_ms elapsed); [reflexivity | lia].
  - intros response Hfast Ho Hnok. subst outcome.
    destruct (Z.leb_spec timeout_ms elapsed); [lia |].
    rewrite Hnok. reflexivity.
Qed.

(** When every raw item is returned by the callback, the fetch returns
    one task per raw item. *)
Lemma fetchClickUpTasks_keeps_every_item (listId : option string) (includeSubtasks : bool)
    (l token : string) (response : Response) (data : Value) (raw : list Value) :
  resolve_listId getEnvVar listId = Return l ->
  getEnvVar "CLICKUP_API_TOKEN" = Return token ->
  let url := CLICKUP_API_BASE ++ "/list/" ++ l ++ "/task?"
               ++ "include_subtasks=" ++ string_of_bool includeSubtasks in
  upstream (get_request url token) = (0%Z, Resolves response) ->
  ok response = true ->
  JSON_parse (resp_body response) = Return data ->
  field data "tasks" = VArray raw -> nullish data = false ->
  Forall (fun t => exists v, parse_or_coerce t = Return v) raw ->
  exists tasks,
    fst (fetchClickUpTasks getEnvVar JSON_parse upstream listId includeSubtasks)
      = Return (tasks, l) /\
    List.length tasks = List.length raw /\
    Forall2 (fun t v => parse_or_coerce t = Return v) raw tasks.
Proof.
  intros Hl Ht url Hup Hok Hdata Htasks Hnn Hall.
  assert (Hmap : exists tasks, map_throwing parse_or_coerce raw = Return tasks /\
                   Forall2 (fun t v => parse_or_coerce t = Return v) raw tasks).
  { clear - Hall. induction Hall as [| t r Hv Hr IH]; simpl.
    - exists []. split; [reflexivity | constructor].
    - destruct Hv as [v Hv]. destruct IH as [vs [IHm IHf]].
      exists (v :: vs). rewrite Hv, IHm. split; [reflexivity | constructor; assumption]. }
  destruct Hmap as [tasks [Hm Hf]]. exists tasks.
  split; [| split; [apply (map_throwing_length _ _ _ Hm) | exact Hf]].
  unfold fetchClickUpTasks. rewrite Hl, Ht. fold url.
  unfold fetch_with_timeout. rewrite Hup. cbn [fst].
  change (timeout_ms <=? 0)%Z with false. cbv iota.
  rewrite Hok, Hdata. cbn [negb bind]. unfold tasks_of.
  rewrite (get_field data "tasks" Hnn), Htasks. cbn [bind].
  rewrite Hm. reflexivity.
Qed.

End SourceClients.

(** C7. The client of the workflow, [fetchClickUpTasks], answers a 401
    and a 429 as it answers any other status outside 2xx: an [Error]
    whose message is the status, with no kind for the rejected
    credential or the rate limit, and a time-out leaves it as the abort
    of the request. The tool, on the same answers, names the rejected
    token, the rate limit and the time-out. Neither retries. *)
Theorem fetchClickUpTasks_status_unclassified (JSON_parse : string -> JS.Completion Source.Value) :
  let client u := fst (Source.fetchClickUpTasks Examples.env JSON_parse u None true) in
  let tool u := fst (Source.clickupSyncTool Examples.env JSON_parse (fun s => s) u None true None) in
  client (Examples.upstream_status 401 "Unauthorized")
    = JS.Throw (JS.new_Error "ClickUp API error: 401 Unauthorized") /\
  client (Examples.upstream_status 429 "Too Many Requests")
    = JS.Throw (JS.new_Error "ClickUp API error: 429 Too Many Requests") /\
  client (Examples.upstream_status 500 "Internal Server Error")
    = JS.Throw (JS.new_Error "ClickUp API error: 500 Internal Server Error") /\
  client Examples.upstream_silent
    = JS.Throw (JS.mkError "AbortError" "This operation was aborted") /\
  tool (Examples.upstream_status 401 "Unauthorized")
    = JS.Throw (JS.new_Error
        "Invalid ClickUp API token. Please check your CLICKUP_API_TOKEN environment variable.") /\
  tool (Examples.upstream_status 429 "Too Many Requests")
    = JS.Throw (JS.new_Error "ClickUp API rate limit exceeded. Please try again later.") /\
  tool (Examples.upstream_status 500 "Internal Server Error")
    = JS.Throw (JS.new_Error "ClickUp API error: 500 Internal Server Error") /\
  tool Examples.upstream_silent
    = JS.Throw (JS.new_Error "ClickUp API request timed out after 30 seconds").
Proof.
  cbv zeta. repeat split.
Qed.

(** C8. A raw list whose item is [null]: the item fails the schema,
    the [catch] branch reads [id] on it and throws, and the whole fetch
    fails with that error, also when a well-formed task precedes it, in
    the workflow's client and in the tool. *)
Theorem fetchClickUpTasks_null_item_aborts :
  Source.parse Source.ClickUpTaskSchema Source.VNull = None /\
  fst (Source.fetchClickUpTasks Examples.env (fun _ => JS.Return Examples.data_null_item)
         Examples.upstream_ok None true)
    = JS.Throw (JS.new_TypeError "Cannot read properties of null (reading 'id')") /\
  fst (Source.fetchClickUpTasks Examples.env (fun _ => JS.Return Examples.data_good_then_null)
         Examples.upstream_ok None true)
    = JS.Throw (JS.new_TypeError "Cannot read properties of null (reading 'id')") /\
  fst (Source.clickupSyncTool Examples.env (fun _ => JS.Return Examples.data_null_item)
         (fun s => s) Examples.upstream_ok None true None)
    = JS.Throw (JS.new_TypeError "Cannot read properties of null (reading 'id')").
Proof.
  repeat split.
Qed.

(** A raw object without [name] and [status] and with a numeric [id]
    fails the schema and is coerced; the fetch returns both items. *)
Lemma fetchClickUpTasks_malformed_object_coerced :
  Source.parse Source.ClickUpTaskSchema Examples.raw_malformed = None /\
  fst (Source.fetchClickUpTasks Examples.env (fun _ => JS.Return Examples.data_malformed_item)
         Examples.upstream_ok None true)
    = JS.Return ([ Examples.raw_good;
                   Spec.coerced Examples.raw_malformed "4711" "Untitled Task" ], "901") /\
  Spec.field (Spec.field (Spec.coerced Examples.raw_malformed "4711" "Untitled Task") "status")
    "status" = Source.VString "unknown" /\
  Spec.field (Spec.coerced Examples.raw_malformed "4711" "Untitled Task") "assignees"
    = Source.VArray [].
Proof.
  repeat split.
Qed.

(** In the tool the coerced [id] is the raw value, not its string. *)
Lemma clickupSyncTool_id_not_stringified :
  Source.tool_coerce Examples.raw_malformed
    = JS.Return (Source.VObject
        [ ("id", Source.VNumber 4711);
          ("name", Source.VString "Untitled Task");
          ("description", Source.VNull);
          ("status", Source.VObject [ ("status", Source.VString "unknown") ]);
          ("assignees", Source.VArray []);
          ("priority", Source.VNull);
          ("tags", Source.VArray []);
          ("due_date", Source.VNull);
          ("custom_fields", Source.VArray []);
          ("url", Source.VString "") ]).
Proof. reflexivity. Qed.

(* ===================================================================== *)
(** ** The hash against its published test vectors *)
(* ===================================================================== *)

Example sha256_abc :
  Crypto.hex (Crypto.sha256 (Crypto.bytes_of_string "abc"))
  = "ba7816bf8f01cfea414140de5dae2223b00361a396177a9cb410ff61f20015ad".
Proof. vm_compute. reflexivity. Qed.

Example sha256_empty :
  Crypto.hex (Crypto.sha256 [])
  = "e3b0c44298fc1c149afbf4c8996fb92427ae41e4649b934ca495991b7852b855".
Proof. vm_compute. reflexivity. Qed.

Example sha256_two_blocks :
  Crypto.hex (Crypto.sha256 (Crypto.bytes_of_string
    "abcdbcdecdefdefgefghfghighijhijkijkljklmklmnlmnomnopnopq"))
  = "248d6a61d20638b8e5c026930c3e6039a33ce45964ff2167f6ecedd419db06c1".
Proof. vm_compute. reflexivity. Qed.

Example hmac_rfc4231_case_2 :
  Crypto.createHmac_sha256_hex "Jefe" "what do ya want for nothing?"
  = "5bdcc146bf60754e6a042426089575c75a003f089d2739839dec58b964ec3843".
Proof. vm_compute. reflexivity. Qed.

Example hmac_short_key :
  Crypto.createHmac_sha256_hex "key" "The quick brown fox jumps over the lazy dog"
  = "f7bc83f430538424b13298e6aa6fb143ef4d59a14946175997479dbc2d1a3cd8".
Proof. vm_compute. reflexivity. Qed.

(** A key longer than a block is hashed first. *)
Example hmac_long_key :
  Crypto.createHmac_sha256_hex
    "kkkkkkkkkkkkkkkkkkkkkkkkkkkkkkkkkkkkkkkkkkkkkkkkkkkkkkkkkkkkkkkkkkkkkk" "{}"
  = "a13608a07bccc7abd1b2183deba8f57ab30ae1521929cd2174d7548e85827567".
Proof. vm_compute. reflexivity. Qed.

(* ===================================================================== *)
(** ** Further properties of the formatter *)
(* ===================================================================== *)

(** X1. On tickets whose priorities read as numbers, [sortTickets]
    returns exactly the stable sort by priority rank, then quality
    descending, then fix before feature: a list is its result if and
    only if it is a permutation of the input, ordered for that
    precedence, with the tickets of equal keys in their input order. *)
Theorem sortTickets_characterized (l out : list Types.AnalyzedTicket) :
  Forall (fun a => Spec.ranked a = true) l ->
  (out = Formatter.sortTickets l <->
   Permutation l out /\
   StronglySorted Spec.key_le out /\
   (forall c, filter (Spec.same_key c) out = filter (Spec.same_key c) l)).
Proof.
  intros Hl. split.
  - intros ->. apply sortTickets_ranked. exact Hl.
  - intros [Hp [Hs Hf]]. apply sortTickets_unique; assumption.
Qed.

Lemma sortTickets_characterized_witness :
  [Examples.urgent_fix; Examples.low_feature]
    = Formatter.sortTickets [Examples.low_feature; Examples.urgent_fix].
Proof.
  assert (Hl : Forall (fun a => Spec.ranked a = true) [Examples.low_feature; Examples.urgent_fix])
    by (repeat constructor).
  apply (sortTickets_characterized _ _ Hl). split; [| split].
  - apply perm_swap.
  - repeat constructor.
  - intros c. simpl.
    destruct (Spec.same_key c Examples.urgent_fix) eqn:Hu;
      destruct (Spec.same_key c Examples.low_feature) eqn:Hw; try reflexivity.
    exfalso. unfold Spec.same_key in Hu, Hw.
    apply andb_true_iff in Hu as [Hu _]. apply andb_true_iff in Hu as [Hu _].
    apply andb_true_iff in Hw as [Hw _]. apply andb_true_iff in Hw as [Hw _].
    change (Formatter.getPriorityOrder (Formatter.priority_label Examples.urgent_fix))
      with (Formatter.PNum 1) in Hu.
    change (Formatter.getPriorityOrder (Formatter.priority_label Examples.low_feature))
      with (Formatter.PNum 4) in Hw.
    destruct (Formatter.getPriorityOrder (Formatter.priority_label c)) as [n | b];
      simpl in Hu, Hw; try discriminate.
    apply Z.eqb_eq in Hu, Hw. lia.
Defined.

Section PriorityLabels.
Import JS Formatter.

(** A string in lower case that equals a key is a key in lower case. *)
Lemma lowered_key (s k : string) : toLowerCase s = k -> toLowerCase k = k.
Proof. intros <-. apply toLowerCase_idempotent. Qed.

(** The only inherited properties that a label in lower case can
    name are [constructor] and [__proto__]: the others have a capital. *)
Lemma inherited_lowered (s : string) (b : Builtin) :
  assoc (toLowerCase s) Object_prototype_properties = Some b ->
  (toLowerCase s = "constructor" /\ b = Object_constructor) \/
  (toLowerCase s = "__proto__" /\ b = Object_prototype).
Proof.
  unfold Object_prototype_properties. simpl.
  repeat match goal with
         | |- context [String.eqb (toLowerCase s) ?k] =>
             destruct (String.eqb_spec (toLowerCase s) k) as [He | _];
               [ first [ left; split; [exact He | congruence]
                       | right; split; [exact He | congruence]
                       | apply lowered_key in He; vm_compute in He; discriminate He ]
               | ]
         end.
  discriminate.
Qed.

End PriorityLabels.

(** X2. [getPriorityOrder] classified, for every label: it returns a
    number from 1 to 5 or an inherited object; the number is below 5
    exactly when the label in lower case is a key of [PRIORITY_ORDER],
    and is then its entry; an object is returned exactly for the labels
    that read [constructor] or [__proto__] in lower case, the function
    [Object] for the first and [Object.prototype] for the second, and
    for no other label; and a label ranks as its lower-case form does. *)
Theorem getPriorityOrder_classified (priority : option string) :
  match Formatter.getPriorityOrder priority with
  | Formatter.PNum n =>
      (1 <= n <= 5)%Z /\
      (n <> 5%Z <-> exists label, priority = Some label /\
                     Formatter.assoc (JS.toLowerCase label) Formatter.PRIORITY_ORDER = Some n)
  | Formatter.PRef b =>
      exists label, priority = Some label /\
        ((JS.toLowerCase label = "constructor" /\ b = Formatter.Object_constructor) \/
         (JS.toLowerCase label = "__proto__" /\ b = Formatter.Object_prototype))
  end /\
  (forall b,
     Formatter.getPriorityOrder priority = Formatter.PRef b
     <-> exists label, priority = Some label /\
           ((JS.toLowerCase label = "constructor" /\ b = Formatter.Object_constructor) \/
            (JS.toLowerCase label = "__proto__" /\ b = Formatter.Object_prototype))) /\
  Formatter.getPriorityOrder (option_map JS.toLowerCase priority)
    = Formatter.getPriorityOrder priority.
Proof.
  assert (Hclass :
    match Formatter.getPriorityOrder priority with
    | Formatter.PNum n =>
        (1 <= n <= 5)%Z /\
        (n <> 5%Z <-> exists label, priority = Some label /\
                       Formatter.assoc (JS.toLowerCase label) Formatter.PRIORITY_ORDER = Some n)
    | Formatter.PRef b =>
        exists label, priority = Some label /\
          ((JS.toLowerCase label = "constructor" /\ b = Formatter.Object_constructor) \/
           (JS.toLowerCase label = "__proto__" /\ b = Formatter.Object_prototype))
    end); [| split; [exact Hclass | split]].
  - destruct priority as [label |].
    + unfold Formatter.getPriorityOrder, Formatter.PRIORITY_ORDER_get.
      destruct (String.eqb_spec label "") as [-> | Hne].
      { split; [lia |]. split; [intros H; contradiction H; reflexivity |].
        intros [l [Hl Ha]]. inversion Hl; subst l. discriminate Ha. }
      destruct (Formatter.assoc (JS.toLowerCase label) Formatter.PRIORITY_ORDER) as [n |] eqn:Hown.
      * assert (Hn : (1 <= n <= 4)%Z).
        { unfold Formatter.PRIORITY_ORDER in Hown. simpl in Hown.
          repeat match type of Hown with
                 | (if ?c then _ else _) = _ => destruct c
                 end; inversion Hown; lia. }
        assert (Ht : Formatter.truthy (Formatter.PNum n) = true).
        { simpl. destruct (Z.eqb_spec n 0); [lia | reflexivity]. }
        rewrite Ht. split; [lia |]. split; [| lia].
        intros _. exists label. split; [reflexivity | exact Hown].
      * destruct (Formatter.assoc (JS.toLowerCase label) Formatter.Object_prototype_properties)
          as [b |] eqn:Hin.
        -- simpl. exists label. split; [reflexivity |]. apply inherited_lowered. exact Hin.
        -- split; [lia |]. split; [intros H; contradiction H; reflexivity |].
           intros [l [Hl Ha]]. inversion Hl; subst l. rewrite Hown in Ha. discriminate Ha.
    + simpl. split; [lia |]. split; [intros H; contradiction H; reflexivity |].
      intros [l [Hl _]]. discriminate Hl.
  - intros b. split.
    + intros Hb. rewrite Hb in Hclass. exact Hclass.
    + intros [label [-> Hl]]. unfold Formatter.getPriorityOrder, Formatter.PRIORITY_ORDER_get.
      destruct (String.eqb_spec label "") as [-> | _];
        [destruct Hl as [[Hl _] | [Hl _]]; discriminate Hl |].
      destruct Hl as [[-> ->] | [-> ->]]; reflexivity.
  - destruct priority as [label |]; [| reflexivity].
    simpl. symmetry. apply getPriorityOrder_case_insensitive.
Qed.

Section FormatterReport.
Import JS Types Formatter Spec Terms.
Variable toISOString : string -> Completion string.
Variable toFixed1 : Z -> nat -> string.

Lemma numbered_headings_length (items : list AnalyzedTicket) (index : nat) :
  List.length (numbered_headings items index) = List.length items.
Proof.
  revert index. induction items as [| item rest IH]; intros index; simpl; [| rewrite IH];
    reflexivity.
Qed.

Lemma formatTicketLines_returns (item : AnalyzedTicket) (index : nat) :
  (exists lines, formatTicketLines toISOString item index = Return lines)
  <-> due_ok toISOString item.
Proof.
  unfold formatTicketLines, due_ok.
  destruct (due_date (ticket item)) as [d |].
  - destruct (String.eqb_spec d "") as [-> | Hne].
    + split; [intros _; left; reflexivity | intros _; eexists; reflexivity].
    + destruct (toISOString d) as [iso | e] eqn:Hd; simpl.
      * split; [intros _; right; eexists; reflexivity | intros _; eexists; reflexivity].
      * split.
        -- intros [lines H]. discriminate H.
        -- intros [He | [iso H]]; [contradiction | discriminate H].
  - split; [intros _; exact I | intros _; eexists; reflexivity].
Qed.

Lemma formatTicketMarkdown_returns (item : AnalyzedTicket) (index : nat) :
  (exists block, formatTicketMarkdown toISOString item index = Return block)
  <-> due_ok toISOString item.
Proof.
  rewrite <- (formatTicketLines_returns item index). unfold formatTicketMarkdown.
  destruct (formatTicketLines toISOString item index) as [lines | e]; simpl.
  - split; intros _; eexists; reflexivity.
  - split; intros [x H]; discriminate H.
Qed.

Lemma ticket_sections_returns (items : list AnalyzedTicket) (index : nat) :
  (exists sections, ticket_sections toISOString items index = Return sections)
  <-> Forall (due_ok toISOString) items.
Proof.
  revert index. induction items as [| item rest IH]; intros index; simpl.
  - split; [intros _; constructor | intros _; eexists; reflexivity].
  - pose proof (formatTicketMarkdown_returns item index) as Hitem.
    specialize (IH (index + 1)).
    destruct (formatTicketMarkdown toISOString item index) as [block | e]; simpl.
    + destruct (ticket_sections toISOString rest (index + 1)) as [more | e]; simpl.
      * split; [| intros _; eexists; reflexivity].
        intros _. constructor.
        -- apply Hitem. eexists. reflexivity.
        -- apply IH. eexists. reflexivity.
      * split; [intros [x H]; discriminate H |].
        intros H. inversion H; subst. apply IH in H3. destruct H3 as [x Hx]. discriminate Hx.
    + split; [intros [x H]; discriminate H |].
      intros H. inversion H; subst. apply Hitem in H2. destruct H2 as [x Hx]. discriminate Hx.
Qed.

Lemma sortTickets_nil_iff (tickets : list AnalyzedTicket) :
  sortTickets tickets = [] <-> tickets = [].
Proof.
  split; [| intros ->; reflexivity].
  intros H. apply length_zero_iff_nil.
  unfold sortTickets in H. rewrite <- (sort_length compareTickets tickets), H. reflexivity.
Qed.

Lemma count_tags_total (tickets : list AnalyzedTicket) :
  count_tag fix_ tickets + count_tag feature tickets = List.length tickets.
Proof.
  unfold count_tag. induction tickets as [| t ts IH]; [reflexivity |].
  simpl. destruct (complexityTag (analysis t)); simpl; lia.
Qed.

End FormatterReport.

Section ReportLines.
Import JS Types Formatter Spec Terms.

Lemma Return_inj {A : Type} (a b : A) : Return a = Return b -> a = b.
Proof. intros H. congruence. Qed.

Lemma lines_of_nonempty (s : string) : lines_of s <> [].
Proof.
  destruct s as [| c r]; cbn [lines_of]; [discriminate |].
  destruct (Ascii.eqb c line_feed); [discriminate |].
  destruct (lines_of r); discriminate.
Qed.

Lemma lines_of_cons (c : ascii) (r : string) :
  lines_of (String c r)
  = if Ascii.eqb c line_feed then "" :: lines_of r
    else String c (hd "" (lines_of r)) :: tl (lines_of r).
Proof.
  cbn [lines_of]. destruct (Ascii.eqb c line_feed); [reflexivity |].
  pose proof (lines_of_nonempty r) as Hr.
  destruct (lines_of r); [contradiction | reflexivity].
Qed.

(** A text without a line feed is one line; in front of another text
    it joins the first line of that text. *)
Lemma lines_of_one_line (s : string) : one_line s = true -> lines_of s = [s].
Proof.
  induction s as [| c r IH]; [reflexivity |].
  unfold one_line. cbn [all_chars]. intros H. apply andb_true_iff in H as [Hc Hr].
  rewrite lines_of_cons. apply negb_true_iff in Hc. rewrite Hc, (IH Hr). reflexivity.
Qed.

Lemma lines_of_app_one_line (p s : string) :
  one_line p = true ->
  lines_of (p ++ s) = (p ++ hd "" (lines_of s)) :: tl (lines_of s).
Proof.
  induction p as [| c r IH].
  - intros _. cbn [append]. pose proof (lines_of_nonempty s) as Hs.
    destruct (lines_of s); [contradiction | reflexivity].
  - unfold one_line. cbn [all_chars append]. intros H. apply andb_true_iff in H as [Hc Hr].
    rewrite lines_of_cons. apply negb_true_iff in Hc. rewrite Hc, (IH Hr). reflexivity.
Qed.

(** A line feed between two texts separates their lines. *)
Lemma lines_of_break (a b : string) :
  lines_of (a ++ nl ++ b) = (lines_of a ++ lines_of b)%list.
Proof.
  induction a as [| c r IH].
  - cbn [append nl]. rewrite lines_of_cons. reflexivity.
  - cbn [append]. rewrite !lines_of_cons, IH.
    destruct (Ascii.eqb c line_feed); [reflexivity |].
    pose proof (lines_of_nonempty r) as Hr.
    destruct (lines_of r); [contradiction | reflexivity].
Qed.

(** The lines of [entries.join('\n')] are the lines of the entries. *)
Lemma lines_of_join (entries : list string) :
  entries <> [] -> lines_of (join nl entries) = flat_map lines_of entries.
Proof.
  induction entries as [| x r IH]; [congruence |]. intros _.
  destruct r as [| y r'].
  - cbn [join flat_map]. rewrite app_nil_r. reflexivity.
  - change (join nl (x :: y :: r')) with (x ++ nl ++ join nl (y :: r')).
    rewrite lines_of_break, IH by discriminate. reflexivity.
Qed.

Lemma flat_map_lines_one_line (entries : list string) :
  forallb one_line entries = true -> flat_map lines_of entries = entries.
Proof.
  induction entries as [| x r IH]; [reflexivity |].
  cbn [forallb flat_map]. intros H. apply andb_true_iff in H as [Hx Hr].
  rewrite (lines_of_one_line x Hx), (IH Hr). reflexivity.
Qed.

Lemma last_app_nonempty {A : Type} (a b : list A) (d : A) :
  b <> [] -> last (a ++ b) d = last b d.
Proof.
  intros Hb. induction a as [| x r IH]; [reflexivity |].
  cbn [app last]. destruct (r ++ b)%list eqn:Hrb; [| exact IH].
  apply app_eq_nil in Hrb. destruct Hrb as [_ Hb']. contradiction.
Qed.

Lemma last_lines_of_join (entries : list string) :
  entries <> [] ->
  last (lines_of (join nl entries)) "" = last (lines_of (last entries "")) "".
Proof.
  intros Hne. rewrite lines_of_join by exact Hne.
  destruct (exists_last Hne) as [front [x ->]].
  rewrite flat_map_app, last_last. cbn [flat_map]. rewrite app_nil_r.
  apply last_app_nonempty, lines_of_nonempty.
Qed.

(** Texts without a line feed. *)
Lemma one_line_app (a b : string) : one_line (a ++ b) = one_line a && one_line b.
Proof.
  unfold one_line. induction a as [| c r IH]; [reflexivity |].
  cbn [append all_chars]. rewrite IH, andb_assoc. reflexivity.
Qed.

Lemma one_line_join (sep : string) (l : list string) :
  one_line sep = true -> forallb one_line l = true -> one_line (join sep l) = true.
Proof.
  intros Hsep. induction l as [| x r IH]; [reflexivity |].
  cbn [forallb]. intros H. apply andb_true_iff in H as [Hx Hr].
  destruct r as [| y r']; [exact Hx |].
  change (join sep (x :: y :: r')) with (x ++ sep ++ join sep (y :: r')).
  rewrite !one_line_app, Hx, Hsep, (IH Hr). reflexivity.
Qed.

Lemma one_line_uint (d : Decimal.uint) : one_line (NilEmpty.string_of_uint d) = true.
Proof. induction d; cbn [NilEmpty.string_of_uint]; [reflexivity | exact IHd ..]. Qed.

Lemma one_line_string_of_nat (n : nat) : one_line (string_of_nat n) = true.
Proof. apply one_line_uint. Qed.

Lemma one_line_string_of_Z (z : Z) : one_line (string_of_Z z) = true.
Proof.
  destruct z; [reflexivity | apply one_line_string_of_nat |].
  cbn [string_of_Z]. rewrite one_line_app, one_line_string_of_nat. reflexivity.
Qed.

Lemma one_line_before_T (s : string) : one_line s = true -> one_line (before_T s) = true.
Proof.
  unfold one_line. induction s as [| c r IH]; [reflexivity |].
  cbn [all_chars before_T]. intros H. apply andb_true_iff in H as [Hc Hr].
  destruct (Ascii.eqb c "T"); [reflexivity |].
  cbn [all_chars]. rewrite Hc, (IH Hr). reflexivity.
Qed.

Lemma one_line_tag (c : ComplexityTag) :
  one_line (toUpperCase (ComplexityTag_to_string c)) = true /\
  one_line (ComplexityTag_to_string c) = true.
Proof. destruct c; split; reflexivity. Qed.



(** The heading lines among the lines of a list of entries. *)
Local Abbreviation heading_lines entries :=
  (Workflow.headings (flat_map lines_of entries)).
Local Abbreviation quiet entry := (Workflow.headings (lines_of entry) = []).

Lemma heading_lines_app (l1 l2 : list string) :
  heading_lines (l1 ++ l2) = (heading_lines l1 ++ heading_lines l2)%list.
Proof. rewrite flat_map_app. apply headings_app. Qed.

Lemma heading_lines_cons (entry : string) (l : list string) :
  heading_lines (entry :: l) = (Workflow.headings (lines_of entry) ++ heading_lines l)%list.
Proof. cbn [flat_map]. apply headings_app. Qed.

Lemma heading_lines_quiet (l : list string) :
  Forall (fun entry => quiet entry) l -> heading_lines l = [].
Proof.
  induction 1 as [| x r Hx Hr IH]; [reflexivity |].
  rewrite heading_lines_cons, Hx, IH. reflexivity.
Qed.

Lemma no_heading_headings (lines : list string) :
  no_heading lines = true -> Workflow.headings lines = [].
Proof.
  unfold no_heading, Workflow.headings. induction lines as [| x r IH]; [reflexivity |].
  cbn [forallb filter]. intros H. apply andb_true_iff in H as [Hx Hr].
  apply negb_true_iff in Hx. rewrite Hx. exact (IH Hr).
Qed.

(** An entry of one line that is not a heading, and an entry that
    ends in a text of several lines. *)
Lemma quiet_entry (entry : string) :
  one_line entry = true -> Workflow.is_heading entry = false -> quiet entry.
Proof.
  intros Hl Hh. rewrite (lines_of_one_line entry Hl).
  unfold Workflow.headings. cbn [filter]. rewrite Hh. reflexivity.
Qed.

Lemma quiet_ending (p s : string) :
  one_line p = true ->
  Workflow.is_heading (p ++ hd "" (lines_of s)) = false ->
  no_heading (tl (lines_of s)) = true ->
  quiet (p ++ s).
Proof.
  intros Hp Hh Hs. rewrite (lines_of_app_one_line p s Hp).
  unfold Workflow.headings. cbn [filter]. rewrite Hh.
  apply no_heading_headings. exact Hs.
Qed.

Lemma heading_entry (item : AnalyzedTicket) (index : nat) :
  one_line (name (ticket item)) = true ->
  Workflow.headings (lines_of (heading item index)) = [heading item index].
Proof.
  intros Hn. rewrite lines_of_one_line; [reflexivity |].
  unfold heading. rewrite !one_line_app, one_line_string_of_nat, Hn.
  destruct (one_line_tag (complexityTag (analysis item))) as [-> _]. reflexivity.
Qed.

End ReportLines.

Section ToolReport.
Import JS Types Formatter Spec Terms.
Variable toISOString : string -> Completion string.
Variable toFixed1 : Z -> nat -> string.
Hypothesis toISOString_one_line :
  forall s iso, toISOString s = Return iso -> one_line iso = true.

Local Abbreviation heading_lines entries :=
  (Workflow.headings (flat_map lines_of entries)).
Local Abbreviation quiet entry := (Workflow.headings (lines_of entry) = []).




Lemma ticket_sections_last (items : list AnalyzedTicket) (index : nat)
    (sections : list string) :
  items <> [] ->
  ticket_sections toISOString items index = Return sections ->
  sections <> [] /\ forall d, last sections d = "".
Proof.
  revert index sections. induction items as [| item rest IH]; intros index sections;
    [congruence |]. intros _. cbn [ticket_sections].
  destruct (formatTicketMarkdown toISOString item index) as [block | e]; cbn [bind];
    [| discriminate].
  destruct (ticket_sections toISOString rest (index + 1)) as [more | e] eqn:Hm; cbn [bind];
    intros H; [| discriminate H].
  apply Return_inj in H. subst sections. split; [discriminate |].
  destruct rest as [| item' rest'].
  - cbn in Hm. apply Return_inj in Hm. subst more. reflexivity.
  - assert (Hrest : item' :: rest' <> []) by discriminate.
    destruct (IH (index + 1) more Hrest Hm) as [Hne Hlast]. intros d.
    change (block :: "" :: "---" :: "" :: more)
      with ([block; ""; "---"; ""] ++ more)%list.
    rewrite last_app_nonempty by exact Hne. apply Hlast.
Qed.

(** The report of the tool: the entries pushed, of which the first
    twelve depend on the metadata and the counts only. *)
Lemma sprintFormatterTool_entries (tickets : list AnalyzedTicket) (metadata : SprintMetadata)
    (markdown : string) :
  sprintFormatterTool toISOString toFixed1 tickets metadata = Return markdown ->
  exists front rest,
    markdown = join nl (front ++ rest) /\
    front <> [] /\
    ((forall s iso, toISOString s = Return iso -> one_line iso = true) ->
     (tickets <> [] ->
      one_line (toFixed1 (sum_quality tickets) (List.length tickets)) = true) ->
     plain_metadata metadata = true ->
     Forall (fun entry => quiet entry) front) /\
    ((tickets = [] /\ rest = ["No tickets found."]) \/
     (tickets <> [] /\
      ticket_sections toISOString (sortTickets tickets) 0 = Return rest)).
Proof.
  clear toISOString_one_line.
  unfold sprintFormatterTool, sprintFormatterLines.
  destruct (toISOString (syncTimestamp metadata)) as [iso | e] eqn:Hiso; cbn [bind];
    [| discriminate].
  assert (Hfront : forall avg,
            (forall s iso, toISOString s = Return iso -> one_line iso = true) ->
            one_line avg = true ->
            plain_metadata metadata = true ->
            Forall (fun entry => quiet entry)
              [ "# Sprint: " ++ before_T iso;
                "";
                "Synced from ClickUp List " ++ dquote
                  ++ or_default (listName metadata) ("List " ++ listId metadata)
                  ++ dquote ++ " at " ++ iso;
                "Total tickets: " ++ string_of_nat (ticketCount metadata);
                "";
                "**Summary:**";
                "- Fixes: " ++ string_of_nat (count_tag fix_ tickets);
                "- Features: " ++ string_of_nat (count_tag feature tickets);
                "- Average Quality Score: " ++ avg ++ "/5";
                "";
                "## Tickets (ordered by priority)";
                "" ]).
  { intros avg Hdates Havg Hmeta. pose proof (Hdates _ _ Hiso) as Hi.
    unfold plain_metadata in Hmeta. apply andb_true_iff in Hmeta as [Hid Hname].
    assert (Hlist : one_line (or_default (listName metadata) ("List " ++ listId metadata))
                    = true).
    { unfold or_default. destruct (listName metadata) as [n |]; cbn [if_present] in Hname.
      - destruct (String.eqb n ""); [| exact Hname].
        rewrite one_line_app, Hid. reflexivity.
      - rewrite one_line_app, Hid. reflexivity. }
    pose proof (one_line_before_T iso Hi) as Hdate.
    repeat first [ apply Forall_cons | apply Forall_nil ];
      (apply quiet_entry; [| reflexivity]);
      rewrite ?one_line_app, ?one_line_string_of_nat, ?Hlist, ?Hi, ?Havg, ?Hdate;
      reflexivity. }
  destruct (sortTickets tickets) as [| t ts] eqn:Hsorted.
  - intros H. apply Return_inj in H. subst markdown.
    apply (proj1 (sortTickets_nil_iff _)) in Hsorted.
    eexists _, _. split; [reflexivity |]. split; [discriminate |].
    split; [| left; split; [exact Hsorted | reflexivity]].
    intros Hdates _ Hmeta. subst tickets. apply (Hfront "0" Hdates eq_refl Hmeta).
  - destruct (ticket_sections toISOString (t :: ts) 0) as [sections | e] eqn:Hs;
      cbn [bind]; intros H; [| discriminate H].
    apply Return_inj in H. subst markdown.
    assert (Hne : tickets <> []).
    { intros ->. discriminate Hsorted. }
    eexists _, _. split; [reflexivity |]. split; [discriminate |].
    split; [| right; split; [exact Hne | reflexivity]].
    intros Hdates Hfixed Hmeta. specialize (Hfixed Hne).
    destruct tickets as [| t0 ts0]; [contradiction |].
    apply (Hfront _ Hdates Hfixed Hmeta).
Qed.

End ToolReport.

Section StepReport.
Import JS Types Formatter Spec Terms.
Variable now : nat -> string.
Variable toFixed1 : Z -> nat -> string.

Local Abbreviation heading_lines entries :=
  (Workflow.headings (flat_map lines_of entries)).
Local Abbreviation quiet entry := (Workflow.headings (lines_of entry) = []).

(** The lines pushed for a ticket by the last step: its heading, then
    entries that hold no heading line. *)
Lemma ticket_lines_heading_lines (item : AnalyzedTicket) (index : nat) :
  plain_in_step item = true ->
  heading_lines (Workflow.ticket_lines item index) = [heading item index].
Proof.
  unfold plain_in_step. intros Hplain.
  repeat match type of Hplain with
         | _ && _ = true => apply andb_true_iff in Hplain; destruct Hplain as [Hplain ?]
         end.
  unfold Workflow.ticket_lines.
  cbv zeta. cbn [app]. fold (heading item index).
  rewrite heading_lines_cons, (heading_entry item index Hplain), heading_lines_quiet;
    [reflexivity |].
  repeat first [ apply Forall_cons | apply Forall_app; split | apply Forall_nil ].
  - apply quiet_entry; [| reflexivity]. rewrite one_line_app. apply andb_true_iff. auto.
  - apply quiet_entry; [| reflexivity]. rewrite one_line_app. apply andb_true_iff. auto.
  - apply quiet_entry; [| reflexivity].
    rewrite !one_line_app, one_line_string_of_Z. reflexivity.
  - match goal with
    | Hf : forallb one_line (affectedFiles _) = true |- _ =>
        destruct (affectedFiles (analysis item)) as [| f fs]; constructor; [| constructor];
        apply quiet_entry; [| reflexivity];
        rewrite one_line_app, (one_line_join ", " (f :: fs) eq_refl Hf); reflexivity
    end.
  - apply quiet_ending; [reflexivity | reflexivity | assumption].
  - reflexivity.
  - reflexivity.
  - reflexivity.
Qed.

Lemma forEach_heading_lines (items : list AnalyzedTicket) (index : nat) :
  Forall (fun item => plain_in_step item = true) items ->
  heading_lines (Workflow.forEach_lines items index) = numbered_headings items index.
Proof.
  intros Hplain. revert index.
  induction Hplain as [| item rest Hitem Hrest IH]; intros index; [reflexivity |].
  cbn [Workflow.forEach_lines numbered_headings].
  rewrite heading_lines_app, (ticket_lines_heading_lines item index Hitem), IH. reflexivity.
Qed.

(** The report of the last step: the first twelve entries are one
    line each when the clock and the average are. *)
Lemma markdown_lines_front (analyzedTickets : list AnalyzedTicket) (listId : string) :
  one_line (now 0) = true -> one_line (now 1) = true ->
  (forall sum n, one_line (toFixed1 sum n) = true) ->
  exists front,
    Workflow.markdown_lines now toFixed1 analyzedTickets listId
    = (front ++ Workflow.forEach_lines analyzedTickets 0)%list /\
    List.length front = 12 /\
    forallb one_line front = true /\
    Workflow.headings front = [] /\
    nth 3 front "" = "Total tickets: " ++ string_of_nat (List.length analyzedTickets) /\
    nth 6 front ""
      = "- Fixes: " ++ string_of_nat (count_tag fix_ analyzedTickets) /\
    nth 7 front ""
      = "- Features: " ++ string_of_nat (count_tag feature analyzedTickets).
Proof.
  intros H0 H1 Hfixed. unfold Workflow.markdown_lines.
  eexists. split; [reflexivity |]. split; [reflexivity |].
  split; [| split; [reflexivity | repeat split]].
  assert (Havg : one_line match analyzedTickets with
                          | [] => "0"
                          | _ :: _ => toFixed1 (sum_quality analyzedTickets)
                                        (List.length analyzedTickets)
                          end = true).
  { destruct analyzedTickets; [reflexivity | apply Hfixed]. }
  pose proof (one_line_before_T _ H0) as Hd0. pose proof (one_line_before_T _ H1) as Hd1.
  cbn [forallb or_default].
  change (String.eqb ("Sprint " ++ before_T (now 1)) "") with false. cbv iota.
  unfold Workflow.dquote.
  rewrite ?one_line_app, ?one_line_string_of_nat, ?H0, ?Hd0, ?Hd1, ?Havg. reflexivity.
Qed.

End StepReport.



(** The condition on the description is needed: a ticket whose
    description holds a line that reads as a heading gives a report
    with two heading lines for one ticket. *)
Example sprintFormatterTool_heading_in_description :
  exists markdown,
    Formatter.sprintFormatterTool ReportSamples.iso_clock Examples.fixed1
      [ReportSamples.pasted_feature] Examples.sample_metadata = JS.Return markdown /\
    Terms.plain_in_tool ReportSamples.pasted_feature = false /\
    Terms.report_headings markdown
    = [ "### 1. [FEATURE] Copy the old report"; "### 2. [FIX] Fix login crash" ].
Proof. eexists. repeat split. Qed.

(** X4. The report that the formatter tool returns ends with the line
    [No tickets found.] if and only if the list of tickets is empty;
    with tickets it ends with an empty line, after the last rule. The
    report of an empty list has no heading line, when the date is
    rendered on one line and the names of the list hold no line feed. *)
Theorem sprintFormatterTool_no_tickets_line
    (toISOString : string -> JS.Completion string) (toFixed1 : Z -> nat -> string)
    (tickets : list Types.AnalyzedTicket) (metadata : Types.SprintMetadata)
    (markdown : string) :
  Formatter.sprintFormatterTool toISOString toFixed1 tickets metadata = JS.Return markdown ->
  (last (Terms.lines_of markdown) "" = "No tickets found." <-> tickets = []) /\
  (tickets <> [] -> last (Terms.lines_of markdown) "" = "") /\
  (tickets = [] ->
   (forall s iso, toISOString s = JS.Return iso -> Terms.one_line iso = true) ->
   Terms.plain_metadata metadata = true ->
   Terms.report_headings markdown = []).
Proof.
  intros Htool.
  destruct (sprintFormatterTool_entries toISOString toFixed1 tickets metadata markdown Htool)
    as [front [rest [-> [Hne [Hfront Hrest]]]]].
  assert (Hall : (front ++ rest)%list <> []).
  { intros Hnil. apply app_eq_nil in Hnil. destruct Hnil as [Hnil _]. contradiction. }
  rewrite (last_lines_of_join _ Hall).
  destruct Hrest as [[-> ->] | [Hsome Hs]].
  - rewrite last_last. split; [split; reflexivity |]. split; [congruence |].
    intros _ Hdates Hmeta. unfold Terms.report_headings.
    rewrite (lines_of_join _ Hall), heading_lines_app.
    rewrite (heading_lines_quiet front); [reflexivity |].
    apply Hfront; [exact Hdates | congruence | exact Hmeta].
  - assert (Hsorted : Formatter.sortTickets tickets <> []).
    { intros Hnil. apply Hsome. apply sortTickets_nil_iff. exact Hnil. }
    destruct (ticket_sections_last toISOString _ _ _ Hsorted Hs) as [Hrest Hlast].
    rewrite (last_app_nonempty front rest "" Hrest), (Hlast "").
    split; [split; [discriminate | contradiction] |]. split; [reflexivity | contradiction].
Qed.

(** The report of an empty list. *)
Lemma sprintFormatterTool_no_tickets_line_witness :
  exists markdown,
    Formatter.sprintFormatterTool ReportSamples.iso_clock Examples.fixed1
      [] Examples.sample_metadata = JS.Return markdown /\
    last (Terms.lines_of markdown) "" = "No tickets found." /\
    Terms.report_headings markdown = [].
Proof.
  eexists. split; [reflexivity |].
  match goal with
  | |- last (Terms.lines_of ?markdown) _ = _ /\ _ =>
      destruct (sprintFormatterTool_no_tickets_line ReportSamples.iso_clock Examples.fixed1
                  [] Examples.sample_metadata markdown eq_refl) as [Hiff [_ Hnone]]
  end.
  split; [apply Hiff; reflexivity |].
  apply Hnone; [reflexivity | | reflexivity].
  intros s iso H. apply Return_inj in H. subst iso. reflexivity.
Defined.

(** X5. The formatter tool produces a report if and only if the
    timestamp of the metadata is a date and so is every non-empty due
    date of a ticket; otherwise it throws the error of the date
    conversion. *)
Theorem sprintFormatterTool_returns_iff
    (toISOString : string -> JS.Completion string) (toFixed1 : Z -> nat -> string)
    (tickets : list Types.AnalyzedTicket) (metadata : Types.SprintMetadata) :
  (exists markdown,
     Formatter.sprintFormatterTool toISOString toFixed1 tickets metadata = JS.Return markdown)
  <->
  (exists iso, toISOString (Types.syncTimestamp metadata) = JS.Return iso) /\
  Forall (Terms.due_ok toISOString) tickets.
Proof.
  assert (Hperm : Forall (Terms.due_ok toISOString) (Formatter.sortTickets tickets)
                  <-> Forall (Terms.due_ok toISOString) tickets).
  { split; apply Permutation_Forall;
      [apply Permutation_sym |]; apply sort_permutation. }
  rewrite <- Hperm, <- (ticket_sections_returns toISOString (Formatter.sortTickets tickets) 0).
  unfold Formatter.sprintFormatterTool, Formatter.sprintFormatterLines.
  destruct (toISOString (Types.syncTimestamp metadata)) as [iso | e]; simpl.
  - destruct (Formatter.sortTickets tickets) as [| t ts] eqn:Hsorted.
    + split; [intros _ | intros _; eexists; reflexivity].
      split; eexists; reflexivity.
    + destruct (Formatter.ticket_sections toISOString (t :: ts) 0) as [sections | e]; simpl.
      * split; [intros _ | intros _; eexists; reflexivity].
        split; eexists; reflexivity.
      * split; [intros [x H]; discriminate H | intros [_ [x H]]; discriminate H].
  - split; [intros [x H]; discriminate H | intros [[x H] _]; discriminate H].
Qed.

(* ===================================================================== *)
(** ** Further properties of the workflow *)
(* ===================================================================== *)

(** X6. The report that the last step of the workflow renders, read
    line by line, is consistent with the tickets it was given: when
    the clock and the average are rendered on one line and the texts
    of the tickets keep to their place ([plain_in_step]: no line feed
    in name, id, status and affected files, no heading line after the
    first line of the suggested approach), the lines of the report
    that start with [### ] are exactly the headings of the tickets,
    numbered from 1 in the order of the list, one per ticket; the
    fourth line gives a total that is the number of tickets, and the
    seventh and eighth give counts of fixes and features that add up
    to that total. *)
Theorem formatAndDeliverStep_report_consistent
    (now : nat -> string) (toFixed1 : Z -> nat -> string)
    (analyzedTickets : list Types.AnalyzedTicket) (listId : string) :
  let markdown :=
    Workflow.sprintMarkdown (Workflow.build_payload now toFixed1 analyzedTickets listId) in
  let lines := Terms.lines_of markdown in
  let fixes := Formatter.count_tag Types.fix_ analyzedTickets in
  let features := Formatter.count_tag Types.feature analyzedTickets in
  Terms.one_line (now 0) = true -> Terms.one_line (now 1) = true ->
  (forall sum n, Terms.one_line (toFixed1 sum n) = true) ->
  Forall (fun item => Terms.plain_in_step item = true) analyzedTickets ->
  Terms.report_headings markdown = Spec.numbered_headings analyzedTickets 0 /\
  List.length (Terms.report_headings markdown) = List.length analyzedTickets /\
  nth 3 lines "" = "Total tickets: " ++ JS.string_of_nat (List.length analyzedTickets) /\
  nth 6 lines "" = "- Fixes: " ++ JS.string_of_nat fixes /\
  nth 7 lines "" = "- Features: " ++ JS.string_of_nat features /\
  fixes + features = List.length analyzedTickets.
Proof.
  intros markdown lines fixes features H0 H1 Hfixed Hplain.
  destruct (markdown_lines_front now toFixed1 analyzedTickets listId H0 H1 Hfixed)
    as [front [Hlines [Hlen [Hone [Hquiet [H3 [H6 H7]]]]]]].
  assert (Hsplit : lines
                   = (front ++ flat_map Terms.lines_of
                                 (Workflow.forEach_lines analyzedTickets 0))%list).
  { unfold lines, markdown. cbn [Workflow.sprintMarkdown Workflow.build_payload].
    unfold Workflow.nl. rewrite lines_of_join.
    - rewrite Hlines, flat_map_app, (flat_map_lines_one_line front Hone). reflexivity.
    - rewrite Hlines. intros Hnil. apply app_eq_nil in Hnil. destruct Hnil as [Hnil _].
      rewrite Hnil in Hlen. discriminate Hlen. }
  assert (Hh : Terms.report_headings markdown = Spec.numbered_headings analyzedTickets 0).
  { unfold Terms.report_headings. fold lines. rewrite Hsplit, headings_app, Hquiet.
    apply forEach_heading_lines. exact Hplain. }
  split; [exact Hh |]. split; [rewrite Hh; apply numbered_headings_length |].
  rewrite Hsplit, !app_nth1 by (rewrite Hlen; lia).
  split; [exact H3 |]. split; [exact H6 |]. split; [exact H7 |].
  apply count_tags_total.
Qed.

(** The report of the step on a ticket whose approach runs over two
    lines and an Urgent fix, in the order given. *)
Lemma formatAndDeliverStep_report_consistent_witness :
  let markdown :=
    Workflow.sprintMarkdown
      (Workflow.build_payload Examples.clock Examples.fixed1
         [ReportSamples.export_feature; Examples.urgent_fix] "901") in
  Terms.report_headings markdown
    = [ "### 1. [FEATURE] Export report"; "### 2. [FIX] Fix login crash" ] /\
  nth 3 (Terms.lines_of markdown) "" = "Total tickets: 2" /\
  nth 6 (Terms.lines_of markdown) "" = "- Fixes: 1" /\
  nth 7 (Terms.lines_of markdown) "" = "- Features: 1".
Proof.
  destruct (formatAndDeliverStep_report_consistent Examples.clock Examples.fixed1
              [ReportSamples.export_feature; Examples.urgent_fix] "901")
    as [Hh [_ [H3 [H6 [H7 _]]]]];
    [reflexivity | reflexivity | intros sum n; reflexivity | repeat constructor |].
  cbv zeta. rewrite Hh, H3, H6, H7. repeat split.
Defined.

Section FirstAccepted.
Import JS Http Delivery Spec Terms.
Variable destination : Destination.
Variable r : Request.

Lemma first_accepted_some (from n k : nat) :
  first_accepted destination r from n = Some k ->
  from <= k < from + n /\
  (forall j, from <= j < k -> accepted (destination j r) = false) /\
  accepted (destination k r) = true.
Proof.
  revert from. induction n as [| n IH]; intros from; simpl; [discriminate |].
  destruct (accepted (destination from r)) eqn:Ha.
  - intros H. inversion H; subst k. split; [lia |]. split; [intros j Hj; lia | exact Ha].
  - intros H. destruct (IH _ H) as [Hk [Hfail Hok]]. split; [lia |]. split; [| exact Hok].
    intros j Hj. destruct (Nat.eq_dec j from) as [-> | Hne]; [exact Ha | apply Hfail; lia].
Qed.

Lemma first_accepted_none (from n : nat) :
  first_accepted destination r from n = None ->
  forall j, from <= j < from + n -> accepted (destination j r) = false.
Proof.
  revert from. induction n as [| n IH]; intros from; simpl; [intros _ j Hj; lia |].
  destruct (accepted (destination from r)) eqn:Ha; [discriminate |].
  intros H j Hj. destruct (Nat.eq_dec j from) as [-> | Hne]; [exact Ha | apply (IH _ H); lia].
Qed.

End FirstAccepted.

Section DeliveryOutcome.
Import JS Http Delivery Spec Terms.
Context {Payload : Type}.
Variable JSON_stringify : Payload -> string.
Variable destination : Destination.
Variable webhookUrl : string.
Variable payload : Payload.
Variable secret : option string.

(** The delivery, by the first attempt that the destination accepts. *)
Lemma deliverWebhook_by_first_accepted (retries : nat) :
  let r := request JSON_stringify webhookUrl payload secret in
  deliverWebhook JSON_stringify destination webhookUrl payload secret retries =
    match first_accepted destination r 0 retries with
    | Some k => (Return tt, (failed_attempts r 0 k ++ [Post k r])%list)
    | None =>
        match retries with
        | O => (Throw (new_Error "Webhook delivery failed after retries"), [])
        | S _ => (Throw (error_of (destination (retries - 1) r)),
                  (failed_attempts r 0 (retries - 1) ++ [Post (retries - 1) r])%list)
        end
    end.
Proof.
  intros r. destruct (first_accepted destination r 0 retries) as [k |] eqn:Hfirst.
  - destruct (first_accepted_some _ _ _ _ _ Hfirst) as [Hk [Hfail Hok]].
    apply deliverWebhook_accepted; [lia | intros j Hj; apply Hfail; lia | exact Hok].
  - destruct retries as [| n]; [reflexivity |].
    apply deliverWebhook_exhausted; [lia |].
    intros j Hj. apply (first_accepted_none _ _ _ _ Hfirst). lia.
Qed.

End DeliveryOutcome.

(** X7. Whatever the destination does, a delivery with at least one
    attempt allowed sends the same request at attempts 0, 1, ..., [k]
    for some [k] below [retries], pauses [2^j] seconds after each
    attempt [j] before [k] and after none else, and ends with the
    request of attempt [k]: either that attempt is the first accepted
    one and the delivery returns, or no attempt was accepted, [k] is
    the last one allowed and the delivery throws its error. *)
Theorem deliverWebhook_trace_shape {Payload : Type}
    (JSON_stringify : Payload -> string) (destination : Delivery.Destination)
    (webhookUrl : string) (payload : Payload) (secret : option string) (retries : nat) :
  0 < retries ->
  let r := Delivery.request JSON_stringify webhookUrl payload secret in
  let run := Delivery.deliverWebhook JSON_stringify destination webhookUrl payload secret retries in
  exists k,
    k < retries /\
    snd run = (Spec.failed_attempts r 0 k ++ [Delivery.Post k r])%list /\
    (forall j, j < k -> Spec.accepted (destination j r) = false) /\
    ((fst run = JS.Return tt /\ Spec.accepted (destination k r) = true) \/
     (fst run = JS.Throw (Spec.error_of (destination k r)) /\
      Spec.accepted (destination k r) = false /\ k = retries - 1)).
Proof.
  intros Hpos r run. unfold run. rewrite deliverWebhook_by_first_accepted. fold r.
  destruct (Terms.first_accepted destination r 0 retries) as [k |] eqn:Hfirst.
  - destruct (first_accepted_some _ _ _ _ _ Hfirst) as [Hk [Hfail Hok]].
    exists k. split; [lia |]. split; [reflexivity |].
    split; [intros j Hj; apply Hfail; lia |]. left. split; [reflexivity | exact Hok].
  - pose proof (first_accepted_none _ _ _ _ Hfirst) as Hnone.
    destruct retries as [| n]; [lia |].
    exists (S n - 1). split; [lia |]. split; [reflexivity |].
    split; [intros j Hj; apply Hnone; lia |]. right.
    split; [reflexivity |]. split; [apply Hnone; lia | reflexivity].
Qed.

Lemma deliverWebhook_trace_shape_witness :
  let r := Delivery.request (fun s : string => s) "http://localhost:3001" "{}" None in
  exists k,
    k < 3 /\
    snd (Delivery.deliverWebhook (fun s : string => s) Examples.flaky
           "http://localhost:3001" "{}" None 3)
      = (Spec.failed_attempts r 0 k ++ [Delivery.Post k r])%list.
Proof.
  assert (Hpos : 0 < 3) by lia.
  destruct (deliverWebhook_trace_shape (fun s : string => s) Examples.flaky
              "http://localhost:3001" "{}" None 3 Hpos) as [k [Hk [Htrace _]]].
  exists k. split; [exact Hk | exact Htrace].
Defined.

Section StepOutcome.
Import JS Http Delivery Spec Terms.
Variable now : nat -> string.
Variable toFixed1 : Z -> nat -> string.
Variable JSON_stringify : Workflow.Payload -> string.
Variable destination : Destination.

(** The last step on a non-empty list, by the first accepted attempt. *)
Lemma formatAndDeliverStep_by_first_accepted
    (analyzedTickets : list Types.AnalyzedTicket)
    (listId webhookUrl : string) (webhookSecret : option string) :
  analyzedTickets <> [] ->
  let r := request JSON_stringify webhookUrl
             (Workflow.build_payload now toFixed1 analyzedTickets listId) webhookSecret in
  let n := string_of_nat (List.length analyzedTickets) in
  Workflow.formatAndDeliverStep now toFixed1 JSON_stringify destination
    analyzedTickets listId webhookUrl webhookSecret =
    match first_accepted destination r 0 3 with
    | Some k =>
        (Workflow.mkOutcome true (List.length analyzedTickets) true
           ("Successfully analyzed " ++ n ++ " tickets and delivered to webhook"),
         (failed_attempts r 0 k ++ [Post k r])%list)
    | None =>
        (Workflow.mkOutcome true (List.length analyzedTickets) false
           ("Analyzed " ++ n ++ " tickets but webhook delivery failed"),
         (failed_attempts r 0 2 ++ [Post 2 r])%list)
    end.
Proof.
  intros Hne r n. unfold Workflow.formatAndDeliverStep.
  destruct analyzedTickets as [| t ts]; [congruence |].
  rewrite deliverWebhook_by_first_accepted. fold r. unfold default_retries.
  destruct (first_accepted destination r 0 3); reflexivity.
Qed.

End StepOutcome.

(** X8. The last step of the workflow, for every destination and every
    non-empty list of tickets: it returns success with the number of
    tickets, and [webhookDelivered] is true exactly when one of the 3
    attempts is accepted, the message saying which; the destination is
    sent at least one and at most 3 requests. *)
Theorem formatAndDeliverStep_delivered_iff
    (now : nat -> string) (toFixed1 : Z -> nat -> string)
    (JSON_stringify : Workflow.Payload -> string) (destination : Delivery.Destination)
    (analyzedTickets : list Types.AnalyzedTicket)
    (listId webhookUrl : string) (webhookSecret : option string) :
  analyzedTickets <> [] ->
  let r := Delivery.request JSON_stringify webhookUrl
             (Workflow.build_payload now toFixed1 analyzedTickets listId) webhookSecret in
  let run := Workflow.formatAndDeliverStep now toFixed1 JSON_stringify destination
               analyzedTickets listId webhookUrl webhookSecret in
  let n := JS.string_of_nat (List.length analyzedTickets) in
  Workflow.success (fst run) = true /\
  Workflow.ticketCount (fst run) = List.length analyzedTickets /\
  (Workflow.webhookDelivered (fst run) = true
   <-> exists k, k < 3 /\ Spec.accepted (destination k r) = true) /\
  Workflow.message (fst run)
    = (if Workflow.webhookDelivered (fst run)
       then "Successfully analyzed " ++ n ++ " tickets and delivered to webhook"
       else "Analyzed " ++ n ++ " tickets but webhook delivery failed") /\
  1 <= Delivery.attempts (snd run) <= 3.
Proof.
  intros Hne r run n. unfold run.
  rewrite (formatAndDeliverStep_by_first_accepted _ _ _ _ _ _ _ _ Hne). fold r.
  destruct (Terms.first_accepted destination r 0 3) as [k |] eqn:Hfirst.
  - destruct (first_accepted_some _ _ _ _ _ Hfirst) as [Hk [Hfail Hok]].
    cbn [fst snd Workflow.success Workflow.ticketCount Workflow.webhookDelivered Workflow.message].
    split; [reflexivity |]. split; [reflexivity |].
    split; [split; [intros _; exists k; split; [lia | exact Hok] | reflexivity] |].
    split; [reflexivity |].
    rewrite attempts_app, attempts_failed, attempts_post. lia.
  - pose proof (first_accepted_none _ _ _ _ Hfirst) as Hnone.
    cbn [fst snd Workflow.success Workflow.ticketCount Workflow.webhookDelivered Workflow.message].
    split; [reflexivity |]. split; [reflexivity |].
    split; [split; [discriminate |] |].
    { intros [k [Hk Hok]]. rewrite Hnone in Hok by lia. discriminate Hok. }
    split; [reflexivity |].
    rewrite attempts_app, attempts_failed, attempts_post. lia.
Qed.

Lemma formatAndDeliverStep_delivered_iff_witness :
  Workflow.webhookDelivered
    (fst (Workflow.formatAndDeliverStep Examples.clock Examples.fixed1 Examples.show_payload
            Examples.flaky [Examples.urgent_fix] "901" "http://localhost:3001" None)) = true.
Proof.
  assert (Hne : [Examples.urgent_fix] <> []) by discriminate.
  destruct (formatAndDeliverStep_delivered_iff Examples.clock Examples.fixed1
              Examples.show_payload Examples.flaky [Examples.urgent_fix]
              "901" "http://localhost:3001" None Hne) as [_ [_ [Hiff _]]].
  apply Hiff. exists 2. split; [lia | reflexivity].
Defined.

(** X9. The workflow on typed tasks never throws: for every list of
    [ClickUpTask] records, which is what the input schema of
    [analyzeTicketsStep] admits, every model and every destination it
    returns an outcome with [success] true and [ticketCount] the number
    of tasks, after exactly one model call per task and at most 3
    requests to the destination, none exactly when there is no task.
    Nothing is said of values that the schema refuses. *)
Theorem sprintSyncWorkflow_counts
    (now : nat -> string) (toFixed1 : Z -> nat -> string)
    (JSON_stringify : Workflow.Payload -> string) (destination : Delivery.Destination)
    (generateObject : Analyzer.Model) (codebaseMap : Types.CodebaseMap)
    (tasks : list Types.ClickUpTask) (listId webhookUrl : string)
    (webhookSecret : option string) :
  exists out calls trace,
    Workflow.sprintSyncWorkflow now toFixed1 JSON_stringify destination generateObject
      codebaseMap tasks listId webhookUrl webhookSecret = (JS.Return out, calls, trace) /\
    Workflow.success out = true /\
    Workflow.ticketCount out = List.length tasks /\
    List.length calls = List.length tasks /\
    Delivery.attempts trace <= 3 /\
    (tasks = [] <-> Delivery.attempts trace = 0).
Proof.
  unfold Workflow.sprintSyncWorkflow.
  rewrite analyzeTicketsStep_returns.
  destruct tasks as [| t ts].
  - do 3 eexists. split; [reflexivity |].
    split; [reflexivity |]. split; [reflexivity |]. split; [reflexivity |].
    split; [unfold Delivery.attempts; simpl; lia |]. split; reflexivity.
  - set (analyzed := Spec.analyzed_from generateObject codebaseMap 0 (t :: ts)).
    assert (Hlen : List.length analyzed = List.length (t :: ts))
      by apply analyzed_from_length.
    assert (Hne : analyzed <> []) by (unfold analyzed; simpl; discriminate).
    rewrite (formatAndDeliverStep_by_first_accepted _ _ _ _ _ _ _ _ Hne).
    destruct (Terms.first_accepted _ _ 0 3) as [k |] eqn:Hfirst.
    + destruct (first_accepted_some _ _ _ _ _ Hfirst) as [Hk _].
      do 3 eexists. split; [reflexivity |].
      split; [reflexivity |]. split; [exact Hlen |]. split; [apply length_map |].
      rewrite attempts_app, attempts_failed, attempts_post.
      split; [lia |]. split; [discriminate | lia].
    + do 3 eexists. split; [reflexivity |].
      split; [reflexivity |]. split; [exact Hlen |]. split; [apply length_map |].
      rewrite attempts_app, attempts_failed, attempts_post.
      split; [lia |]. split; [discriminate | lia].
Qed.

(* ===================================================================== *)
(** ** Further properties of the task source *)
(* ===================================================================== *)

Section StrictTasks.
Import JS Source Spec.

(** How an object schema reads its first key. *)
Lemma parse_object_cons (k : string) (s : Schema) (rest : list (string * Schema))
    (props : list (string * Value)) :
  parse (z_object ((k, s) :: rest)) (VObject props) =
  match parse s (field (VObject props) k), parse (z_object rest) (VObject props) with
  | Some x, Some (VObject out) =>
      Some (VObject match lookup k props, x with
                    | None, VUndefined => out
                    | _, _ => (k, x) :: out
                    end)
  | _, _ => None
  end.
Proof.
  cbn [parse field].
  destruct (parse s _) as [x |].
  - cbv beta iota.
    match goal with
    | |- _ = match option_map VObject ?t with Some _ => _ | None => _ end =>
        destruct t as [out |]
    end; cbn [option_map]; [| reflexivity].
    destruct (lookup k props); [reflexivity |]. destruct x; reflexivity.
  - reflexivity.
Qed.

Lemma parse_object_shape (shape : list (string * Schema)) (v parsed : Value) :
  parse (z_object shape) v = Some parsed ->
  exists props out, v = VObject props /\ parsed = VObject out.
Proof.
  destruct v as [| | b | n | s | l | props]; cbn [parse]; try discriminate.
  match goal with
  | |- context [option_map VObject ?x] => destruct x as [out |]
  end; cbn [option_map]; [| discriminate].
  intros H. inversion H. exists props, out. split; reflexivity.
Qed.

(** A parsed object owns no key outside the schema. *)
Lemma parse_object_keys (shape : list (string * Schema)) (props out : list (string * Value))
    (k : string) :
  parse (z_object shape) (VObject props) = Some (VObject out) ->
  ~ In k (map fst shape) -> lookup k out = None.
Proof.
  revert out. induction shape as [| [k0 s0] rest IH]; intros out H Hk.
  - cbn in H. inversion H. reflexivity.
  - rewrite parse_object_cons in H.
    destruct (parse s0 _) as [x |]; [| discriminate].
    destruct (parse (z_object rest) (VObject props)) as [[| | | | | | out'] |]; try discriminate.
    assert (Hout' : lookup k out' = None).
    { apply IH; [reflexivity |]. intros Hin. apply Hk. right. exact Hin. }
    assert (Hne : String.eqb k k0 = false).
    { destruct (String.eqb_spec k k0) as [-> |]; [| reflexivity].
      exfalso. apply Hk. left. reflexivity. }
    inversion H as [Hout]. clear H.
    destruct (lookup k0 props); [cbn [lookup]; rewrite Hne; exact Hout' |].
    destruct x; cbn [lookup]; try rewrite Hne; exact Hout'.
Qed.

(** The parsed object holds, at each key of the schema, what the
    schema of that key made of the input's value. *)
Lemma parse_object_field (shape : list (string * Schema)) (props out : list (string * Value))
    (k : string) (s : Schema) :
  parse (z_object shape) (VObject props) = Some (VObject out) ->
  NoDup (map fst shape) -> In (k, s) shape ->
  parse s (field (VObject props) k) = Some (field (VObject out) k).
Proof.
  revert out. induction shape as [| [k0 s0] rest IH]; intros out H Hnd Hin; [contradiction |].
  rewrite parse_object_cons in H.
  destruct (parse s0 (field (VObject props) k0)) as [x |] eqn:Hx; [| discriminate].
  destruct (parse (z_object rest) (VObject props)) as [[| | | | | | out'] |] eqn:Hrest;
    try discriminate.
  inversion Hnd as [| ? ? Hfresh Hnd']. subst.
  inversion H as [Hout]. clear H.
  destruct Hin as [Heq | Hin].
  - inversion Heq. subst k0 s0. rewrite Hx. f_equal.
    assert (Hdrop : field (VObject out') k = VUndefined).
    { cbn [field]. rewrite (parse_object_keys rest props out' k Hrest Hfresh). reflexivity. }
    destruct (lookup k props).
    + cbn [field lookup]. rewrite String.eqb_refl. reflexivity.
    + destruct x; try (cbn [field lookup]; rewrite String.eqb_refl; reflexivity).
      symmetry. exact Hdrop.
  - assert (Hne : String.eqb k k0 = false).
    { destruct (String.eqb_spec k k0) as [-> |]; [| reflexivity].
      exfalso. apply Hfresh. change k0 with (fst (k0, s)). apply in_map. exact Hin. }
    rewrite (IH out' eq_refl Hnd' Hin).
    f_equal.
    destruct (lookup k0 props); [cbn [field lookup]; rewrite Hne; reflexivity |].
    destruct x; cbn [field lookup]; try rewrite Hne; reflexivity.
Qed.

Lemma parse_string (v x : Value) : parse z_string v = Some x -> exists s, x = VString s.
Proof. destruct v; cbn; intros H; inversion H. eexists. reflexivity. Qed.

Lemma ClickUpTaskSchema_keys :
  NoDup ["id"; "name"; "description"; "status"; "assignees"; "priority"; "tags";
         "due_date"; "custom_fields"; "url"].
Proof.
  repeat (constructor; [cbn; intuition discriminate |]). constructor.
Qed.

(** What strict validation guarantees of a task: [id] and [name] are
    strings and [status] is an object whose [status] is a string. *)
Lemma parse_task_strings (task parsed : Value) :
  parse ClickUpTaskSchema task = Some parsed ->
  (exists s, field parsed "id" = VString s) /\
  (exists s, field parsed "name" = VString s) /\
  (exists st s, field parsed "status" = VObject st /\ field (VObject st) "status" = VString s).
Proof.
  intros H. destruct (parse_object_shape _ _ _ H) as [props [out [-> ->]]].
  assert (Hf : forall k s, In (k, s) [ ("id", z_string); ("name", z_string);
      ("status", z_object [ ("status", z_string); ("color", z_optional z_string) ]) ] ->
      parse s (field (VObject props) k) = Some (field (VObject out) k)).
  { intros k s Hin. apply (parse_object_field _ _ _ _ _ H ClickUpTaskSchema_keys).
    cbn in Hin. cbn. intuition. }
  split; [| split].
  - apply (parse_string (field (VObject props) "id")). apply Hf. cbn; auto.
  - apply (parse_string (field (VObject props) "name")). apply Hf. cbn; auto.
  - assert (Hst := Hf "status" _ (or_intror (or_intror (or_introl eq_refl)))).
    destruct (parse_object_shape _ _ _ Hst) as [sp [st [Hsp Hstv]]].
    rewrite Hsp, Hstv in Hst. exists st.
    assert (Hss : parse z_string (field (VObject sp) "status")
                  = Some (field (VObject st) "status")).
    { apply (parse_object_field _ _ _ _ _ Hst); [| cbn; auto].
      repeat (constructor; [cbn; intuition discriminate |]). constructor. }
    destruct (parse_string _ _ Hss) as [s Hs]. exists s. split; [exact Hstv | exact Hs].
Qed.

(** What the [catch] branch of [fetchClickUpTasks] builds. *)
Lemma coerce_strings (task v : Value) :
  coerce task = Return v ->
  exists id_ name_,
    String_ (field task "id") = Return id_ /\
    String_ (or (field task "name") (VString "Untitled Task")) = Return name_ /\
    v = coerced task id_ name_.
Proof.
  intros H. assert (Hn : nullish task = false).
  { destruct task; try reflexivity; discriminate H. }
  unfold coerce in H. rewrite !(get_field task) in H by assumption. cbn [bind] in H.
  destruct (String_ (field task "id")) as [id_ | e]; [| discriminate]. cbn [bind] in H.
  destruct (String_ (or (field task "name") (VString "Untitled Task"))) as [name_ | e];
    [| discriminate]. cbn [bind] in H.
  rewrite get_opt_field in H. cbn [bind] in H. inversion H.
  exists id_, name_. repeat split.
Qed.

Lemma map_throwing_Forall2 {A B} (f : A -> Completion B) (l : list A) (out : list B) :
  map_throwing f l = Return out -> Forall2 (fun x y => f x = Return y) l out.
Proof.
  revert out. induction l as [| x r IH]; cbn [map_throwing]; intros out H.
  - inversion H. constructor.
  - destruct (f x) as [y | e] eqn:Hy; cbn [bind] in H; [| discriminate].
    destruct (map_throwing f r) as [ys | e]; cbn [bind] in H; [| discriminate].
    inversion H. constructor; [exact Hy | apply IH; reflexivity].
Qed.

End StrictTasks.

Section ClientRuns.
Import JS Http Source Spec.
Variable getEnvVar : string -> Completion string.
Variable JSON_parse : string -> Completion Value.
Variable form_encode : string -> string.
Variable upstream : Upstream.

(** A run of [fetchClickUpTasks] that returns: the list id and the
    token were resolved, the answer came in time with a 2xx status,
    its body parsed to a value whose [tasks] is an array, and the
    callback returned on every item. *)
Lemma fetchClickUpTasks_returns (listId : option string) (includeSubtasks : bool)
    (tasks : list Value) (l : string) :
  fst (fetchClickUpTasks getEnvVar JSON_parse upstream listId includeSubtasks)
    = Return (tasks, l) ->
  exists token response data raw,
    resolve_listId getEnvVar listId = Return l /\
    getEnvVar "CLICKUP_API_TOKEN" = Return token /\
    fetch_with_timeout upstream
      (get_request (CLICKUP_API_BASE ++ "/list/" ++ l ++ "/task?"
                      ++ "include_subtasks=" ++ string_of_bool includeSubtasks) token)
      = Resolves response /\
    ok response = true /\
    JSON_parse (resp_body response) = Return data /\
    tasks_of data = Return raw /\
    map_throwing parse_or_coerce raw = Return tasks.
Proof.
  unfold fetchClickUpTasks.
  destruct (resolve_listId getEnvVar listId) as [l' | e]; [| discriminate].
  destruct (getEnvVar "CLICKUP_API_TOKEN") as [token | e]; [| discriminate].
  cbn [fst].
  destruct (fetch_with_timeout upstream _) as [response | e] eqn:Hf; [| discriminate].
  destruct (ok response) eqn:Hok; cbn [negb]; [| discriminate].
  destruct (JSON_parse (resp_body response)) as [data | e] eqn:Hd; cbn [bind]; [| discriminate].
  destruct (tasks_of data) as [raw | e] eqn:Hr; cbn [bind]; [| discriminate].
  destruct (map_throwing parse_or_coerce raw) as [ts | e] eqn:Hm; cbn [bind]; [| discriminate].
  intros H. inversion H. subst ts l'.
  exists token, response, data, raw. repeat split; assumption.
Qed.

End ClientRuns.

(** X10. Every task that [fetchClickUpTasks] returns, validated or
    coerced, holds a string [id], a string [name] and an object
    [status] with a defined [status]; the list id returned is the one
    that was resolved. *)
Theorem fetchClickUpTasks_tasks_well_formed
    (getEnvVar : string -> JS.Completion string)
    (JSON_parse : string -> JS.Completion Source.Value)
    (upstream : Source.Upstream) (listId : option string) (includeSubtasks : bool)
    (tasks : list Source.Value) (l : string) :
  fst (Source.fetchClickUpTasks getEnvVar JSON_parse upstream listId includeSubtasks)
    = JS.Return (tasks, l) ->
  Source.resolve_listId getEnvVar listId = JS.Return l /\
  Forall (fun t => exists id_ name_ st,
            Spec.field t "id" = Source.VString id_ /\
            Spec.field t "name" = Source.VString name_ /\
            Spec.field t "status" = Source.VObject st /\
            Spec.field (Source.VObject st) "status" <> Source.VUndefined) tasks.
Proof.
  intros H.
  destruct (fetchClickUpTasks_returns _ _ _ _ _ _ _ H)
    as [token [response [data [raw [Hl [_ [_ [_ [_ [_ Hm]]]]]]]]]].
  split; [exact Hl |].
  apply map_throwing_Forall2 in Hm. clear - Hm.
  induction Hm as [| t v raw tasks Hv _ IH]; constructor; [| exact IH].
  unfold Source.parse_or_coerce in Hv.
  destruct (Source.parse Source.ClickUpTaskSchema t) as [parsed |] eqn:Hp.
  - inversion Hv. subst v.
    destruct (parse_task_strings _ _ Hp) as [[i Hi] [[n Hn] [st [s [Hst Hs]]]]].
    exists i, n, st. repeat split; try assumption. rewrite Hs. discriminate.
  - destruct (coerce_strings _ _ Hv) as [i [n [_ [_ ->]]]].
    exists i, n. eexists. split; [reflexivity |]. split; [reflexivity |].
    split; [reflexivity |].
    cbn [Spec.field Source.lookup String.eqb Ascii.eqb Bool.eqb]. unfold Source.or.
    destruct (Source.truthy (Spec.field (Spec.field t "status") "status")) eqn:Htr;
      [| discriminate].
    intros Hu. rewrite Hu in Htr. discriminate Htr.
Qed.

Lemma fetchClickUpTasks_tasks_well_formed_witness :
  Forall (fun t => exists id_ name_ st,
            Spec.field t "id" = Source.VString id_ /\
            Spec.field t "name" = Source.VString name_ /\
            Spec.field t "status" = Source.VObject st /\
            Spec.field (Source.VObject st) "status" <> Source.VUndefined)
    [ Examples.raw_good; Spec.coerced Examples.raw_malformed "4711" "Untitled Task" ].
Proof.
  exact (proj2 (fetchClickUpTasks_tasks_well_formed Examples.env
                  (fun _ => JS.Return Examples.data_malformed_item) Examples.upstream_ok
                  None true _ "901" eq_refl)).
Defined.

Section ToolAndClient.
Import JS Http Source Spec Terms.

Lemma tool_coerce_of_coerce (t v : Value) :
  coerce t = Return v -> exists v', tool_coerce t = Return v' /\ stringified v v'.
Proof.
  intros H. assert (Hn : nullish t = false).
  { destruct t; try reflexivity; discriminate H. }
  destruct (coerce_strings _ _ H) as [i [n [Hi [Hname ->]]]].
  unfold tool_coerce. rewrite !(get_field t) by assumption. cbn [bind].
  rewrite Hi. cbn [bind]. rewrite get_opt_field. cbn [bind].
  eexists. split; [reflexivity |].
  exists i, n. split; [reflexivity |]. split; [reflexivity |].
  split; [exact Hi |]. split; [exact Hname |].
  intros k Hid Hnm. unfold coerced. cbn [field lookup].
  destruct (String.eqb_spec k "id") as [He | _]; [contradiction |].
  destruct (String.eqb_spec k "name") as [He | _]; [contradiction |].
  reflexivity.
Qed.

Lemma tool_callback_of_callback (t v : Value) :
  parse_or_coerce t = Return v ->
  exists v', tool_parse_or_coerce t = Return v' /\ stringified v v'.
Proof.
  unfold parse_or_coerce, tool_parse_or_coerce.
  destruct (parse ClickUpTaskSchema t) as [parsed |] eqn:Hp; [| apply tool_coerce_of_coerce].
  intros H. inversion H. subst v. exists parsed. split; [reflexivity |].
  destruct (parse_task_strings _ _ Hp) as [[i Hi] [[n Hn] _]].
  exists i, n. rewrite Hi, Hn. repeat split.
Qed.

Lemma tool_map_of_map (raw tasks : list Value) :
  map_throwing parse_or_coerce raw = Return tasks ->
  exists tasks', map_throwing tool_parse_or_coerce raw = Return tasks' /\
                 Forall2 stringified tasks tasks'.
Proof.
  revert tasks. induction raw as [| t r IH]; cbn [map_throwing]; intros tasks H.
  - inversion H. exists []. split; [reflexivity | constructor].
  - destruct (parse_or_coerce t) as [v | e] eqn:Hv; cbn [bind] in H; [| discriminate].
    destruct (map_throwing parse_or_coerce r) as [vs | e]; cbn [bind] in H; [| discriminate].
    inversion H. subst tasks.
    destruct (tool_callback_of_callback _ _ Hv) as [v' [Hv' Hrel]].
    destruct (IH vs eq_refl) as [vs' [Hvs' Hrels]].
    exists (v' :: vs'). rewrite Hv', Hvs'. split; [reflexivity |].
    constructor; assumption.
Qed.

End ToolAndClient.

(** X11. Without a status filter the tool [clickupSyncTool] sends the
    request that the workflow's client [fetchClickUpTasks] sends, and
    whenever the client returns tasks the tool returns as many, for
    the same list id: each is the client's task, except that [id] and
    [name] are left as they came where the client holds their
    strings. *)
Theorem clickupSyncTool_follows_client
    (getEnvVar : string -> JS.Completion string)
    (JSON_parse : string -> JS.Completion Source.Value)
    (form_encode : string -> string)
    (upstream : Source.Upstream) (listId : option string) (includeSubtasks : bool)
    (statuses : option (list string)) (tasks : list Source.Value) (l : string) :
  statuses = None \/ statuses = Some [] ->
  fst (Source.fetchClickUpTasks getEnvVar JSON_parse upstream listId includeSubtasks)
    = JS.Return (tasks, l) ->
  exists tasks',
    fst (Source.clickupSyncTool getEnvVar JSON_parse form_encode upstream
           listId includeSubtasks statuses) = JS.Return (tasks', l) /\
    snd (Source.clickupSyncTool getEnvVar JSON_parse form_encode upstream
           listId includeSubtasks statuses)
      = snd (Source.fetchClickUpTasks getEnvVar JSON_parse upstream listId includeSubtasks) /\
    Forall2 Terms.stringified tasks tasks'.
Proof.
  intros Hst H.
  destruct (fetchClickUpTasks_returns _ _ _ _ _ _ _ H)
    as [token [response [data [raw [Hl [Ht [Hf [Hok [Hd [Hr Hm]]]]]]]]]].
  destruct (tool_map_of_map _ _ Hm) as [tasks' [Hm' Hrel]].
  exists tasks'.
  assert (Hp : Source.tool_params form_encode includeSubtasks statuses
               = ("include_subtasks=" ++ Source.string_of_bool includeSubtasks)%string).
  { destruct Hst as [-> | ->]; reflexivity. }
  unfold Source.clickupSyncTool, Source.fetchClickUpTasks.
  rewrite Hl, Ht, Hp. cbn [fst snd]. rewrite Hf, Hok. cbn [negb].
  rewrite Hd. cbn [JS.bind]. rewrite Hr. cbn [JS.bind]. rewrite Hm'. cbn [JS.bind].
  split; [reflexivity |]. split; [reflexivity | exact Hrel].
Qed.

Lemma clickupSyncTool_follows_client_witness :
  exists tasks',
    fst (Source.clickupSyncTool Examples.env (fun _ => JS.Return Examples.data_malformed_item)
           (fun s => s) Examples.upstream_ok None true (Some []))
      = JS.Return (tasks', "901") /\
    snd (Source.clickupSyncTool Examples.env (fun _ => JS.Return Examples.data_malformed_item)
           (fun s => s) Examples.upstream_ok None true (Some []))
      = snd (Source.fetchClickUpTasks Examples.env
               (fun _ => JS.Return Examples.data_malformed_item)
               Examples.upstream_ok None true) /\
    Forall2 Terms.stringified
      [ Examples.raw_good; Spec.coerced Examples.raw_malformed "4711" "Untitled Task" ] tasks'.
Proof.
  exact (clickupSyncTool_follows_client Examples.env
           (fun _ => JS.Return Examples.data_malformed_item) (fun s => s)
           Examples.upstream_ok None true (Some []) _ "901" (or_intror eq_refl) eq_refl).
Defined.

(* ===================================================================== *)
(** ** The form of a signature *)
(* ===================================================================== *)

Section DigestForm.
Import Crypto Terms.
Local Open Scope Z_scope.

Lemma hex_digit_lower (n : Z) : 0 <= n < 16 -> is_lower_hex (hex_digit n) = true.
Proof.
  intros H. rewrite <- (Z2Nat.id n) by lia.
  assert (Hk : (Z.to_nat n < 16)%nat) by lia.
  generalize dependent (Z.to_nat n). intros k Hk.
  do 16 (destruct k as [| k]; [reflexivity |]). lia.
Qed.

Lemma hex_form (l : list Z) :
  Forall (fun b => 0 <= b < 256) l ->
  String.length (hex l) = (2 * List.length l)%nat /\ all_chars is_lower_hex (hex l) = true.
Proof.
  induction 1 as [| b r Hb Hr [IHl IHc]]; [split; reflexivity |].
  cbn [hex String.length List.length all_chars]. split; [lia |].
  rewrite !hex_digit_lower, IHc; [reflexivity | |].
  - apply Z.mod_pos_bound. lia.
  - split; [apply Z.div_pos; lia | apply Z.div_lt_upper_bound; lia].
Qed.

(** The digest in hexadecimal: 64 digits of [0-9a-f]. *)
Lemma createHmac_sha256_hex_form (secret data : string) :
  String.length (createHmac_sha256_hex secret data) = 64%nat /\
  all_chars is_lower_hex (createHmac_sha256_hex secret data) = true.
Proof.
  unfold createHmac_sha256_hex, hmac_sha256.
  destruct (hex_form _ (sha256_range
    (xor_with 92 (key_block (bytes_of_string secret))
       ++ sha256 (xor_with 54 (key_block (bytes_of_string secret)) ++ bytes_of_string data))))
    as [Hl Hc].
  split; [| exact Hc]. rewrite Hl, sha256_length. reflexivity.
Qed.

End DigestForm.

(** X12. The receiver accepts a signature header only in one form:
    [sha256=] followed by 64 digits of lower-case hexadecimal, 71
    characters in all; a header in upper case, without the prefix or of
    another length is rejected, whatever the body and the secret. *)
Theorem verifySignature_accepts_one_form (payload signature secret : string) :
  Receiver.verifySignature payload signature secret = true ->
  exists digest,
    signature = ("sha256=" ++ digest)%string /\
    String.length digest = 64 /\
    Terms.all_chars Terms.is_lower_hex digest = true /\
    String.length signature = 71.
Proof.
  intros H. apply verifySignature_iff in H.
  destruct (createHmac_sha256_hex_form secret payload) as [Hl Hc].
  exists (Crypto.createHmac_sha256_hex secret payload).
  split; [exact H |]. split; [exact Hl |]. split; [exact Hc |].
  rewrite H. cbn [String.append String.length]. rewrite Hl. reflexivity.
Qed.

Lemma verifySignature_accepts_one_form_witness :
  exists digest,
    ("sha256=" ++ Crypto.createHmac_sha256_hex "s3cret" "{}")%string
      = ("sha256=" ++ digest)%string /\
    String.length digest = 64 /\
    Terms.all_chars Terms.is_lower_hex digest = true /\
    String.length ("sha256=" ++ Crypto.createHmac_sha256_hex "s3cret" "{}") = 71.
Proof.
  apply (verifySignature_accepts_one_form "{}"
           ("sha256=" ++ Crypto.createHmac_sha256_hex "s3cret" "{}") "s3cret").
  unfold Receiver.verifySignature. apply String.eqb_refl.
Defined.

(* ===================================================================== *)
(** ** The webhook receiver *)
(* ===================================================================== *)

Section ReceiverFacts.
Import JS Http Source Spec Server.
Variable existsSync : string -> bool.
Variable mkdirSync : string -> Completion unit.
Variable writeFileSync : string -> Value -> Completion unit.
Variable path_join : list string -> string.
Variable path_relative : string -> string -> string.
Variable now : string.
Variable JSON_parse : string -> Completion Value.
Variable projectRoot : string.
Variable secret : option string.

Local Abbreviation server :=
  (createServer existsSync mkdirSync writeFileSync path_join path_relative now JSON_parse
     projectRoot secret).
Local Abbreviation file := (sprint_file path_join projectRoot now).

(** The receiver answers an authentication failure with 401 only. *)
Lemma authenticate_reply (hs : list (string * string)) (body : string) (status : Z)
    (error : string) :
  Receiver.authenticate secret hs body = Receiver.Reply status error -> status = 401%Z.
Proof.
  unfold Receiver.authenticate. destruct secret as [s |]; [| discriminate].
  destruct (String.eqb s ""); [discriminate |].
  destruct (header _ hs) as [sig |]; [| intros H; inversion H; reflexivity].
  destruct (String.eqb sig ""); [intros H; inversion H; reflexivity |].
  destruct (Receiver.verifySignature body sig s); [discriminate |].
  intros H. inversion H. reflexivity.
Qed.

(** What authentication means when a secret is configured. *)
Lemma authenticate_verified (hs : list (string * string)) (body s : string) :
  secret = Some s -> s <> "" ->
  Receiver.authenticate secret hs body = Receiver.Authenticated ->
  exists sig, header "x-sprint-pilot-signature" hs = Some sig /\
              Receiver.verifySignature body sig s = true.
Proof.
  intros -> Hs. unfold Receiver.authenticate.
  destruct (String.eqb_spec s "") as [He | _]; [contradiction |].
  destruct (header _ hs) as [sig |]; [| discriminate].
  destruct (String.eqb sig ""); [discriminate |].
  destruct (Receiver.verifySignature body sig s) eqn:Hv; [| discriminate].
  intros _. exists sig. split; [reflexivity | exact Hv].
Qed.

(** The calls of [writeSprintFile]: the directory is looked up, made
    when missing, and the file is written unless that failed. *)
Lemma writeSprintFile_calls (markdown : Value) :
  let dir := path_join [ projectRoot; ".ai"; "sprint" ] in
  let run := writeSprintFile existsSync mkdirSync writeFileSync path_join now
               markdown projectRoot in
  (exists e, fst run = Throw e /\ existsSync dir = false /\ mkdirSync dir = Throw e /\
             snd run = [ ExistsSync dir; MkdirSync dir ]) \/
  ((existsSync dir = true \/ mkdirSync dir = Return tt) /\
   snd run = ((ExistsSync dir :: if existsSync dir then [] else [ MkdirSync dir ])
              ++ [ WriteFileSync file markdown ])%list /\
   fst run = bind (writeFileSync file markdown) (fun _ => Return file)).
Proof.
  cbv zeta. unfold writeSprintFile, ensureDirectoryExists, and_then, sprint_file.
  set (dir := path_join [ projectRoot; ".ai"; "sprint" ]).
  destruct (existsSync dir) eqn:Hex; cbn [fst snd].
  - right. split; [left; reflexivity |].
    destruct (writeFileSync _ markdown); split; reflexivity.
  - destruct (mkdirSync dir) as [[] | e] eqn:Hmk; cbn [fst snd].
    + right. split; [right; reflexivity |].
      destruct (writeFileSync _ markdown); split; reflexivity.
    + left. exists e. repeat split.
Qed.

Lemma writeSprintFile_writes (markdown : Value) :
  let run := writeSprintFile existsSync mkdirSync writeFileSync path_join now
               markdown projectRoot in
  writes (snd run) = [] \/ writes (snd run) = [ (file, markdown) ].
Proof.
  cbv zeta. destruct (writeSprintFile_calls markdown) as [[e [_ [_ [_ Hs]]]] | [_ [Hs _]]];
    rewrite Hs.
  - left. reflexivity.
  - right. destruct (existsSync _); reflexivity.
Qed.

(** The runs of [process_payload], by the first step that stops
    them. *)
Lemma process_payload_calls (body : string) :
  let run := process_payload existsSync mkdirSync writeFileSync path_join path_relative now
               JSON_parse projectRoot body in
  snd run = [] \/
  exists payload,
    JSON_parse body = Return payload /\
    nullish payload = false /\
    truthy (field payload "sprintMarkdown") = true /\
    snd run = snd (writeSprintFile existsSync mkdirSync writeFileSync path_join now
                     (field payload "sprintMarkdown") projectRoot).
Proof.
  cbv zeta. unfold process_payload, and_then, pure. cbn [fst snd].
  destruct (JSON_parse body) as [payload | e]; cbn [fst snd]; [| left; reflexivity].
  destruct (nullish payload) eqn:Hn.
  { left. destruct payload; try discriminate Hn; reflexivity. }
  rewrite (get_field payload "sprintMarkdown" Hn). cbn [fst snd app].
  destruct (truthy (field payload "sprintMarkdown")) eqn:Ht; cbn [negb fst snd];
    [| left; reflexivity].
  right. exists payload. repeat split; try assumption.
  destruct (fst (writeSprintFile _ _ _ _ _ _ _)); cbn [fst snd];
    rewrite ?app_nil_r; reflexivity.
Qed.

(** The requests that reach the file system: an authenticated [POST]
    whose body arrived. *)
Lemma createServer_calls (req : IncomingMessage) :
  snd (server req) = [] \/
  exists body,
    method req = "POST" /\ stream req = Ends body /\
    Receiver.authenticate secret (headers req) body = Receiver.Authenticated /\
    snd (server req)
      = snd (process_payload existsSync mkdirSync writeFileSync path_join path_relative now
               JSON_parse projectRoot body).
Proof.
  unfold createServer.
  destruct (String.eqb (method req) "OPTIONS"); [left; reflexivity |].
  destruct (String.eqb_spec (method req) "POST") as [Hm | _]; cbn [negb];
    [| left; reflexivity].
  destruct (stream req) as [body | e]; [| left; reflexivity].
  unfold on_end.
  destruct (Receiver.authenticate secret (headers req) body) eqn:Ha; [left; reflexivity |].
  right. exists body. repeat split; try assumption.
  destruct (fst (process_payload _ _ _ _ _ _ _ _ _)); reflexivity.
Qed.

End ReceiverFacts.

(** X13. The receiver writes nothing but the report of an
    authenticated [POST]: whenever a run of the request listener
    writes a file, the method is [POST], the body arrived, its
    signature verifies under the configured secret, the body parses,
    what is written is the truthy [sprintMarkdown] of the payload, the
    file is [.ai/sprint/<date>-sprint.md] under the project root, and
    it is the only write of the run. *)
Theorem createServer_writes_only_verified_reports
    (existsSync : string -> bool)
    (mkdirSync : string -> JS.Completion unit)
    (writeFileSync : string -> Source.Value -> JS.Completion unit)
    (path_join : list string -> string) (path_relative : string -> string -> string)
    (now : string) (JSON_parse : string -> JS.Completion Source.Value)
    (projectRoot : string) (secret : option string)
    (req : Server.IncomingMessage) (p : string) (d : Source.Value) :
  let calls := snd (Server.createServer existsSync mkdirSync writeFileSync path_join
                      path_relative now JSON_parse projectRoot secret req) in
  In (p, d) (Server.writes calls) ->
  Server.method req = "POST" /\
  exists body payload,
    Server.stream req = Server.Ends body /\
    Receiver.authenticate secret (Server.headers req) body = Receiver.Authenticated /\
    (forall s, secret = Some s -> s <> "" ->
       exists sig, Http.header "x-sprint-pilot-signature" (Server.headers req) = Some sig /\
                   Receiver.verifySignature body sig s = true) /\
    JSON_parse body = JS.Return payload /\
    d = Spec.field payload "sprintMarkdown" /\
    Source.truthy d = true /\
    p = Server.sprint_file path_join projectRoot now /\
    Server.writes calls = [ (p, d) ].
Proof.
  cbv zeta. intros Hin.
  destruct (createServer_calls existsSync mkdirSync writeFileSync path_join path_relative now
              JSON_parse projectRoot secret req) as [Hnil | [body [Hm [Hs [Ha Hc]]]]].
  { rewrite Hnil in Hin. contradiction. }
  rewrite Hc in Hin |- *.
  destruct (process_payload_calls existsSync mkdirSync writeFileSync path_join path_relative
              now JSON_parse projectRoot body) as [Hnil | [payload [Hp [Hn [Ht Hw]]]]].
  { rewrite Hnil in Hin. contradiction. }
  rewrite Hw in Hin |- *.
  destruct (writeSprintFile_writes existsSync mkdirSync writeFileSync path_join now projectRoot
              (Spec.field payload "sprintMarkdown")) as [Hnil | Hone];
    rewrite ?Hnil, ?Hone in Hin |- *; [contradiction |].
  destruct Hin as [Heq | []]. inversion Heq. subst p d.
  split; [exact Hm |]. exists body, payload.
  split; [exact Hs |]. split; [exact Ha |].
  split; [intros s Hsec Hne; apply (authenticate_verified secret _ _ s Hsec Hne Ha) |].
  repeat split; assumption.
Qed.

(** A receiver whose secret is ["s3cret"] and a [POST] that carries
    the signature of its body under that secret: the header verifies,
    and the report is the one file written. *)
Lemma createServer_writes_only_verified_reports_witness :
  let req := Samples.post Samples.signed "full" in
  Server.method req = "POST" /\
  exists body payload,
    Server.stream req = Server.Ends body /\
    Receiver.authenticate (Some "s3cret") (Server.headers req) body
      = Receiver.Authenticated /\
    (forall s, Some "s3cret" = Some s -> s <> "" ->
       exists sig, Http.header "x-sprint-pilot-signature" (Server.headers req) = Some sig /\
                   Receiver.verifySignature body sig s = true) /\
    Samples.parse_ body = JS.Return payload /\
    Source.VString "# Sprint: 2026-02-13" = Spec.field payload "sprintMarkdown" /\
    Source.truthy (Source.VString "# Sprint: 2026-02-13") = true /\
    "/work/.ai/sprint/2026-02-13-sprint.md"
      = Server.sprint_file Samples.posix_join "/work" Samples.clock_ /\
    Server.writes (snd (Samples.receiver (Some "s3cret") req))
      = [ ("/work/.ai/sprint/2026-02-13-sprint.md", Source.VString "# Sprint: 2026-02-13") ].
Proof.
  apply (createServer_writes_only_verified_reports
           Samples.no_directory Samples.mkdir_ok Samples.write_ok Samples.posix_join
           Samples.relative_ Samples.clock_ Samples.parse_ "/work" (Some "s3cret")
           (Samples.post Samples.signed "full")
           "/work/.ai/sprint/2026-02-13-sprint.md" (Source.VString "# Sprint: 2026-02-13")).
  vm_compute. left. reflexivity.
Defined.

Section ReceiverReplies.
Import JS Http Source Spec Server.
Variable existsSync : string -> bool.
Variable mkdirSync : string -> Completion unit.
Variable writeFileSync : string -> Value -> Completion unit.
Variable path_join : list string -> string.
Variable path_relative : string -> string -> string.
Variable now : string.
Variable JSON_parse : string -> Completion Value.
Variable projectRoot : string.
Variable secret : option string.

Local Abbreviation server :=
  (createServer existsSync mkdirSync writeFileSync path_join path_relative now JSON_parse
     projectRoot secret).
Local Abbreviation file := (sprint_file path_join projectRoot now).
Local Abbreviation process :=
  (process_payload existsSync mkdirSync writeFileSync path_join path_relative now
     JSON_parse projectRoot).

Lemma get_returns (v x : Value) (k : string) : get v k = Return x -> x = field v k.
Proof. destruct v; cbn; intros H; inversion H; reflexivity. Qed.

Local Abbreviation after_write :=
  (fun payload => respond_written payload (path_relative projectRoot file)).

(** [process_payload] on a payload with a truthy [sprintMarkdown],
    when the file system lets the file be written. *)
Lemma process_payload_written (body : string) (payload : Value) :
  JSON_parse body = Return payload ->
  truthy (field payload "sprintMarkdown") = true ->
  (existsSync (path_join [ projectRoot; ".ai"; "sprint" ]) = true \/
   mkdirSync (path_join [ projectRoot; ".ai"; "sprint" ]) = Return tt) ->
  writeFileSync file (field payload "sprintMarkdown") = Return tt ->
  fst (process body) = after_write payload /\
  writes (snd (process body)) = [ (file, field payload "sprintMarkdown") ].
Proof.
  intros Hp Ht Hdir Hw.
  assert (Hn : nullish payload = false).
  { destruct payload; try reflexivity; discriminate Ht. }
  destruct (writeSprintFile_calls existsSync mkdirSync writeFileSync path_join now projectRoot
              (field payload "sprintMarkdown")) as [[e [_ [Hex [Hmk _]]]] | [_ [Hs Hf]]].
  { destruct Hdir as [Hd | Hd]; [rewrite Hd in Hex | rewrite Hd in Hmk]; discriminate. }
  rewrite Hw in Hf. cbn [bind] in Hf.
  unfold process_payload, and_then, pure. cbn [fst snd]. rewrite Hp. cbn [fst snd].
  rewrite (get_field payload "sprintMarkdown" Hn). cbn [fst snd app]. rewrite Ht.
  cbn [negb]. rewrite Hf. cbn [fst snd]. rewrite Hs, app_nil_r.
  split; [reflexivity |].
  destruct (existsSync _); reflexivity.
Qed.

(** [process_payload] returns a response in two cases only. *)
Lemma process_payload_returns (body : string) (response : ServerResponse) :
  fst (process body) = Return response ->
  (response = json 400 (error_body "Missing sprintMarkdown in payload") /\
   snd (process body) = []) \/
  exists payload,
    JSON_parse body = Return payload /\
    truthy (field payload "sprintMarkdown") = true /\
    writeFileSync file (field payload "sprintMarkdown") = Return tt /\
    writes (snd (process body)) = [ (file, field payload "sprintMarkdown") ] /\
    after_write payload = Return response.
Proof.
  intros H.
  destruct (JSON_parse body) as [payload | e] eqn:Hp.
  2:{ unfold process_payload, and_then, pure in H. cbn [fst snd] in H. rewrite Hp in H.
      discriminate H. }
  destruct (nullish payload) eqn:Hn.
  { unfold process_payload, and_then, pure in H. cbn [fst snd] in H. rewrite Hp in H.
    destruct payload; discriminate. }
  destruct (truthy (field payload "sprintMarkdown")) eqn:Ht.
  2:{ left. unfold process_payload, and_then, pure in H |- *. cbn [fst snd] in H |- *.
      rewrite Hp in H |- *. cbn [fst snd] in H |- *.
      rewrite (get_field payload "sprintMarkdown" Hn) in H |- *. cbn [fst snd app] in H |- *.
      rewrite Ht in H |- *. cbn [negb fst snd] in H |- *. inversion H. split; reflexivity. }
  right. exists payload.
  destruct (writeSprintFile_calls existsSync mkdirSync writeFileSync path_join now projectRoot
              (field payload "sprintMarkdown")) as [[e [Hf _]] | [Hdir [_ Hf]]].
  { unfold process_payload, and_then, pure in H. cbn [fst snd] in H. rewrite Hp in H.
    cbn [fst snd] in H. rewrite (get_field payload "sprintMarkdown" Hn) in H.
    cbn [fst snd app] in H. rewrite Ht in H. cbn [negb] in H. rewrite Hf in H.
    discriminate H. }
  destruct (writeFileSync file (field payload "sprintMarkdown")) as [[] | e] eqn:Hw.
  2:{ unfold process_payload, and_then, pure in H. cbn [fst snd] in H. rewrite Hp in H.
      cbn [fst snd] in H. rewrite (get_field payload "sprintMarkdown" Hn) in H.
      cbn [fst snd app] in H. rewrite Ht in H. cbn [negb] in H. rewrite Hf in H.
      discriminate H. }
  destruct (process_payload_written body payload Hp Ht Hdir Hw) as [Hfst Hwrites].
  rewrite Hfst in H.
  repeat split; assumption.
Qed.

Lemma after_write_response (payload : Value) (response : ServerResponse) :
  after_write payload = Return response ->
  response = json 200 (VObject [ ("success", VBool true);
                                 ("filepath", VString (path_relative projectRoot file));
                                 ("ticketCount",
                                  field (field payload "metadata") "ticketCount") ]).
Proof.
  unfold respond_written. intros H.
  destruct (get payload "metadata") as [m |] eqn:Hm; cbn [bind] in H; [| discriminate].
  apply get_returns in Hm. subst m.
  destruct (get (field payload "metadata") "ticketCount") as [c |] eqn:Hc; cbn [bind] in H;
    [| discriminate].
  apply get_returns in Hc. subst c.
  destruct (String_ _); cbn [bind] in H; [| discriminate].
  destruct (get (field payload "metadata") "syncTimestamp"); cbn [bind] in H; [| discriminate].
  destruct (String_ _); cbn [bind] in H; [| discriminate].
  inversion H. reflexivity.
Qed.

(** The listener on an authenticated [POST] whose body arrived. *)
Lemma createServer_authenticated (req : IncomingMessage) (body : string) :
  method req = "POST" -> stream req = Ends body ->
  Receiver.authenticate secret (headers req) body = Receiver.Authenticated ->
  server req =
    match fst (process body) with
    | Return response => (response, snd (process body))
    | Throw error =>
        (json 500 (VObject [ ("error", VString "Internal server error");
                             ("message", VString (message error)) ]), snd (process body))
    end.
Proof.
  intros Hm Hs Ha. unfold createServer, on_end. rewrite Hm, Hs, Ha. reflexivity.
Qed.

End ReceiverReplies.

(** X14. What a 200 of the receiver means: the request was the
    [OPTIONS] preflight, answered without a body and without touching
    the file system, or it was a [POST] whose report has just been
    written to the sprint file, the only write of the run, and the
    answer names that file relative to the project root and repeats
    [metadata.ticketCount] of the payload. No other request is answered
    200. *)
Theorem createServer_200_means_written
    (existsSync : string -> bool)
    (mkdirSync : string -> JS.Completion unit)
    (writeFileSync : string -> Source.Value -> JS.Completion unit)
    (path_join : list string -> string) (path_relative : string -> string -> string)
    (now : string) (JSON_parse : string -> JS.Completion Source.Value)
    (projectRoot : string) (secret : option string)
    (req : Server.IncomingMessage) :
  let run := Server.createServer existsSync mkdirSync writeFileSync path_join
               path_relative now JSON_parse projectRoot secret req in
  let file := Server.sprint_file path_join projectRoot now in
  Server.statusCode (fst run) = 200%Z ->
  (Server.method req = "OPTIONS" /\ snd run = [] /\ Server.sent (fst run) = None) \/
  (Server.method req = "POST" /\
   exists body payload,
     Server.stream req = Server.Ends body /\
     Receiver.authenticate secret (Server.headers req) body = Receiver.Authenticated /\
     JSON_parse body = JS.Return payload /\
     writeFileSync file (Spec.field payload "sprintMarkdown") = JS.Return tt /\
     Server.writes (snd run) = [ (file, Spec.field payload "sprintMarkdown") ] /\
     Server.sent (fst run)
       = Some (Source.VObject
                 [ ("success", Source.VBool true);
                   ("filepath", Source.VString (path_relative projectRoot file));
                   ("ticketCount",
                    Spec.field (Spec.field payload "metadata") "ticketCount") ])).
Proof.
  cbv zeta. intros H200.
  destruct (String.eqb_spec (Server.method req) "OPTIONS") as [Ho | Ho].
  { left. unfold Server.createServer. rewrite Ho. repeat split. }
  right.
  destruct (String.eqb_spec (Server.method req) "POST") as [Hm | Hm].
  2:{ exfalso. unfold Server.createServer in H200.
      destruct (String.eqb_spec (Server.method req) "OPTIONS"); [contradiction |].
      destruct (String.eqb_spec (Server.method req) "POST"); [contradiction |].
      discriminate H200. }
  split; [exact Hm |].
  destruct (Server.stream req) as [body | e] eqn:Hs.
  2:{ exfalso. unfold Server.createServer in H200. rewrite Hm, Hs in H200.
      discriminate H200. }
  destruct (Receiver.authenticate secret (Server.headers req) body) as [st err |] eqn:Ha.
  { exfalso. assert (Hst := authenticate_reply _ _ _ _ _ Ha).
    unfold Server.createServer, Server.on_end in H200. rewrite Hm, Hs, Ha in H200.
    cbn in H200. rewrite Hst in H200. discriminate H200. }
  rewrite (createServer_authenticated existsSync mkdirSync writeFileSync path_join
             path_relative now JSON_parse projectRoot secret req body Hm Hs Ha) in H200 |- *.
  destruct (fst (Server.process_payload _ _ _ _ _ _ _ _ body)) as [response | error] eqn:Hr;
    [| discriminate H200].
  cbn [fst snd] in H200 |- *.
  destruct (process_payload_returns _ _ _ _ _ _ _ _ _ _ Hr)
    as [[-> _] | [payload [Hp [Ht [Hw [Hwr Haw]]]]]]; [discriminate H200 |].
  exists body, payload.
  rewrite (after_write_response _ _ _ _ _ _ Haw).
  repeat split; assumption.
Qed.

(** The 200 that a receiver whose secret is ["s3cret"] gives to a
    [POST] signed under that secret: the request passed the check of
    its signature and its report was written. *)
Lemma createServer_200_means_written_witness :
  let req := Samples.post Samples.signed "full" in
  let run := Samples.receiver (Some "s3cret") req in
  let file := Server.sprint_file Samples.posix_join "/work" Samples.clock_ in
  (Server.method req = "OPTIONS" /\ snd run = [] /\ Server.sent (fst run) = None) \/
  (Server.method req = "POST" /\
   exists body payload,
     Server.stream req = Server.Ends body /\
     Receiver.authenticate (Some "s3cret") (Server.headers req) body
       = Receiver.Authenticated /\
     Samples.parse_ body = JS.Return payload /\
     Samples.write_ok file (Spec.field payload "sprintMarkdown") = JS.Return tt /\
     Server.writes (snd run) = [ (file, Spec.field payload "sprintMarkdown") ] /\
     Server.sent (fst run)
       = Some (Source.VObject
                 [ ("success", Source.VBool true);
                   ("filepath", Source.VString (Samples.relative_ "/work" file));
                   ("ticketCount",
                    Spec.field (Spec.field payload "metadata") "ticketCount") ])).
Proof.
  apply (createServer_200_means_written
           Samples.no_directory Samples.mkdir_ok Samples.write_ok Samples.posix_join
           Samples.relative_ Samples.clock_ Samples.parse_ "/work" (Some "s3cret")
           (Samples.post Samples.signed "full")).
  vm_compute. reflexivity.
Defined.

(** X15. An answer 500 does not mean that nothing was written. A
    payload with a truthy [sprintMarkdown] and no [metadata] is written
    to the sprint file first; the read of [metadata.ticketCount] for
    the log line then throws, and the request is answered 500 with the
    message of that error. *)
Theorem createServer_written_then_500
    (existsSync : string -> bool)
    (mkdirSync : string -> JS.Completion unit)
    (writeFileSync : string -> Source.Value -> JS.Completion unit)
    (path_join : list string -> string) (path_relative : string -> string -> string)
    (now : string) (JSON_parse : string -> JS.Completion Source.Value)
    (projectRoot : string) (secret : option string)
    (req : Server.IncomingMessage) (body : string) (payload : Source.Value) :
  let run := Server.createServer existsSync mkdirSync writeFileSync path_join
               path_relative now JSON_parse projectRoot secret req in
  let file := Server.sprint_file path_join projectRoot now in
  Server.method req = "POST" -> Server.stream req = Server.Ends body ->
  Receiver.authenticate secret (Server.headers req) body = Receiver.Authenticated ->
  JSON_parse body = JS.Return payload ->
  Source.truthy (Spec.field payload "sprintMarkdown") = true ->
  Spec.field payload "metadata" = Source.VUndefined ->
  (existsSync (path_join [ projectRoot; ".ai"; "sprint" ]) = true \/
   mkdirSync (path_join [ projectRoot; ".ai"; "sprint" ]) = JS.Return tt) ->
  writeFileSync file (Spec.field payload "sprintMarkdown") = JS.Return tt ->
  Server.writes (snd run) = [ (file, Spec.field payload "sprintMarkdown") ] /\
  fst run = Server.json 500
              (Source.VObject
                 [ ("error", Source.VString "Internal server error");
                   ("message",
                    Source.VString
                      "Cannot read properties of undefined (reading 'ticketCount')") ]).
Proof.
  cbv zeta. intros Hm Hs Ha Hp Ht Hmeta Hdir Hw.
  rewrite (createServer_authenticated existsSync mkdirSync writeFileSync path_join
             path_relative now JSON_parse projectRoot secret req body Hm Hs Ha).
  destruct (process_payload_written existsSync mkdirSync writeFileSync path_join
              path_relative now JSON_parse projectRoot body payload Hp Ht Hdir Hw)
    as [Hfst Hwrites].
  rewrite Hfst. unfold Server.respond_written.
  assert (Hn : Spec.nullish payload = false).
  { destruct payload; try reflexivity; discriminate Ht. }
  rewrite (get_field payload "metadata" Hn), Hmeta. cbn [JS.bind Source.get].
  cbn [fst snd]. split; [exact Hwrites | reflexivity].
Qed.

Lemma createServer_written_then_500_witness :
  Server.writes (snd (Samples.receiver None (Samples.post [] "bare")))
    = [ (Server.sprint_file Samples.posix_join "/work" Samples.clock_,
         Spec.field Samples.payload_bare "sprintMarkdown") ] /\
  fst (Samples.receiver None (Samples.post [] "bare"))
    = Server.json 500
        (Source.VObject
           [ ("error", Source.VString "Internal server error");
             ("message",
              Source.VString "Cannot read properties of undefined (reading 'ticketCount')") ]).
Proof.
  apply (createServer_written_then_500
           Samples.no_directory Samples.mkdir_ok Samples.write_ok Samples.posix_join
           Samples.relative_ Samples.clock_ Samples.parse_ "/work" None
           (Samples.post [] "bare") "bare" Samples.payload_bare);
    try reflexivity.
  right. reflexivity.
Defined.

Section ReceiverStatuses.
Import JS Http Source Spec Server.


End ReceiverStatuses.


(* ===================================================================== *)
(** ** A delivery that reaches the receiver *)
(* ===================================================================== *)

Section DeliveryToReceiver.
Import JS Http Source Spec Server.
Context {Payload : Type}.
Variable show : Payload -> string.
Variable existsSync : string -> bool.
Variable mkdirSync : string -> Completion unit.
Variable writeFileSync : string -> Value -> Completion unit.
Variable path_join : list string -> string.
Variable path_relative : string -> string -> string.
Variable now : string.
Variable JSON_parse : string -> Completion Value.
Variable projectRoot : string.
Variable statusText : Z -> string.
Variable JSON_stringify : Value -> string.
Variable webhookUrl : string.
Variable payload : Payload.
Variable transport : Wire.Transport.

Local Abbreviation listener secret :=
  (createServer existsSync mkdirSync writeFileSync path_join path_relative now JSON_parse
     projectRoot secret).
Local Abbreviation request_ sender := (Delivery.request show webhookUrl payload sender).

Lemma string_app_nil (s : string) : s ++ "" = s.
Proof. induction s as [| c r IH]; cbn [append]; [reflexivity | now rewrite IH]. Qed.

Lemma string_app_assoc (a b c : string) : (a ++ b) ++ c = a ++ b ++ c.
Proof. induction a as [| x r IH]; cbn [append]; [reflexivity | now rewrite IH]. Qed.

(** Chunks that decode to themselves are put together as they are. *)
Lemma accumulate_from (toString : string -> string) (chunks : list string) (body : string) :
  Forall (fun chunk => toString chunk = chunk) chunks ->
  fold_left (fun body chunk => body ++ toString chunk) chunks body
  = body ++ String.concat "" chunks.
Proof.
  intros Hc. revert body. induction Hc as [| c r Hc Hr IH]; intros body; cbn [fold_left].
  - cbn [String.concat]. rewrite string_app_nil. reflexivity.
  - rewrite IH, Hc, string_app_assoc. f_equal.
    destruct r as [| c' r']; [cbn [String.concat]; apply string_app_nil | reflexivity].
Qed.

Lemma received_intact (body : string) :
  Wire.intact transport body -> Wire.received transport body = body.
Proof.
  intros [Hbody Hchunks]. unfold Wire.received, accumulate.
  rewrite (accumulate_from _ _ "" Hchunks). exact Hbody.
Qed.

(** The header that the receiver reads in the request of a delivery is
    the signature of the sender, if it made one. *)
Lemma delivered_signature (sender : option string) :
  header "x-sprint-pilot-signature" (req_headers (request_ sender))
  = Delivery.signature show payload sender.
Proof.
  unfold Delivery.request, Delivery.headers. cbn [req_headers].
  destruct (Delivery.signature show payload sender); reflexivity.
Qed.

Lemma delivered_incoming (sender : option string) :
  Wire.incoming transport (request_ sender)
  = mkIncoming "POST" (req_headers (request_ sender))
      (Ends (Wire.received transport (show payload))).
Proof. reflexivity. Qed.

(** A receiver with a secret answers 401 to a delivery whose signature
    is not the one it computes for the body it received, and calls
    nothing. *)
Lemma listener_rejects (s : string) (sender : option string) :
  s <> "" ->
  Delivery.signature show payload sender
    <> Some ("sha256="
               ++ Crypto.createHmac_sha256_hex s (Wire.received transport (show payload))) ->
  statusCode (fst (listener (Some s) (Wire.incoming transport (request_ sender)))) = 401%Z /\
  snd (listener (Some s) (Wire.incoming transport (request_ sender))) = [].
Proof.
  intros Hs Hsig. rewrite delivered_incoming.
  unfold createServer, on_end, Receiver.authenticate. cbn [method stream headers].
  change (String.eqb "POST" "OPTIONS") with false.
  change (String.eqb "POST" "POST") with true. cbn [negb].
  rewrite delivered_signature.
  destruct (String.eqb_spec s "") as [He | _]; [contradiction |].
  destruct (Delivery.signature show payload sender) as [sig |]; [| split; reflexivity].
  destruct (String.eqb sig ""); [split; reflexivity |].
  destruct (Receiver.verifySignature (Wire.received transport (show payload)) sig s) eqn:Hv;
    [| split; reflexivity].
  exfalso. apply Hsig. f_equal. apply verifySignature_iff. exact Hv.
Qed.

End DeliveryToReceiver.

(** X16. A delivery to a receiver whose secret is not the sender's is
    never taken: when the signature that [deliverWebhook] attaches (or
    its absence) is not the one the receiver computes for the body it
    received, each of the 3 attempts is answered 401, the receiver
    calls the file system in none of them, and the delivery ends after
    3 requests and 3 seconds of pauses with the error of the last
    answer. This holds however the transport cuts and decodes the body. *)
Theorem deliverWebhook_rejected_by_receiver {Payload : Type}
    (show : Payload -> string)
    (existsSync : string -> bool)
    (mkdirSync : string -> JS.Completion unit)
    (writeFileSync : string -> Source.Value -> JS.Completion unit)
    (path_join : list string -> string) (path_relative : string -> string -> string)
    (now : string) (JSON_parse : string -> JS.Completion Source.Value)
    (projectRoot : string) (statusText : Z -> string)
    (JSON_stringify : Source.Value -> string)
    (webhookUrl : string) (payload : Payload) (sender : option string) (s : string)
    (transport : Wire.Transport) :
  let listener := Server.createServer existsSync mkdirSync writeFileSync path_join
                    path_relative now JSON_parse projectRoot (Some s) in
  let r := Delivery.request show webhookUrl payload sender in
  s <> "" ->
  Delivery.signature show payload sender
    <> Some ("sha256="
               ++ Crypto.createHmac_sha256_hex s
                    (Wire.received transport (show payload)))%string ->
  Delivery.deliverWebhook show (Wire.destination transport listener statusText JSON_stringify)
    webhookUrl payload sender Delivery.default_retries
  = (JS.Throw (JS.new_Error ("Webhook delivery failed: 401 " ++ statusText 401%Z)),
     [ Delivery.Post 0 r; Delivery.Sleep 1000; Delivery.Post 1 r; Delivery.Sleep 2000;
       Delivery.Post 2 r ]) /\
  snd (listener (Wire.incoming transport r)) = [].
Proof.
  cbv zeta. intros Hs Hsig.
  destruct (listener_rejects show existsSync mkdirSync writeFileSync path_join path_relative
              now JSON_parse projectRoot webhookUrl payload transport s sender Hs Hsig)
    as [H401 Hcalls].
  split; [| exact Hcalls].
  rewrite deliverWebhook_exhausted.
  - unfold Wire.destination, Wire.response_of, Spec.error_of. cbn [Http.resp_status
      Http.resp_statusText]. rewrite H401. reflexivity.
  - unfold Delivery.default_retries. lia.
  - intros j _. unfold Wire.destination, Wire.response_of, Spec.accepted, Http.ok.
    cbn [Http.resp_status]. rewrite H401. reflexivity.
Qed.

Lemma deliverWebhook_rejected_by_receiver_witness :
  Delivery.deliverWebhook (fun _ : unit => "full")
    (Wire.destination Samples.whole (Samples.receiver (Some "s3cret"))
       (fun _ => "Unauthorized") (fun _ => "{}"))
    "http://localhost:3001" tt None Delivery.default_retries
  = (JS.Throw (JS.new_Error "Webhook delivery failed: 401 Unauthorized"),
     [ Delivery.Post 0 (Delivery.request (fun _ : unit => "full") "http://localhost:3001" tt None);
       Delivery.Sleep 1000;
       Delivery.Post 1 (Delivery.request (fun _ : unit => "full") "http://localhost:3001" tt None);
       Delivery.Sleep 2000;
       Delivery.Post 2 (Delivery.request (fun _ : unit => "full") "http://localhost:3001" tt None)
     ]) /\
  snd (Samples.receiver (Some "s3cret")
         (Wire.incoming Samples.whole
            (Delivery.request (fun _ : unit => "full") "http://localhost:3001" tt None))) = [].
Proof.
  apply (deliverWebhook_rejected_by_receiver (fun _ : unit => "full")
           Samples.no_directory Samples.mkdir_ok Samples.write_ok Samples.posix_join
           Samples.relative_ Samples.clock_ Samples.parse_ "/work"
           (fun _ => "Unauthorized") (fun _ => "{}") "http://localhost:3001" tt None "s3cret"
           Samples.whole).
  - discriminate.
  - discriminate.
Defined.

(** X17. A delivery signed with the secret of the receiver, whose body
    arrives intact, is taken at the first attempt: when the chunks of
    the body make it up and each decodes to itself, the body parses to
    a payload with a truthy [sprintMarkdown] and a [metadata] holding a
    numeric [ticketCount] and a string [syncTimestamp], and the file
    system lets the file be written, the receiver writes that
    [sprintMarkdown] to the sprint file and answers 200, and
    [deliverWebhook] returns after one request, without a pause. *)
Theorem deliverWebhook_taken_by_receiver {Payload : Type}
    (show : Payload -> string)
    (existsSync : string -> bool)
    (mkdirSync : string -> JS.Completion unit)
    (writeFileSync : string -> Source.Value -> JS.Completion unit)
    (path_join : list string -> string) (path_relative : string -> string -> string)
    (now : string) (JSON_parse : string -> JS.Completion Source.Value)
    (projectRoot : string) (statusText : Z -> string)
    (JSON_stringify : Source.Value -> string)
    (webhookUrl : string) (payload : Payload) (s : string)
    (transport : Wire.Transport)
    (parsed : Source.Value) (m : list (string * Source.Value)) (n : Z) (ts : string) :
  let listener := Server.createServer existsSync mkdirSync writeFileSync path_join
                    path_relative now JSON_parse projectRoot (Some s) in
  let r := Delivery.request show webhookUrl payload (Some s) in
  let file := Server.sprint_file path_join projectRoot now in
  s <> "" ->
  Wire.intact transport (show payload) ->
  JSON_parse (show payload) = JS.Return parsed ->
  Source.truthy (Spec.field parsed "sprintMarkdown") = true ->
  Spec.field parsed "metadata" = Source.VObject m ->
  Spec.field (Source.VObject m) "ticketCount" = Source.VNumber n ->
  Spec.field (Source.VObject m) "syncTimestamp" = Source.VString ts ->
  (existsSync (path_join [ projectRoot; ".ai"; "sprint" ]) = true \/
   mkdirSync (path_join [ projectRoot; ".ai"; "sprint" ]) = JS.Return tt) ->
  writeFileSync file (Spec.field parsed "sprintMarkdown") = JS.Return tt ->
  Delivery.deliverWebhook show (Wire.destination transport listener statusText JSON_stringify)
    webhookUrl payload (Some s) Delivery.default_retries
  = (JS.Return tt, [ Delivery.Post 0 r ]) /\
  Server.statusCode (fst (listener (Wire.incoming transport r))) = 200%Z /\
  Server.writes (snd (listener (Wire.incoming transport r)))
  = [ (file, Spec.field parsed "sprintMarkdown") ].
Proof.
  cbv zeta. intros Hs Hintact Hp Ht Hmeta Hcount Htime Hdir Hw.
  assert (Hn : Spec.nullish parsed = false).
  { destruct parsed; try reflexivity; discriminate Ht. }
  assert (Ha : Receiver.authenticate (Some s)
                 (Http.req_headers (Delivery.request show webhookUrl payload (Some s)))
                 (show payload) = Receiver.Authenticated).
  { unfold Receiver.authenticate. rewrite (signature_header show webhookUrl payload s Hs).
    destruct (String.eqb_spec s "") as [He | _]; [contradiction |].
    change (String.eqb ("sha256=" ++ Crypto.createHmac_sha256_hex s (show payload)) "")
      with false. cbv iota.
    unfold Receiver.verifySignature. rewrite String.eqb_refl. reflexivity. }
  assert (Hin : Wire.incoming transport (Delivery.request show webhookUrl payload (Some s))
                = Server.mkIncoming "POST"
                    (Http.req_headers (Delivery.request show webhookUrl payload (Some s)))
                    (Server.Ends (show payload))).
  { rewrite delivered_incoming, (received_intact transport _ Hintact). reflexivity. }
  assert (Hrun : Server.createServer existsSync mkdirSync writeFileSync path_join
                   path_relative now JSON_parse projectRoot (Some s)
                   (Wire.incoming transport
                      (Delivery.request show webhookUrl payload (Some s)))
                 = (Server.json 200
                      (Source.VObject
                         [ ("success", Source.VBool true);
                           ("filepath",
                            Source.VString
                              (path_relative projectRoot
                                 (Server.sprint_file path_join projectRoot now)));
                           ("ticketCount", Source.VNumber n) ]),
                    snd (Server.process_payload existsSync mkdirSync writeFileSync path_join
                           path_relative now JSON_parse projectRoot (show payload)))).
  { rewrite Hin.
    rewrite (createServer_authenticated existsSync mkdirSync writeFileSync path_join
               path_relative now JSON_parse projectRoot (Some s)
               (Server.mkIncoming "POST"
                  (Http.req_headers (Delivery.request show webhookUrl payload (Some s)))
                  (Server.Ends (show payload)))
               (show payload) eq_refl eq_refl Ha).
    destruct (process_payload_written existsSync mkdirSync writeFileSync path_join
                path_relative now JSON_parse projectRoot _ _ Hp Ht Hdir Hw) as [Hfst _].
    rewrite Hfst. unfold Server.respond_written.
    rewrite (get_field parsed "metadata" Hn), Hmeta. cbn [JS.bind].
    rewrite !(get_field (Source.VObject m)) by reflexivity. cbn [JS.bind].
    rewrite Hcount, Htime. reflexivity. }
  split; [| split].
  - rewrite (deliverWebhook_accepted show _ webhookUrl payload (Some s) _ 0).
    + reflexivity.
    + unfold Delivery.default_retries. lia.
    + intros j Hj. lia.
    + unfold Wire.destination, Wire.response_of, Spec.accepted. rewrite Hrun. reflexivity.
  - rewrite Hrun. reflexivity.
  - rewrite Hrun. cbn [snd].
    apply (process_payload_written existsSync mkdirSync writeFileSync path_join
             path_relative now JSON_parse projectRoot _ _ Hp Ht Hdir Hw).
Qed.

(** The body ["full"] sent in two chunks, ["fu"] and ["ll"]. *)
Lemma deliverWebhook_taken_by_receiver_witness :
  Wire.chunks_of Samples.halves "full" = [ "fu"; "ll" ] /\
  Delivery.deliverWebhook (fun _ : unit => "full")
    (Wire.destination Samples.halves (Samples.receiver (Some "s3cret")) (fun _ => "OK")
       (fun _ => "{}"))
    "http://localhost:3001" tt (Some "s3cret") Delivery.default_retries
  = (JS.Return tt,
     [ Delivery.Post 0 (Delivery.request (fun _ : unit => "full") "http://localhost:3001" tt
                          (Some "s3cret")) ]) /\
  Server.statusCode
    (fst (Samples.receiver (Some "s3cret")
            (Wire.incoming Samples.halves
               (Delivery.request (fun _ : unit => "full")
                  "http://localhost:3001" tt (Some "s3cret"))))) = 200%Z /\
  Server.writes
    (snd (Samples.receiver (Some "s3cret")
            (Wire.incoming Samples.halves
               (Delivery.request (fun _ : unit => "full")
                  "http://localhost:3001" tt (Some "s3cret")))))
  = [ (Server.sprint_file Samples.posix_join "/work" Samples.clock_,
       Spec.field Samples.payload_ "sprintMarkdown") ].
Proof.
  split; [reflexivity |].
  apply (deliverWebhook_taken_by_receiver (fun _ : unit => "full")
           Samples.no_directory Samples.mkdir_ok Samples.write_ok Samples.posix_join
           Samples.relative_ Samples.clock_ Samples.parse_ "/work"
           (fun _ => "OK") (fun _ => "{}") "http://localhost:3001" tt "s3cret"
           Samples.halves Samples.payload_
           [ ("syncTimestamp", Source.VString "2026-02-13T09:30:00.000Z");
             ("ticketCount", Source.VNumber 2);
             ("listId", Source.VString "901") ] 2 "2026-02-13T09:30:00.000Z");
    try reflexivity.
  - discriminate.
  - split; [reflexivity | repeat constructor].
  - right. reflexivity.
Defined.

(** The condition on the chunks is needed. A body that ends in a
    character of two bytes, cut between the two: the receiver puts
    together another text than the one that was signed, and answers
    401 to each attempt of a delivery signed with its own secret. *)
Example deliverWebhook_split_character :
  let r := Delivery.request (fun _ : unit => Samples.cafe) "http://localhost:3001" tt
             (Some "s3cret") in
  Wire.received Samples.split_character Samples.cafe
    = "caf" ++ Samples.replacement ++ Samples.replacement /\
  Samples.receiver (Some "s3cret") (Wire.incoming Samples.split_character r)
    = (Server.json 401 (Server.error_body "Invalid signature"), []) /\
  Delivery.deliverWebhook (fun _ : unit => Samples.cafe)
    (Wire.destination Samples.split_character (Samples.receiver (Some "s3cret"))
       DashboardSamples.reason (fun _ => "{}"))
    "http://localhost:3001" tt (Some "s3cret") Delivery.default_retries
  = (JS.Throw (JS.new_Error "Webhook delivery failed: 401 Unauthorized"),
     [ Delivery.Post 0 r; Delivery.Sleep 1000; Delivery.Post 1 r; Delivery.Sleep 2000;
       Delivery.Post 2 r ]).
Proof. cbv zeta. repeat split; vm_compute; reflexivity. Qed.

(* ===================================================================== *)
(** ** The dashboard *)
(* ===================================================================== *)

Section DashboardFacts.
Import JS Http Source Dashboard.

(** The last 50 of a list, latest first, are the first 50 of the
    list read backwards. *)
Lemma rev_slice_last {A} (n : nat) (l : list A) : rev (slice_last n l) = firstn n (rev l).
Proof. unfold slice_last. symmetry. apply firstn_rev. Qed.

End DashboardFacts.

(** X18. The job endpoints of the dashboard. Over any store,
    [GET /api/jobs] answers 200 with at most 50 jobs, the first 50 of
    the store read from its end, and [GET /api/jobs/<rest>] answers
    the first job of the store whose id is what follows the last slash
    of the path, or 404. The store of the program is never written to,
    so its handler lists no job and knows no id: the first answers an
    empty list and the second 404, for every path under [/api/jobs/].
    Neither sends a request. *)
Theorem dashboard_job_endpoints
    (readFileSync : string -> JS.Completion string) (path_join : list string -> string)
    (cwd now : string) (JSON_stringify : Source.Value -> string)
    (destination : Http.Request -> Http.FetchOutcome)
    (store : list Dashboard.JobRecord) (body : Source.Value) (rest : string) :
  let over := Dashboard.handler_over readFileSync path_join cwd now JSON_stringify destination in
  let handler := Dashboard.handler readFileSync path_join cwd now JSON_stringify destination in
  let list_jobs := Dashboard.mkVercelRequest (JS.Return "/api/jobs") "GET" body in
  let get_job := Dashboard.mkVercelRequest (JS.Return ("/api/jobs/" ++ rest)) "GET" body in
  over store list_jobs
    = (JS.Return (Dashboard.json 200
         (Source.VObject [ ("jobs", Source.VArray
            (map Dashboard.job_value (firstn 50 (rev store)))) ])), []) /\
  handler list_jobs
    = (JS.Return (Dashboard.json 200 (Source.VObject [ ("jobs", Source.VArray []) ])), []) /\
  over store get_job
    = (JS.Return
         match find (fun j => String.eqb (Dashboard.job_id j) (Dashboard.last_segment rest))
                 store with
         | Some job => Dashboard.json 200 (Dashboard.job_value job)
         | None => Dashboard.json 404
                     (Source.VObject [ ("error", Source.VString "Job not found") ])
         end, []) /\
  handler get_job
    = (JS.Return (Dashboard.json 404
         (Source.VObject [ ("error", Source.VString "Job not found") ])), []).
Proof.
  cbv zeta. unfold Dashboard.handler, Dashboard.handler_over.
  cbn [Dashboard.pathname Dashboard.method String.append String.eqb Ascii.eqb Bool.eqb
       orb andb JS.startsWith].
  rewrite rev_slice_last.
  change (Dashboard.last_segment ("/api/jobs/" ++ rest)) with (Dashboard.last_segment rest).
  repeat split.
Qed.

(** X19. The webhook test of the dashboard never answers an error
    status for a failed test: whatever the body of the request and
    whatever the peer does, [POST /api/test-webhook] answers 200 or
    400, and 400 only without having sent anything. It sends at most
    one request, a [POST] of the fixed test payload to the string of
    [webhookUrl], and that request carries no signature. *)
Theorem dashboard_test_webhook_answers
    (readFileSync : string -> JS.Completion string) (path_join : list string -> string)
    (cwd now : string) (JSON_stringify : Source.Value -> string)
    (destination : Http.Request -> Http.FetchOutcome)
    (req : Dashboard.VercelRequest) :
  let run := Dashboard.handler readFileSync path_join cwd now JSON_stringify destination req in
  Dashboard.pathname req = JS.Return "/api/test-webhook" ->
  Dashboard.method req = "POST" ->
  exists response,
    fst run = JS.Return response /\
    (Dashboard.status response = 200%Z \/
     Dashboard.status response = 400%Z /\ snd run = []) /\
    (snd run = [] \/
     exists webhookUrl url,
       Dashboard.destructure_webhookUrl (Dashboard.body req) = JS.Return webhookUrl /\
       Source.String_ webhookUrl = JS.Return url /\
       snd run = [ Dashboard.test_request now JSON_stringify url ] /\
       Http.header "x-sprint-pilot-signature"
         (Http.req_headers (Dashboard.test_request now JSON_stringify url)) = None).
Proof.
  cbv zeta. intros Hp Hm. unfold Dashboard.handler, Dashboard.handler_over.
  rewrite Hp, Hm. cbn [String.eqb Ascii.eqb Bool.eqb orb andb JS.startsWith].
  unfold Dashboard.test_webhook.
  destruct (Dashboard.destructure_webhookUrl (Dashboard.body req)) as [webhookUrl | e] eqn:Hd.
  2:{ eexists. split; [reflexivity |]. split; left; reflexivity. }
  destruct (Source.truthy webhookUrl); cbn [negb].
  2:{ eexists. split; [reflexivity |]. split; [right; split; reflexivity | left; reflexivity]. }
  destruct (Source.String_ webhookUrl) as [url | e] eqn:Hurl.
  2:{ eexists. split; [reflexivity |]. split; left; reflexivity. }
  eexists. split; [reflexivity |]. cbn [fst snd]. split.
  - left. destruct (destination _) as [response | e]; [destruct (Http.ok response) |];
      reflexivity.
  - right. exists webhookUrl, url.
    split; [reflexivity |]. split; [exact Hurl |]. split; reflexivity.
Qed.

Lemma dashboard_test_webhook_answers_witness :
  exists response,
    fst (DashboardSamples.dashboard None (DashboardSamples.test_ DashboardSamples.body_))
      = JS.Return response /\
    (Dashboard.status response = 200%Z \/
     Dashboard.status response = 400%Z /\
     snd (DashboardSamples.dashboard None (DashboardSamples.test_ DashboardSamples.body_)) = []) /\
    (snd (DashboardSamples.dashboard None (DashboardSamples.test_ DashboardSamples.body_)) = [] \/
     exists webhookUrl url,
       Dashboard.destructure_webhookUrl DashboardSamples.body_ = JS.Return webhookUrl /\
       Source.String_ webhookUrl = JS.Return url /\
       snd (DashboardSamples.dashboard None (DashboardSamples.test_ DashboardSamples.body_))
         = [ Dashboard.test_request Samples.clock_ DashboardSamples.show_ url ] /\
       Http.header "x-sprint-pilot-signature"
         (Http.req_headers (Dashboard.test_request Samples.clock_ DashboardSamples.show_ url))
         = None).
Proof.
  apply (dashboard_test_webhook_answers DashboardSamples.no_file Samples.posix_join "/srv"
           Samples.clock_ DashboardSamples.show_
           (Wire.destination Samples.whole (Samples.receiver None) DashboardSamples.reason
              DashboardSamples.show_ 0)
           (DashboardSamples.test_ DashboardSamples.body_));
    reflexivity.
Defined.

(** X20. The webhook test cannot pass against a receiver that checks
    signatures. The test request is unsigned, so a receiver started
    with a non-empty secret answers it 401 without parsing or writing
    anything, and the dashboard reports the failure, with status 200
    and the message [Webhook returned 401: ...]. Against a receiver
    without a secret the same request is authenticated. *)
Theorem dashboard_test_fails_against_secret
    (readFileSync : string -> JS.Completion string) (path_join : list string -> string)
    (cwd now : string) (JSON_stringify : Source.Value -> string)
    (existsSync : string -> bool)
    (mkdirSync : string -> JS.Completion unit)
    (writeFileSync : string -> Source.Value -> JS.Completion unit)
    (receiver_join : list string -> string) (path_relative : string -> string -> string)
    (receiver_now : string) (JSON_parse : string -> JS.Completion Source.Value)
    (projectRoot : string) (statusText : Z -> string)
    (s : string) (req : Dashboard.VercelRequest) (webhookUrl : Source.Value) (url : string)
    (transport : Wire.Transport) :
  let listener secret := Server.createServer existsSync mkdirSync writeFileSync receiver_join
                           path_relative receiver_now JSON_parse projectRoot secret in
  let dashboard secret :=
    Dashboard.handler readFileSync path_join cwd now JSON_stringify
      (Wire.destination transport (listener secret) statusText JSON_stringify 0) in
  let r := Dashboard.test_request now JSON_stringify url in
  s <> "" ->
  Dashboard.pathname req = JS.Return "/api/test-webhook" ->
  Dashboard.method req = "POST" ->
  Dashboard.destructure_webhookUrl (Dashboard.body req) = JS.Return webhookUrl ->
  Source.truthy webhookUrl = true ->
  Source.String_ webhookUrl = JS.Return url ->
  dashboard (Some s) req
    = (JS.Return (Dashboard.json 200
         (Dashboard.test_result false ("Webhook returned 401: " ++ statusText 401%Z))), [ r ]) /\
  listener (Some s) (Wire.incoming transport r)
    = (Server.json 401 (Server.error_body "Missing signature header"), []) /\
  Receiver.authenticate None (Http.req_headers r) (JSON_stringify (Dashboard.testPayload now))
    = Receiver.Authenticated.
Proof.
  cbv zeta. intros Hs Hp Hm Hd Ht Hu.
  assert (Hl : Server.createServer existsSync mkdirSync writeFileSync receiver_join
                 path_relative receiver_now JSON_parse projectRoot (Some s)
                 (Wire.incoming transport (Dashboard.test_request now JSON_stringify url))
               = (Server.json 401 (Server.error_body "Missing signature header"), [])).
  { unfold Server.createServer, Server.on_end, Receiver.authenticate, Wire.incoming.
    cbn [Server.method Server.stream Server.headers Dashboard.test_request Http.req_method
         Http.req_headers Http.req_body].
    change (String.eqb "POST" "OPTIONS") with false.
    change (String.eqb "POST" "POST") with true. cbn [negb].
    destruct (String.eqb_spec s "") as [He | _]; [contradiction |]. reflexivity. }
  split; [| split; [exact Hl | reflexivity]].
  unfold Dashboard.handler, Dashboard.handler_over. rewrite Hp, Hm.
  cbn [String.eqb Ascii.eqb Bool.eqb orb andb JS.startsWith].
  unfold Dashboard.test_webhook. rewrite Hd, Ht, Hu. cbn [negb].
  unfold Wire.destination. rewrite Hl. reflexivity.
Qed.

Lemma dashboard_test_fails_against_secret_witness :
  DashboardSamples.dashboard (Some "s3cret") (DashboardSamples.test_ DashboardSamples.body_)
    = (JS.Return (Dashboard.json 200
         (Dashboard.test_result false ("Webhook returned 401: " ++ "Unauthorized"))),
       [ Dashboard.test_request Samples.clock_ DashboardSamples.show_ "http://localhost:3001" ]) /\
  Samples.receiver (Some "s3cret")
    (Wire.incoming Samples.whole
       (Dashboard.test_request Samples.clock_ DashboardSamples.show_ "http://localhost:3001"))
    = (Server.json 401 (Server.error_body "Missing signature header"), []) /\
  Receiver.authenticate None
    (Http.req_headers (Dashboard.test_request Samples.clock_ DashboardSamples.show_
                         "http://localhost:3001"))
    (DashboardSamples.show_ (Dashboard.testPayload Samples.clock_))
    = Receiver.Authenticated.
Proof.
  apply (dashboard_test_fails_against_secret DashboardSamples.no_file Samples.posix_join "/srv"
           Samples.clock_ DashboardSamples.show_
           Samples.no_directory Samples.mkdir_ok Samples.write_ok Samples.posix_join
           Samples.relative_ Samples.clock_ Samples.parse_ "/work" DashboardSamples.reason
           "s3cret" (DashboardSamples.test_ DashboardSamples.body_)
           (Source.VString "http://localhost:3001") "http://localhost:3001" Samples.whole);
    try reflexivity.
  discriminate.
Defined.

(* ===================================================================== *)
(** ** The codebase scanner: route paths *)
(* ===================================================================== *)

Section RoutePaths.
Import JS Scanner.

Lemma collapse_slashes_head (s : string) :
  startsWith "/" (collapse_slashes s) = startsWith "/" s.
Proof.
  induction s as [| c r IH]; [reflexivity |].
  cbn [collapse_slashes]. destruct (Ascii.eqb c "/") eqn:Hc.
  - apply Ascii.eqb_eq in Hc. subst c.
    destruct r as [| c' r']; [reflexivity |].
    destruct (Ascii.eqb c' "/") eqn:Hc'; [| reflexivity].
    rewrite IH. apply Ascii.eqb_eq in Hc'. subst c'. reflexivity.
  - cbn [startsWith]. rewrite Ascii.eqb_sym, Hc. reflexivity.
Qed.

Lemma collapse_slashes_single (s : string) : has_double_slash (collapse_slashes s) = false.
Proof.
  induction s as [| c r IH]; [reflexivity |].
  cbn [collapse_slashes]. destruct (Ascii.eqb c "/") eqn:Hc.
  - destruct r as [| c' r']; [rewrite (proj1 (Ascii.eqb_eq _ _) Hc); reflexivity |].
    destruct (Ascii.eqb c' "/") eqn:Hc'; [exact IH |].
    cbn [has_double_slash]. rewrite IH, collapse_slashes_head.
    cbn [startsWith]. rewrite (Ascii.eqb_sym "/"%char c'), Hc'.
    cbn [andb]. rewrite andb_false_r. reflexivity.
  - cbn [has_double_slash]. rewrite Hc, IH. reflexivity.
Qed.

Lemma endsWith_slash_app (t : string) : endsWith "/" t = true -> exists u, t = u ++ "/".
Proof.
  induction t as [| c r IH]; [discriminate |].
  cbn [endsWith]. intros H. apply orb_prop in H. destruct H as [H | H].
  - apply String.eqb_eq in H. exists "". symmetry. exact H.
  - destruct (IH H) as [u ->]. exists (String c u). reflexivity.
Qed.

Lemma drop_last_app (u : string) (c : ascii) : drop_last (u ++ String c "") = u.
Proof.
  induction u as [| a u IH]; [reflexivity |].
  cbn [String.append drop_last]. rewrite IH.
  destruct u; reflexivity.
Qed.

Lemma single_slash_prefix (u : string) :
  has_double_slash (u ++ "/") = false ->
  has_double_slash u = false /\ endsWith "/" u = false.
Proof.
  induction u as [| a u IH]; [split; reflexivity |].
  cbn [String.append has_double_slash endsWith]. intros H.
  apply orb_false_elim in H. destruct H as [Hhead Htail].
  destruct (IH Htail) as [IHd IHe]. rewrite IHd, IHe, !orb_false_r.
  destruct (Ascii.eqb a "/") eqn:Ha; [| split; [reflexivity |]].
  - cbn [andb] in Hhead. destruct u as [| b u]; [discriminate Hhead |].
    cbn [String.append startsWith] in Hhead |- *. rewrite Hhead.
    split; [reflexivity |].
    cbn [String.eqb]. rewrite Ascii.eqb_sym, Ha. reflexivity.
  - cbn [String.eqb]. rewrite Ascii.eqb_sym, Ha. reflexivity.
Qed.

(** The path once the leading slash is ensured. *)
Lemma leading_slash (t : string) :
  has_double_slash t = false ->
  let r := if negb (startsWith "/" t) then "/" ++ t else t in
  startsWith "/" r = true /\ has_double_slash r = false.
Proof.
  intros Ht. cbv zeta. destruct (startsWith "/" t) eqn:Hs; cbn [negb].
  - split; assumption.
  - split; [reflexivity |]. cbn [String.append has_double_slash]. rewrite Hs, Ht. reflexivity.
Qed.

Lemma remove_groups_outside (dirs x : string) :
  has_char "(" dirs = false ->
  remove_groups_from None (dirs ++ x) = dirs ++ remove_groups_from None x.
Proof.
  induction dirs as [| c r IH]; [reflexivity |].
  cbn [has_char String.append remove_groups_from]. intros H.
  apply orb_false_elim in H. destruct H as [Hc Hr].
  rewrite Ascii.eqb_sym, Hc, (IH Hr). reflexivity.
Qed.

Lemma remove_groups_inside (g buf rest : string) :
  has_char ")" g = false -> buf ++ g <> "" ->
  remove_groups_from (Some buf) (g ++ ")" ++ rest) = remove_groups_from None rest.
Proof.
  revert buf. induction g as [| c r IH]; intros buf Hg Hne.
  - cbn [String.append remove_groups_from Ascii.eqb Bool.eqb].
    destruct buf; [| reflexivity]. exfalso. apply Hne. reflexivity.
  - cbn [has_char] in Hg. apply orb_false_elim in Hg. destruct Hg as [Hc Hr].
    cbn [String.append remove_groups_from]. rewrite Ascii.eqb_sym, Hc.
    apply IH; [exact Hr |].
    destruct buf; cbn; discriminate.
Qed.

End RoutePaths.

(** X21. Every route path that [extractRoutePath] returns is in one
    form, whatever the directory path it is given: it starts with a
    slash, holds no two slashes in a row, and ends with a slash only
    when it is the root [/]. *)
Theorem extractRoutePath_normalised (relativePath : string) :
  let routePath := Scanner.extractRoutePath relativePath in
  JS.startsWith "/" routePath = true /\
  Scanner.has_double_slash routePath = false /\
  (routePath = "/" \/ Scanner.endsWith "/" routePath = false).
Proof.
  cbv zeta. unfold Scanner.extractRoutePath.
  set (t := Scanner.collapse_slashes (Scanner.remove_groups (Scanner.strip_app relativePath))).
  destruct (leading_slash t (collapse_slashes_single _)) as [Hs Hd].
  set (r := if negb (JS.startsWith "/" t) then ("/" ++ t)%string else t) in *.
  destruct (String.eqb_spec r "/") as [Hroot | Hroot]; cbn [negb andb].
  { split; [exact Hs |]. split; [exact Hd |]. left. exact Hroot. }
  destruct (Scanner.endsWith "/" r) eqn:He.
  2:{ split; [exact Hs |]. split; [exact Hd |]. right. exact He. }
  destruct (endsWith_slash_app r He) as [u Hu]. rewrite Hu in *.
  rewrite drop_last_app.
  destruct (single_slash_prefix u Hd) as [Hud Hue].
  split; [| split; [exact Hud | right; exact Hue]].
  destruct u as [| a u]; [exfalso; apply Hroot; reflexivity |].
  exact Hs.
Qed.

(** X22. A route group is invisible in the route path: below [app/],
    a segment [(name)] with a non-empty name changes nothing, so a
    directory inside a group gets the route path of the same directory
    outside it. *)
Theorem extractRoutePath_skips_route_group (dirs group rest : string) :
  Scanner.has_char "(" dirs = false ->
  group <> "" ->
  Scanner.has_char ")" group = false ->
  Scanner.extractRoutePath ("app/" ++ dirs ++ "(" ++ group ++ ")" ++ rest)
  = Scanner.extractRoutePath ("app/" ++ dirs ++ rest).
Proof.
  intros Hdirs Hne Hgroup. unfold Scanner.extractRoutePath.
  change (Scanner.strip_app ("app/" ++ dirs ++ "(" ++ group ++ ")" ++ rest))
    with (dirs ++ "(" ++ group ++ ")" ++ rest)%string.
  change (Scanner.strip_app ("app/" ++ dirs ++ rest)) with (dirs ++ rest)%string.
  unfold Scanner.remove_groups.
  rewrite (remove_groups_outside dirs ("(" ++ group ++ ")" ++ rest) Hdirs).
  rewrite (remove_groups_outside dirs rest Hdirs).
  change (Scanner.remove_groups_from None ("(" ++ group ++ ")" ++ rest))
    with (Scanner.remove_groups_from (Some "") (group ++ ")" ++ rest)).
  rewrite (remove_groups_inside group "" rest Hgroup Hne). reflexivity.
Qed.

Lemma extractRoutePath_skips_route_group_witness :
  Scanner.extractRoutePath ("app/" ++ "shop/" ++ "(" ++ "checkout" ++ ")" ++ "/cart")
  = Scanner.extractRoutePath ("app/" ++ "shop/" ++ "/cart").
Proof.
  apply (extractRoutePath_skips_route_group "shop/" "checkout" "/cart").
  - reflexivity.
  - discriminate.
  - reflexivity.
Defined.

(* ===================================================================== *)
(** ** The codebase scanner: the routes of a scan *)
(* ===================================================================== *)

Section ScanFacts.
Import JS Scanner.

Lemma Entry_induction (P : Entry -> Prop) :
  (forall name, P (File name)) ->
  (forall name entries, Forall P entries -> P (Dir name entries)) ->
  (forall name e, P (Unreadable name e)) ->
  forall e, P e.
Proof.
  intros HF HD HU. fix IH 1. intros [name | name entries | name e].
  - apply HF.
  - apply HD. induction entries as [| x r IHr]; constructor; [apply IH | exact IHr].
  - apply HU.
Qed.

Lemma Map_get_set_same (k : string) (v : RouteInfo) (m : Routes) :
  Map_get k (Map_set k v m) = Some v.
Proof.
  induction m as [| [k' v'] r IH]; cbn [Map_set Map_get]; [now rewrite String.eqb_refl |].
  destruct (String.eqb k k') eqn:He; cbn [Map_get]; [now rewrite String.eqb_refl |].
  rewrite He. exact IH.
Qed.

Lemma Map_get_set_other (k k' : string) (v : RouteInfo) (m : Routes) :
  k <> k' -> Map_get k (Map_set k' v m) = Map_get k m.
Proof.
  intros Hne. assert (Hkk : String.eqb k k' = false) by (apply String.eqb_neq; exact Hne).
  induction m as [| [k0 v0] r IH]; cbn [Map_set Map_get]; [now rewrite Hkk |].
  destruct (String.eqb_spec k' k0) as [-> | Hk0]; cbn [Map_get].
  - rewrite Hkk. reflexivity.
  - rewrite IH. reflexivity.
Qed.

Lemma Map_get_In (k : string) (v : RouteInfo) (m : Routes) :
  Map_get k m = Some v -> In (k, v) m.
Proof.
  induction m as [| [k' v'] r IH]; cbn [Map_get]; [discriminate |].
  destruct (String.eqb_spec k k') as [-> | _].
  - intros H. inversion H. left. reflexivity.
  - intros H. right. apply IH. exact H.
Qed.

Lemma Map_get_None (k : string) (m : Routes) :
  ~ In k (map fst m) -> Map_get k m = None.
Proof.
  induction m as [| [k' v'] r IH]; cbn [Map_get map fst]; [reflexivity |].
  intros Hn. destruct (String.eqb_spec k k') as [-> | _].
  - exfalso. apply Hn. left. reflexivity.
  - apply IH. intros Hin. apply Hn. right. exact Hin.
Qed.

Lemma Map_set_keys (x k : string) (v : RouteInfo) (m : Routes) :
  In x (map fst (Map_set k v m)) -> x = k \/ In x (map fst m).
Proof.
  induction m as [| [k' v'] r IH]; cbn [Map_set map fst].
  - intros [H | []]. left. symmetry. exact H.
  - destruct (String.eqb_spec k k') as [-> | _]; cbn [map fst].
    + intros [H | H]; [left; symmetry; exact H | right; right; exact H].
    + intros [H | H]; [right; left; exact H |].
      destruct (IH H) as [Hk | Hr]; [left; exact Hk | right; right; exact Hr].
Qed.

Lemma Map_set_ok (k : string) (v : RouteInfo) (m : Routes) :
  routes_ok m -> route_ok (k, v) -> routes_ok (Map_set k v m).
Proof.
  intros [Hnd Hall] Hv. split.
  - induction m as [| [k' v'] r IH]; cbn [Map_set map fst].
    + constructor; [intros [] | constructor].
    + inversion Hnd as [| ? ? Hfresh Hnd']. subst. inversion Hall as [| ? ? _ Hall']. subst.
      destruct (String.eqb_spec k k') as [-> | Hne]; cbn [map fst].
      * constructor; assumption.
      * constructor; [| apply IH; assumption].
        intros Hin. apply Map_set_keys in Hin. destruct Hin as [Hk | Hin].
        -- apply Hne. symmetry. exact Hk.
        -- apply Hfresh. exact Hin.
  - clear Hnd. induction Hall as [| [k' v'] r Hkv Hr IH]; cbn [Map_set].
    + constructor; [exact Hv | constructor].
    + destruct (String.eqb k k'); constructor; assumption.
Qed.

Lemma visit_file_ok (rel entry : string) (acc : ScanResult) :
  routes_ok (routes acc) -> routes_ok (routes (visit_file rel entry acc)).
Proof.
  intros Hacc. unfold visit_file. cbn [routes].
  destruct (is_route_file entry) eqn:Hroute; [| exact Hacc].
  destruct (Map_get (extractRoutePath rel) (routes acc)) as [existing |] eqn:Hget;
    apply Map_set_ok; try exact Hacc.
  - apply Map_get_In in Hget. destruct Hacc as [_ Hall].
    rewrite Forall_forall in Hall. destruct (Hall _ Hget) as [Hpath [_ [Hfiles _]]].
    cbn [fst snd] in Hpath, Hfiles.
    split; [exact Hpath |]. cbn [fst snd files].
    split; [intros Hnil; apply app_eq_nil in Hnil; destruct Hnil; discriminate |].
    split; [| exists rel; reflexivity].
    rewrite forallb_app, Hfiles. cbn [forallb]. rewrite Hroute. reflexivity.
  - split; [reflexivity |]. cbn [fst snd files].
    split; [discriminate |]. split; [| exists rel; reflexivity].
    cbn [forallb]. rewrite Hroute. reflexivity.
Qed.

Lemma merge_routes_ok (sub acc : Routes) :
  routes_ok acc -> Forall route_ok sub ->
  routes_ok (fold_left (fun m kv => Map_set (fst kv) (snd kv) m) sub acc).
Proof.
  intros Hacc Hsub. revert acc Hacc.
  induction Hsub as [| [k v] r Hkv Hr IH]; intros acc Hacc; [exact Hacc |].
  cbn [fold_left fst snd]. apply IH. apply Map_set_ok; assumption.
Qed.

Lemma merge_ok (acc sub : ScanResult) :
  routes_ok (routes acc) -> routes_ok (routes sub) -> routes_ok (routes (merge acc sub)).
Proof.
  intros Hacc [_ Hsub]. unfold merge. cbn [routes]. apply merge_routes_ok; assumption.
Qed.

Lemma empty_ok : routes_ok (routes empty).
Proof. split; constructor. Qed.

Lemma fold_throw {A B} (f : A -> B -> Completion A) (l : list B) (e : Error) :
  fold_left (fun a x => bind a (fun a' => f a' x)) l (Throw e) = Throw e.
Proof. induction l as [| x r IH]; [reflexivity | exact IH]. Qed.

(** A property that every turn of a loop keeps holds of its result. *)
Lemma fold_keeps {A B} (Q : A -> Prop) (f : A -> B -> Completion A) (l : list B) :
  Forall (fun x => forall a res, Q a -> f a x = Return res -> Q res) l ->
  forall start res,
    (forall a, start = Return a -> Q a) ->
    fold_left (fun a x => bind a (fun a' => f a' x)) l start = Return res -> Q res.
Proof.
  induction 1 as [| x r Hx Hr IH]; intros start res Hstart H.
  - apply Hstart. exact H.
  - cbn [fold_left] in H. apply (IH _ _) in H; [exact H |].
    intros a Ha. destruct start as [a0 | e]; [| discriminate Ha].
    cbn [bind] in Ha. apply (Hx a0); [apply Hstart; reflexivity | exact Ha].
Qed.

Lemma visit_Dir (rel : string) (depth maxDepth : nat) (acc : ScanResult) (name : string)
    (entries : list Entry) :
  visit rel depth maxDepth acc (Dir name entries) =
    if shouldIgnoreDirectory name then Return acc
    else bind (scanDirectory (rel ++ "/" ++ name) (depth + 1) maxDepth (Return entries))
              (fun subResults => Return (merge acc subResults)).
Proof. reflexivity. Qed.

Lemma scan_entries_keeps (entries : list Entry) :
  Forall (fun e => forall rel depth maxDepth acc res,
            routes_ok (routes acc) -> visit rel depth maxDepth acc e = Return res ->
            routes_ok (routes res)) entries ->
  forall rel depth maxDepth res,
    scan_entries rel depth maxDepth entries = Return res -> routes_ok (routes res).
Proof.
  intros Hall rel depth maxDepth res H. unfold scan_entries in H.
  apply (fold_keeps (fun a => routes_ok (routes a))
           (fun a e => visit rel depth maxDepth a e) entries) in H; [exact H | |].
  - apply (Forall_impl _ (P := fun e => forall rel depth maxDepth acc res,
             routes_ok (routes acc) -> visit rel depth maxDepth acc e = Return res ->
             routes_ok (routes res))); [| exact Hall].
    intros e He a r Ha Hr. apply (He rel depth maxDepth a r Ha Hr).
  - intros a Ha. inversion Ha. apply empty_ok.
Qed.

Lemma visit_ok (e : Entry) :
  forall rel depth maxDepth acc res,
    routes_ok (routes acc) -> visit rel depth maxDepth acc e = Return res ->
    routes_ok (routes res).
Proof.
  induction e as [name | name entries IH | name err] using Entry_induction;
    intros rel depth maxDepth acc res Hacc H.
  - cbn [visit] in H. inversion H. apply visit_file_ok. exact Hacc.
  - rewrite visit_Dir in H.
    destruct (shouldIgnoreDirectory name); [inversion H; subst; exact Hacc |].
    unfold scanDirectory in H. cbn [bind] in H.
    destruct (maxDepth <? depth + 1)%nat.
    + cbn [bind] in H. inversion H. apply merge_ok; [exact Hacc | apply empty_ok].
    + destruct (scan_entries _ _ _ entries) as [sub | e0] eqn:Hsub; cbn [bind] in H;
        [| discriminate].
      inversion H. apply merge_ok; [exact Hacc |].
      apply (scan_entries_keeps entries IH _ _ _ _ Hsub).
  - cbn [visit] in H.
    destruct (shouldIgnoreDirectory name); [inversion H; subst; exact Hacc |].
    destruct (maxDepth <? depth + 1)%nat; cbn [bind] in H; [| discriminate].
    inversion H. apply merge_ok; [exact Hacc | apply empty_ok].
Qed.

Lemma scanDirectory_ok (rel : string) (depth maxDepth : nat)
    (listing : Completion (list Entry)) (res : ScanResult) :
  scanDirectory rel depth maxDepth listing = Return res -> routes_ok (routes res).
Proof.
  unfold scanDirectory. destruct (maxDepth <? depth)%nat.
  - intros H. inversion H. apply empty_ok.
  - destruct listing as [entries | e]; cbn [bind]; [| discriminate].
    apply scan_entries_keeps. apply Forall_forall. intros e _. apply visit_ok.
Qed.

(** What a merge leaves under a key of the merged map. *)
Lemma merge_routes_other (k : string) (sub acc : Routes) :
  ~ In k (map fst sub) ->
  Map_get k (fold_left (fun m kv => Map_set (fst kv) (snd kv) m) sub acc) = Map_get k acc.
Proof.
  revert acc. induction sub as [| [k' v'] r IH]; intros acc Hn; [reflexivity |].
  cbn [fold_left fst snd]. rewrite IH.
  - apply Map_get_set_other. intros ->. apply Hn. left. reflexivity.
  - intros Hin. apply Hn. right. exact Hin.
Qed.

Lemma merge_routes_get (k : string) (v : RouteInfo) (sub acc : Routes) :
  NoDup (map fst sub) -> Map_get k sub = Some v ->
  Map_get k (fold_left (fun m kv => Map_set (fst kv) (snd kv) m) sub acc) = Some v.
Proof.
  revert acc. induction sub as [| [k' v'] r IH]; intros acc Hnd Hget; [discriminate |].
  inversion Hnd as [| ? ? Hfresh Hnd']. subst.
  cbn [fold_left fst snd]. cbn [Map_get] in Hget.
  destruct (String.eqb_spec k k') as [-> | Hne].
  - inversion Hget. subst v'. rewrite merge_routes_other by exact Hfresh.
    apply Map_get_set_same.
  - apply IH; assumption.
Qed.

End ScanFacts.

(** X23. The routes of a scan are well formed: whenever
    [scanDirectory] returns, no two routes of its result have the same
    path, each route is filed under its own [path], that path is the
    route path of a directory, and its [files] are not empty and hold
    only page, layout, loading and error files. *)
Theorem scanDirectory_routes_well_formed (rel : string) (depth maxDepth : nat)
    (listing : JS.Completion (list Scanner.Entry)) (res : Scanner.ScanResult) :
  Scanner.scanDirectory rel depth maxDepth listing = JS.Return res ->
  NoDup (map fst (Scanner.routes res)) /\
  Forall (fun kv =>
            Scanner.path (snd kv) = fst kv /\
            Scanner.files (snd kv) <> [] /\
            forallb Scanner.is_route_file (Scanner.files (snd kv)) = true /\
            exists dir, fst kv = Scanner.extractRoutePath dir)
         (Scanner.routes res).
Proof.
  intros H. exact (scanDirectory_ok rel depth maxDepth listing res H).
Qed.

Lemma scanDirectory_routes_well_formed_witness :
  NoDup (map fst [ ("/", Scanner.mkRoute "/" [ "layout.tsx" ]) ]) /\
  Forall (fun kv =>
            Scanner.path (snd kv) = fst kv /\
            Scanner.files (snd kv) <> [] /\
            forallb Scanner.is_route_file (Scanner.files (snd kv)) = true /\
            exists dir, fst kv = Scanner.extractRoutePath dir)
         [ ("/", Scanner.mkRoute "/" [ "layout.tsx" ]) ].
Proof.
  exact (scanDirectory_routes_well_formed "app" 0 10 (JS.Return ScannerSamples.two_groups)
           (Scanner.mkScan [ ("/", Scanner.mkRoute "/" [ "layout.tsx" ]) ] [] []) eq_refl).
Defined.

(** X24. Merging the result of a subdirectory replaces: when the scan
    of a subdirectory holds a route for a path, that route is what the
    scan of the parent holds for the path once the subdirectory is
    merged, and the files that the entries before it had recorded for
    the same path are gone. Two route groups with a layout each thus
    leave the root route with the files of the second group only. *)
Theorem scanDirectory_merge_replaces (rel : string) (depth maxDepth : nat)
    (before sub : list Scanner.Entry) (name : string)
    (acc subResults : Scanner.ScanResult) (k : string) (info : Scanner.RouteInfo) :
  depth <= maxDepth ->
  Scanner.scan_entries rel depth maxDepth before = JS.Return acc ->
  Scanner.shouldIgnoreDirectory name = false ->
  Scanner.scanDirectory (rel ++ "/" ++ name) (depth + 1) maxDepth (JS.Return sub)
    = JS.Return subResults ->
  Scanner.Map_get k (Scanner.routes subResults) = Some info ->
  exists res,
    Scanner.scanDirectory rel depth maxDepth
      (JS.Return (before ++ [ Scanner.Dir name sub ])%list) = JS.Return res /\
    Scanner.Map_get k (Scanner.routes res) = Some info.
Proof.
  intros Hdepth Hbefore Hname Hsub Hget.
  exists (Scanner.merge acc subResults). split.
  - unfold Scanner.scanDirectory at 1.
    destruct (Nat.ltb_spec maxDepth depth) as [Hlt | _]; [lia |].
    cbn [JS.bind]. unfold Scanner.scan_entries in Hbefore |- *.
    rewrite fold_left_app, Hbefore. cbn [fold_left JS.bind].
    rewrite visit_Dir, Hname, Hsub. reflexivity.
  - unfold Scanner.merge. cbn [Scanner.routes].
    apply merge_routes_get; [| exact Hget].
    apply (scanDirectory_ok _ _ _ _ _ Hsub).
Qed.

Lemma scanDirectory_merge_replaces_witness :
  exists res,
    Scanner.scanDirectory "app" 0 10
      (JS.Return ([ Scanner.Dir "(marketing)" [ Scanner.File "layout.tsx";
                                                 Scanner.File "page.tsx" ] ]
                  ++ [ Scanner.Dir "(shop)" [ Scanner.File "layout.tsx" ] ])%list)
    = JS.Return res /\
    Scanner.Map_get "/" (Scanner.routes res) = Some (Scanner.mkRoute "/" [ "layout.tsx" ]).
Proof.
  apply (scanDirectory_merge_replaces "app" 0 10
           [ Scanner.Dir "(marketing)" [ Scanner.File "layout.tsx"; Scanner.File "page.tsx" ] ]
           [ Scanner.File "layout.tsx" ] "(shop)"
           (Scanner.mkScan [ ("/", Scanner.mkRoute "/" [ "layout.tsx"; "page.tsx" ]) ] [] [])
           (Scanner.mkScan [ ("/", Scanner.mkRoute "/" [ "layout.tsx" ]) ] [] [])
           "/" (Scanner.mkRoute "/" [ "layout.tsx" ])).
  - lia.
  - reflexivity.
  - reflexivity.
  - reflexivity.
  - reflexivity.
Defined.

Section ScanDepth.
Import JS Scanner.

Lemma fold_left_agree {A B} (f g : A -> B -> A) (l : list B) (h : B -> B) :
  Forall (fun x => forall a, f a x = g a (h x)) l ->
  forall start, fold_left f l start = fold_left g (map h l) start.
Proof.
  induction 1 as [| x r Hx Hr IH]; intros start; [reflexivity |].
  cbn [map fold_left]. rewrite Hx. apply IH.
Qed.

Lemma visit_prune (e : Entry) :
  forall rel depth maxDepth acc,
    visit rel depth maxDepth acc e = visit rel depth maxDepth acc (prune (maxDepth - depth) e).
Proof.
  induction e as [name | name entries IH | name err] using Entry_induction;
    intros rel depth maxDepth acc; [reflexivity | |].
  - destruct (maxDepth - depth) as [| n] eqn:Hn; cbn [prune]; rewrite !visit_Dir;
      destruct (shouldIgnoreDirectory name); try reflexivity; unfold scanDirectory.
    + destruct (Nat.ltb_spec maxDepth (depth + 1)); [reflexivity | lia].
    + destruct (Nat.ltb_spec maxDepth (depth + 1)); [reflexivity |].
      cbn [bind]. unfold scan_entries. f_equal.
      apply (fold_left_agree
               (fun a e' => bind a (fun a' => visit (rel ++ "/" ++ name) (depth + 1) maxDepth a' e'))
               (fun a e' => bind a (fun a' => visit (rel ++ "/" ++ name) (depth + 1) maxDepth a' e'))
               entries (prune n)).
      apply (Forall_impl _ (P := fun e => forall rel depth maxDepth acc,
               visit rel depth maxDepth acc e
               = visit rel depth maxDepth acc (prune (maxDepth - depth) e))); [| exact IH].
      intros e He a. destruct a as [a' | e0]; [| reflexivity]. cbn [bind].
      rewrite (He (rel ++ "/" ++ name) (depth + 1) maxDepth a').
      replace (maxDepth - (depth + 1)) with n by lia. reflexivity.
  - destruct (maxDepth - depth) as [| n] eqn:Hn; cbn [prune]; [| reflexivity].
    rewrite visit_Dir. cbn [visit].
    destruct (shouldIgnoreDirectory name); [reflexivity |]. unfold scanDirectory.
    destruct (Nat.ltb_spec maxDepth (depth + 1)); [reflexivity | lia].
Qed.

End ScanDepth.

(** X25. The scan stops at [maxDepth]: the result of [scanDirectory]
    at [depth] is the result on the listing in which every directory
    more than [maxDepth - depth] levels down is emptied. What lies
    below the limit is never read, and a directory there that cannot
    be read does not fail the scan. *)
Theorem scanDirectory_stops_at_maxDepth (rel : string) (depth maxDepth : nat)
    (entries : list Scanner.Entry) :
  Scanner.scanDirectory rel depth maxDepth (JS.Return entries)
  = Scanner.scanDirectory rel depth maxDepth
      (JS.Return (map (Scanner.prune (maxDepth - depth)) entries)).
Proof.
  unfold Scanner.scanDirectory. destruct (maxDepth <? depth)%nat; [reflexivity |].
  cbn [JS.bind]. unfold Scanner.scan_entries.
  apply (fold_left_agree
           (fun a e => JS.bind a (fun a' => Scanner.visit rel depth maxDepth a' e))
           (fun a e => JS.bind a (fun a' => Scanner.visit rel depth maxDepth a' e))
           entries (Scanner.prune (maxDepth - depth))).
  apply Forall_forall. intros e _ a. destruct a as [a' | e0]; [| reflexivity].
  cbn [JS.bind]. apply visit_prune.
Qed.

(* ===================================================================== *)
(** ** Sample route paths and extensions *)
(* ===================================================================== *)

Example extractRoutePath_samples :
  map Scanner.extractRoutePath
    [ "app"; "app/"; "app/(auth)/login"; "app/(a)/(b)/c"; "app/blog/"; "app//x";
      "app/()"; "app/(a"; "application/x" ]
  = [ "/"; "/"; "/login"; "/c"; "/blog"; "/x"; "/()"; "/(a"; "/lication/x" ].
Proof. vm_compute. reflexivity. Qed.

Example extname_samples :
  map Scanner.extname [ "page.tsx"; "card.client.tsx"; ".env"; ".env.local"; "README"; "a."; ".." ]
  = [ ".tsx"; ".tsx"; ""; ".local"; ""; "."; "" ].
Proof. vm_compute. reflexivity. Qed.

Example scanDirectory_sample :
  Scanner.scanDirectory "app" 0 10
    (JS.Return [ Scanner.File "page.tsx";
                 Scanner.Dir "blog" [ Scanner.File "page.tsx"; Scanner.File "actions.ts" ];
                 Scanner.Dir "components" [ Scanner.File "card.tsx" ];
                 Scanner.Dir ".cache" [ Scanner.File "page.tsx" ] ])
  = JS.Return
      (Scanner.mkScan
         [ ("/", Scanner.mkRoute "/" [ "page.tsx" ]);
           ("/blog", Scanner.mkRoute "/blog" [ "page.tsx" ]) ]
         [ "app/components/card.tsx" ]
         [ "app/blog/actions.ts" ]).
Proof. vm_compute. reflexivity. Qed.
